(** * libmbus: the serial transport and the baud-switch request tool

    A shallow embedding of the serial transport ([mbus_serial_connect],
    [mbus_serial_set_baudrate], [mbus_serial_send_frame],
    [mbus_serial_recv_frame]) and of the reply-polling loop of
    [bin/mbus-serial-request-data.c].

    The C functions talk to the operating system ([open], [tcsetattr],
    [write], [read], [tcdrain]) and to two registered callbacks.  Every such
    call is recorded, with its arguments and its result, in a chronological
    trace; the results themselves come from an oracle [os], so a theorem
    quantified over [os] holds for every behaviour of the device. *)

From Stdlib Require Import ZArith Lia.
From Stdlib Require Strings.Byte.
From stdpp Require Import base numbers option strings pretty list.
Import Stdlib.Init.Byte.

Local Open Scope Z_scope.

(** ** Constants of the platform headers

    [<termios.h>] and [<fcntl.h>] are not part of the repository; the values
    below are those of Linux, where the speed constants are codes kept in the
    [CBAUD] bits of the flag word [c_cflag]. *)

Definition CS8 : Z := 48.       (* 0000060 *)
Definition CREAD : Z := 128.    (* 0000200 *)
Definition PARENB : Z := 256.   (* 0000400 *)
Definition CLOCAL : Z := 2048.  (* 0004000 *)
Definition CBAUD : Z := 4111.   (* 0010017, the mask of the speed code *)
Definition IBAUD0 : Z := 2147483648.  (* 020000000000, a bit of [c_iflag] *)
Definition O_RDWR : Z := 2.
Definition O_NOCTTY : Z := 256.
Definition TCSANOW : Z := 0.
Definition NCCS : nat := 32.
Definition VTIME : nat := 5.
Definition VMIN : nat := 6.

(** [#define PACKET_BUFF_SIZE 2048] *)
Definition PACKET_BUFF_SIZE : Z := 2048.

(** [MBUS_HANDLE_TYPE_SERIAL], the tag handed to the event callbacks. *)
Definition MBUS_HANDLE_TYPE_SERIAL : Z := 1.

(** [speed_t]: the speed constants the code uses, and [B0], which a zeroed
    [struct termios] holds. *)
Inductive speed_t := B0 | B300 | B1200 | B2400 | B9600.

(** Baud rate a speed constant stands for. *)
Definition speed_baud (s : speed_t) : Z :=
  match s with
  | B0 => 0 | B300 => 300 | B1200 => 1200 | B2400 => 2400 | B9600 => 9600
  end.

(** The code of a speed constant, its value in [<termios.h>]. *)
Definition speed_code (s : speed_t) : Z :=
  match s with
  | B0 => 0 | B300 => 7 | B1200 => 9 | B2400 => 11 | B9600 => 13
  end.

(** [struct termios]; [c_cc] is the array of control characters. *)
Record termios := mk_termios {
  c_iflag : Z;
  c_oflag : Z;
  c_cflag : Z;
  c_lflag : Z;
  c_cc : list Z;
  c_ispeed : speed_t;
  c_ospeed : speed_t
}.

(** [memset(term, 0, sizeof( *term))] *)
Definition termios_zero : termios :=
  mk_termios 0 0 0 0 (replicate NCCS 0) B0 B0.

Definition set_c_cflag (t : termios) (v : Z) : termios :=
  mk_termios (c_iflag t) (c_oflag t) v (c_lflag t) (c_cc t)
             (c_ispeed t) (c_ospeed t).

(** [t.c_cc[i] = v] *)
Definition set_c_cc (t : termios) (i : nat) (v : Z) : termios :=
  mk_termios (c_iflag t) (c_oflag t) (c_cflag t) (c_lflag t)
             (<[i:=v]> (c_cc t)) (c_ispeed t) (c_ospeed t).

(** [cfsetispeed] and [cfsetospeed], as the C library of Linux has them.
    They store the speed in the structure and write its code into the
    [CBAUD] bits of [c_cflag]: [c_cflag &= ~CBAUD; c_cflag |= speed].
    [cfsetispeed] does so for a speed other than [B0], and it keeps the bit
    [IBAUD0] of [c_iflag] set for [B0] and clear for every other speed.  They
    fail only for a value that is not a speed constant, which [speed_t]
    excludes, so they return 0. *)
Definition cfsetispeed (t : termios) (s : speed_t) : Z * termios :=
  match s with
  | B0 =>
    (0, mk_termios (Z.lor (c_iflag t) IBAUD0) (c_oflag t) (c_cflag t)
                   (c_lflag t) (c_cc t) s (c_ospeed t))
  | _ =>
    (0, mk_termios (Z.ldiff (c_iflag t) IBAUD0) (c_oflag t)
                   (Z.lor (Z.ldiff (c_cflag t) CBAUD) (speed_code s))
                   (c_lflag t) (c_cc t) s (c_ospeed t))
  end.

Definition cfsetospeed (t : termios) (s : speed_t) : Z * termios :=
  (0, mk_termios (c_iflag t) (c_oflag t)
                 (Z.lor (Z.ldiff (c_cflag t) CBAUD) (speed_code s))
                 (c_lflag t) (c_cc t) (c_ispeed t) s).

(** Conversions between the integer types of C: a [long] or [ssize_t] stored
    in an [int] ([main] passes its [baudrate] to [mbus_serial_set_baudrate],
    [mbus_serial_send_frame] stores the result of [write] in [ret]) is
    reduced modulo 2^32, and an [int] passed as a [size_t] (the length handed
    to [write]) modulo 2^64. *)
Definition to_int (n : Z) : Z := (n + 2 ^ 31) mod 2 ^ 32 - 2 ^ 31.

Definition to_size_t (n : Z) : Z := n mod 2 ^ 64.

(** ** Handles *)

(** [mbus_serial_data]: the device path (a [char *], possibly NULL) and the
    line settings. *)
Record mbus_serial_data := mk_serial_data {
  device : option string;
  t : termios
}.

(** [mbus_handle], as far as the serial transport uses it. *)
Record mbus_handle := mk_handle {
  fd : Z;
  auxdata : option mbus_serial_data
}.

(** ** The outside world *)

(** What the operating system answers.  [os_read k fd count] is the answer to
    the [k]-th [read] issued since the start (counted from 0): [None] for a
    failed read (-1), [Some bs] for the bytes that are waiting.
    [os_strerror fd data count] is the text [strerror(errno)] yields after
    the [write] issued with these arguments. *)
Record os := mk_os {
  os_open : string -> Z -> Z;
  os_tcsetattr : Z -> Z -> termios -> Z;
  os_write : Z -> list byte -> Z -> Z;
  os_read : nat -> Z -> Z -> option (list byte);
  os_strerror : Z -> list byte -> Z -> string
}.

Inductive event :=
| EvOpen (path : string) (flags : Z) (ret : Z)
| EvTcsetattr (fildes : Z) (actions : Z) (tio : termios) (ret : Z)
| EvWrite (fildes : Z) (data : list byte) (count : Z) (ret : Z)
| EvTcdrain (fildes : Z)
| EvRead (fildes : Z) (count : Z) (ret : option (list byte))
| EvSendEvent (src : Z) (data : list byte)
| EvRecvEvent (src : Z) (data : list byte)
| EvStderr (msg : string).

(** The state of the world as the program sees it: how many [read]s have been
    issued, and everything done so far, oldest first. *)
Record world := mk_world {
  w_nreads : nat;
  w_trace : list event
}.

Definition log (e : event) (w : world) : world :=
  mk_world (w_nreads w) (w_trace w ++ [e]).

Definition fresh : world := mk_world 0 [].

Section Serial.

Variable OS : os.

(** *** [mbus_serial_connect]

    Returns 1 when the connection is set up and 0 otherwise.  The result of
    [tcsetattr] is not looked at. *)
Definition mbus_serial_connect (handle : option mbus_handle) (w : world)
  : Z * option mbus_handle * world :=
  match handle with
  | None => (0, None, w)
  | Some h =>
    match auxdata h with
    | None => (0, handle, w)
    | Some serial_data =>
      match device serial_data with
      | None => (0, handle, w)
      | Some dev =>
        let flags := Z.lor O_RDWR O_NOCTTY in
        let fd' := os_open OS dev flags in
        let w := log (EvOpen dev flags fd') w in
        if fd' <? 0 then
          (0, Some (mk_handle fd' (auxdata h)),
           log (EvStderr "mbus_serial_connect: failed to open tty.") w)
        else
          let term := termios_zero in
          let term := set_c_cflag term
                        (Z.lor (c_cflag term) (Z.lor (Z.lor CS8 CREAD) CLOCAL)) in
          let term := set_c_cflag term (Z.lor (c_cflag term) PARENB) in
          let term := set_c_cc term VMIN 0 in
          let term := set_c_cc term VTIME 2 in
          let term := snd (cfsetispeed term B2400) in
          let term := snd (cfsetospeed term B2400) in
          let r := os_tcsetattr OS fd' TCSANOW term in
          let w := log (EvTcsetattr fd' TCSANOW term r) w in
          (1, Some (mk_handle fd' (Some (mk_serial_data (device serial_data) term))), w)
      end
    end
  end.

(** *** [mbus_serial_set_baudrate]

    The [switch] picks the speed constant and writes [VTIME] into the handle's
    settings.  [serial_data] is dereferenced without a NULL test, so a handle
    without [auxdata] gives no defined result ([None]) for a supported
    rate. *)
Definition mbus_serial_set_baudrate
    (handle : option mbus_handle) (baudrate : Z) (w : world)
  : option (Z * option mbus_handle * world) :=
  match handle with
  | None => Some (-1, None, w)
  | Some h =>
    let serial_data := auxdata h in
    let switch : option (speed_t * Z) :=
      match baudrate with
      | 300 => Some (B300, 12)
      | 1200 => Some (B1200, 4)
      | 2400 => Some (B2400, 2)
      | 9600 => Some (B9600, 1)
      | _ => None
      end in
    match switch with
    | None => Some (-1, handle, w)   (* unsupported baudrate *)
    | Some (speed, vtime) =>
      match serial_data with
      | None => None
      | Some sd =>
        let t1 := set_c_cc (t sd) VTIME vtime in
        let '(r, t2) := cfsetispeed t1 speed in
        if negb (r =? 0) then
          Some (-1, Some (mk_handle (fd h) (Some (mk_serial_data (device sd) t2))), w)
        else
        let '(r, t3) := cfsetospeed t2 speed in
        if negb (r =? 0) then
          Some (-1, Some (mk_handle (fd h) (Some (mk_serial_data (device sd) t3))), w)
        else
        let h' := mk_handle (fd h) (Some (mk_serial_data (device sd) t3)) in
        let r := os_tcsetattr OS (fd h) TCSANOW t3 in
        let w := log (EvTcsetattr (fd h) TCSANOW t3 r) w in
        if negb (r =? 0) then Some (-1, Some h', w)
        else Some (0, Some h', w)
      end
    end
  end.

(** The first [count] bytes of [buff], all of them when there are no more. *)
Definition first_bytes (count : Z) (buff : list byte) : list byte :=
  if Z.of_nat (length buff) <=? count then buff
  else take (Z.to_nat count) buff.

(** What [mbus_serial_send_frame] writes to [stderr] when [write] has not
    returned the packed length, without the newline: the format is
    ["%s: Failed to write frame to socket (ret = %d: %s)"]. *)
Definition write_failed_msg (ret : Z) (err : string) : string :=
  "mbus_serial_send_frame: Failed to write frame to socket (ret = "
  +:+ pretty ret +:+ ": " +:+ err +:+ ")".

(** *** [mbus_serial_send_frame]

    [mbus_frame_pack] belongs to the protocol layer and is a parameter here:
    given the frame and the capacity of [buff] it returns the [int] the C
    function returns and the bytes it stored in [buff].  The callback
    [_mbus_send_event] is a global function pointer; [true] stands for a
    registered callback, and a call of it is an event of the trace.

    [write] takes its length as a [size_t] and returns an [ssize_t], which
    the function stores in the [int] [ret].  [data] is what [write] is given
    of [buff]; when the length exceeds what [mbus_frame_pack] has stored, the
    bytes beyond are not part of the model. *)
Variable mbus_frame : Type.
Variable mbus_frame_pack : mbus_frame -> Z -> Z * list byte.
Variable _mbus_send_event : bool.
Variable _mbus_recv_event : bool.

Definition mbus_serial_send_frame
    (handle : option mbus_handle) (frame : option mbus_frame) (w : world)
  : Z * world :=
  match handle, frame with
  | Some h, Some f =>
    let '(len, buff) := mbus_frame_pack f PACKET_BUFF_SIZE in
    if len =? -1 then
      (-1, log (EvStderr "mbus_serial_send_frame: mbus_frame_pack failed") w)
    else
      let count := to_size_t len in
      let data := first_bytes count buff in
      let written := os_write OS (fd h) data count in
      let ret := to_int written in
      let w := log (EvWrite (fd h) data count written) w in
      if ret =? len then
        let w := if _mbus_send_event
                 then log (EvSendEvent MBUS_HANDLE_TYPE_SERIAL data) w
                 else w in
        let w := log (EvTcdrain (fd h)) w in
        (0, w)
      else
        (-1, log (EvStderr (write_failed_msg ret
                              (os_strerror OS (fd h) data count))) w)
  | _, _ => (-1, w)
  end.

(** What [fprintf(stderr, "%s: Timeout\n", __PRETTY_FUNCTION__)] writes,
    without the newline; in C [__PRETTY_FUNCTION__] is the name of the
    function. *)
Definition timeout_msg : string := "mbus_serial_recv_frame: Timeout".

(** *** [mbus_serial_recv_frame]

    [mbus_parse(frame, buff, len)] is a parameter too: it sees the [len]
    bytes received so far and answers how many more are needed (positive),
    that the frame is complete (0), or that the bytes are no frame
    (negative).  The frame it fills in is not modelled: nothing here reads
    it, and of the [frame] argument only whether it is NULL matters. *)
Variable mbus_parse : list byte -> Z.

(** [read(fildes, &buff[len], count)]: at most [count] bytes are delivered. *)
Definition sys_read (fildes count : Z) (w : world)
  : option (list byte) * world :=
  let res := take (Z.to_nat count) <$> os_read OS (w_nreads w) fildes count in
  (res, mk_world (S (w_nreads w)) (w_trace w ++ [EvRead fildes count res])).

(** The locals of the function.  [buff] holds the [len] bytes received so far
    (the part of the array that [mbus_parse] and the callback look at).  The
    [int]s are integers here: [len] stays within [PACKET_BUFF_SIZE] and
    [timeouts] within 3 (lemma [recv_loop_inv]), and [remaining] is only
    compared with 0, so no arithmetic of the function can wrap around. *)
Record recv_state := mk_recv {
  buff : list byte;
  len : Z;
  remaining : Z;
  timeouts : Z;
  rw : world
}.

(** How the [do ... while] loop is left. *)
Inductive loop_exit :=
| LReturn (r : Z) (s : recv_state)   (* [return] from inside the loop *)
| LDone (s : recv_state)             (* [break], or the condition is false *)
| LOverrun (s : recv_state)          (* bytes stored past the end of [buff] *)
| LFuel (s : recv_state).            (* iteration bound of the model reached *)

Definition exit_state (e : loop_exit) : recv_state :=
  match e with
  | LReturn _ s | LDone s | LOverrun s | LFuel s => s
  end.

Fixpoint recv_loop (fuel : nat) (h : mbus_handle) (s : recv_state)
  : loop_exit :=
  match fuel with
  | O => LFuel s
  | S fuel =>
    let '(res, w) := sys_read (fd h) (remaining s) (rw s) in
    match res with
    | None =>
      LReturn (-1) (mk_recv (buff s) (len s) (remaining s) (timeouts s) w)
    | Some bs =>
      let nread := Z.of_nat (length bs) in
      if PACKET_BUFF_SIZE <? len s + nread then
        LOverrun (mk_recv (buff s) (len s) (remaining s) (timeouts s) w)
      else
        let timeouts' := if nread =? 0 then timeouts s + 1 else timeouts s in
        if (nread =? 0) && (3 <=? timeouts') then
          (* abort to avoid endless loop *)
          LDone (mk_recv (buff s) (len s) (remaining s) timeouts'
                   (log (EvStderr timeout_msg) w))
        else
          let len' := len s + nread in
          let buff' := buff s ++ bs in
          let remaining' := mbus_parse buff' in
          let s' := mk_recv buff' len' remaining' timeouts' w in
          if 0 <? remaining' then recv_loop fuel h s' else LDone s'
    end
  end.

(** [remaining = 1; len = 0; timeouts = 0;] *)
Definition recv_init (w : world) : recv_state := mk_recv [] 0 1 0 w.

(** A bound on the iterations of the loop: every iteration that goes round
    again either stored a byte in [buff] or counted an empty read. *)
Definition recv_fuel : nat := Z.to_nat PACKET_BUFF_SIZE + 3.

(** The result is [None] when the execution has no defined result. *)
Definition mbus_serial_recv_frame
    (handle : option mbus_handle) (frame : option mbus_frame) (w : world)
  : option Z * world :=
  match handle, frame with
  | Some h, Some _ =>
    match recv_loop recv_fuel h (recv_init w) with
    | LReturn r s => (Some r, rw s)
    | LOverrun s | LFuel s => (None, rw s)
    | LDone s =>
      if len s =? 0 then
        (* No data received *)
        (Some (-1), rw s)
      else
        let w := if _mbus_recv_event
                 then log (EvRecvEvent MBUS_HANDLE_TYPE_SERIAL (buff s)) (rw s)
                 else rw s in
        if negb (remaining s =? 0) then (Some (-2), w)
        else if len s =? -1 then
          (Some (-1),
           log (EvStderr "mbus_serial_recv_frame: M-Bus layer failed to parse data.") w)
        else (Some 0, w)
    end
  | _, _ =>
    (Some (-1), log (EvStderr "mbus_serial_recv_frame: Invalid parameter.") w)
  end.

End Serial.

Arguments recv_loop : simpl never.
Arguments mbus_serial_recv_frame : simpl never.

(** ** The reply-polling loop of [mbus-serial-request-data]

    [main] has switched to 9600 baud and now waits for the delayed answer.
    [mbus_recv_frame] and [MBUS_RECV_RESULT_OK] are declared in headers that
    are not among the sources, so both are parameters: the receive function is
    any function of the state of the world [W] that returns an [int]. *)
Section Request.

Variable W : Type.
Variable mbus_recv_frame : W -> Z * W.
Variable MBUS_RECV_RESULT_OK : Z.

(** [for (i=0; i<10; i++) if (mbus_recv_frame(handle, &reply) == OK) break;]
    started at [i]; the result is the value of [i] after the loop.  The
    condition [i<10] is tested at most eleven times, which is the [fuel]
    [main_receive_reply] gives. *)
Fixpoint reply_loop (fuel : nat) (i : Z) (w : W) : Z * W :=
  match fuel with
  | O => (i, w)
  | S fuel =>
    if i <? 10 then
      let '(r, w') := mbus_recv_frame w in
      if r =? MBUS_RECV_RESULT_OK then (i, w')
      else reply_loop fuel (i + 1) w'
    else (i, w)
  end.

Inductive reply_result :=
| ReplyFailed (msg : string) (w : W)   (* [goto FAIL] *)
| ReplyReceived (i : Z) (w : W).       (* [main] goes on with the reply *)

(** Lines 165 to 177 of [main]. *)
Definition main_receive_reply (w : W) : reply_result :=
  let '(i, w') := reply_loop 11 0 w in
  if 10 <=? i then ReplyFailed "Failed to receive M-Bus response frame." w'
  else ReplyReceived i w'.

(** The state of the world after [k] calls of [mbus_recv_frame], and the
    result of the next call; used to state what the loop does. *)
Fixpoint world_after (k : nat) (w : W) : W :=
  match k with
  | O => w
  | S k => snd (mbus_recv_frame (world_after k w))
  end.

Definition attempt (k : nat) (w : W) : Z :=
  fst (mbus_recv_frame (world_after k w)).

End Request.

(** ** Reading a trace *)

(** The results of the [read]s of a trace, in order. *)
Fixpoint read_results (tr : list event) : list (option (list byte)) :=
  match tr with
  | [] => []
  | EvRead _ _ r :: tr => r :: read_results tr
  | _ :: tr => read_results tr
  end.

Definition is_empty_read (r : option (list byte)) : bool :=
  match r with Some [] => true | _ => false end.

(** Number of zero-byte reads. *)
Definition empty_reads (tr : list event) : Z :=
  Z.of_nat (length (filter (fun r => is_empty_read r = true) (read_results tr))).

(** All bytes the reads delivered, in order. *)
Definition received (tr : list event) : list byte :=
  concat (omap id (read_results tr)).

(** Three zero-byte reads in a row somewhere. *)
Fixpoint three_consecutive_empty (rs : list (option (list byte))) : bool :=
  match rs with
  | r1 :: ((r2 :: r3 :: _) as rs') =>
    (is_empty_read r1 && is_empty_read r2 && is_empty_read r3)
    || three_consecutive_empty rs'
  | _ => false
  end.

(** The loop was left by its [break]: the Timeout line was written. *)
Definition timed_out (tr : list event) : Prop := EvStderr timeout_msg ∈ tr.

(** ** The frame assembler *)

(** The value of a byte, 0 to 255. *)
Definition byte_val (b : byte) : Z := Z.of_N (Stdlib.Strings.Byte.to_N b).

(** Modelled from the spec: [checksum], the sum modulo 256 of the bytes of the
    control, address, control-information and payload region (4.1). *)
Definition checksum (region : list byte) : Z :=
  foldr (fun b acc => byte_val b + acc) 0 region mod 256.

(** Modelled from the spec: the errors of [validate] (4.1). *)
Inductive validation_error :=
| BadStartByte | LengthMismatch | ChecksumMismatch | BadStopByte.

(** Modelled from the spec: [AssemblerResult] (4.2). *)
Inductive assembler_result :=
| NeedMore (n : Z) | Complete | Invalid (reason : validation_error).

(** Modelled from the spec: [validate] (4.1) for the bytes of a SHORT frame,
    [start, control, address, checksum, stop]. *)
Definition validate_short (bs : list byte) : assembler_result :=
  match bs with
  | [_; c; a; cs; stop] =>
    if negb (checksum [c; a] =? byte_val cs) then Invalid ChecksumMismatch
    else if negb (byte_val stop =? 22) then Invalid BadStopByte
    else Complete
  | _ => Invalid LengthMismatch
  end.

(** Modelled from the spec: [validate] (4.1) for the bytes of a LONG or
    CONTROL frame, [start, len, len, region..., checksum, stop]. *)
Definition validate_long (bs : list byte) : assembler_result :=
  match bs with
  | _ :: l1 :: l2 :: rest =>
    let n := length rest in
    match drop (n - 2)%nat rest with
    | [cs; stop] =>
      if negb (byte_val l1 =? byte_val l2) then Invalid LengthMismatch
      else if negb (checksum (take (n - 2)%nat rest) =? byte_val cs)
      then Invalid ChecksumMismatch
      else if negb (byte_val stop =? 22) then Invalid BadStopByte
      else Complete
    | _ => Invalid LengthMismatch
    end
  | _ => Invalid LengthMismatch
  end.

(** Modelled from the spec: the transition function [advance] of the Frame
    Assembler (4.2), which stands for the function [mbus_parse] of the
    protocol layer: an empty buffer asks for 1 byte; 0xE5 is a complete ACK;
    0x10 starts a SHORT frame of 5 bytes; 0x68 starts a LONG or CONTROL frame
    of [length_field + 6] bytes, known once 3 bytes are there; any other start
    byte is invalid. *)
Definition advance (buffer : list byte) : assembler_result :=
  let n := Z.of_nat (length buffer) in
  match buffer with
  | [] => NeedMore 1
  | start :: rest =>
    match start with
    | xe5 => Complete
    | x10 =>
      if n <? 5 then NeedMore (5 - n) else validate_short (take 5 buffer)
    | x68 =>
      if n <? 3 then NeedMore (3 - n)
      else
        let total := byte_val (default x00 (rest !! 0%nat)) + 6 in
        if n <? total then NeedMore (total - n)
        else validate_long (take (Z.to_nat total) buffer)
    | _ => Invalid BadStartByte
    end
  end.

(** Modelled from the spec: the [int] that [mbus_parse] returns for a result
    of the assembler; the callers only test its sign. *)
Definition mbus_parse_spec (buffer : list byte) : Z :=
  match advance buffer with
  | NeedMore n => n
  | Complete => 0
  | Invalid _ => -1
  end.

(** ** Scripted devices *)

(** A device whose [k]-th [read] answers the [k]-th entry of [reads] and
    which is silent afterwards; [open] yields descriptor 3, [tcsetattr]
    succeeds and [write] transfers everything. *)
Definition script_os (reads : list (option (list byte))) : os :=
  mk_os (fun _ _ => 3) (fun _ _ _ => 0) (fun _ _ count => count)
        (fun k _ _ => default (Some []) (reads !! k))
        (fun _ _ _ => "Success"%string).

(** A device that cannot be opened: every call on it fails. *)
Definition closed_os : os :=
  mk_os (fun _ _ => -1) (fun _ _ _ => -1) (fun _ _ _ => -1) (fun _ _ _ => None)
        (fun _ _ _ => "Bad file descriptor"%string).

(** A handle for ["/dev/ttyS0"], not yet connected. *)
Definition tty_handle : mbus_handle :=
  mk_handle 0 (Some (mk_serial_data (Some "/dev/ttyS0"%string) termios_zero)).

(** The SHORT ping of the scenario in the spec, SND_NKE to address 1. *)
Definition ping_bytes : list byte := [x10; x40; x01; x41; x16].

(** A packer that stores the ping whatever the frame is. *)
Definition pack_ping (frame : unit) (size : Z) : Z * list byte :=
  (5, ping_bytes).

(** A packer that stores nothing and returns [code]. *)
Definition pack_code (code : Z) (frame : unit) (size : Z) : Z * list byte :=
  (code, []).

(** ** What the loop of [mbus_serial_recv_frame] keeps true

    [tr] is the part of the trace the current call has added to the trace of
    [w0], the world the call started in. *)

Definition good_read (e : event) : Prop :=
  match e with EvRead _ _ (Some _) => True | _ => False end.

(** At the head of the loop. *)
Record head_inv (mbus_parse : list byte -> Z) (w0 : world)
    (s : recv_state) (tr : list event) : Prop := mk_head_inv {
  hi_trace : w_trace (rw s) = w_trace w0 ++ tr;
  hi_nreads : w_nreads (rw s) = (w_nreads w0 + length (read_results tr))%nat;
  hi_reads : Forall good_read tr;
  hi_buff : buff s = received tr;
  hi_len : len s = Z.of_nat (length (buff s));
  hi_bound : len s <= PACKET_BUFF_SIZE;
  hi_timeouts : timeouts s = empty_reads tr;
  hi_lt3 : timeouts s < 3;
  hi_pos : 0 < remaining s;
  hi_remaining : tr = [] \/ remaining s = mbus_parse (buff s)
}.

(** When the loop is left. *)
Definition exit_inv (mbus_parse : list byte -> Z) (w0 : world)
    (e : loop_exit) (tr : list event) : Prop :=
  let s := exit_state e in
  w_trace (rw s) = w_trace w0 ++ tr /\
  w_nreads (rw s) = (w_nreads w0 + length (read_results tr))%nat /\
  timeouts s = empty_reads tr /\
  timeouts s <= 3 /\
  (timed_out tr <-> timeouts s = 3) /\
  match e with
  | LReturn r _ =>
    r = -1 /\ (None ∈ read_results tr) /\ buff s = received tr /\
    timeouts s < 3
  | LDone _ =>
    (None ∉ read_results tr) /\ buff s = received tr /\
    len s = Z.of_nat (length (buff s)) /\
    remaining s = mbus_parse (buff s) /\
    (timeouts s = 3 -> 0 < remaining s) /\
    (timeouts s < 3 -> remaining s <= 0)
  | LOverrun _ =>
    (None ∉ read_results tr) /\
    PACKET_BUFF_SIZE < Z.of_nat (length (received tr)) /\
    timeouts s < 3
  | LFuel _ => head_inv mbus_parse w0 s tr
  end.

(** The supported baud rates. *)
Definition supported_baudrate (baudrate : Z) : Prop :=
  baudrate = 300 \/ baudrate = 1200 \/ baudrate = 2400 \/ baudrate = 9600.

(** The [VTIME] entry of the settings a call of [mbus_serial_set_baudrate]
    left in the handle. *)
Definition installed_vtime
    (res : option (Z * option mbus_handle * world)) : option Z :=
  match res with
  | Some (_, Some h, _) =>
    match auxdata h with
    | Some sd => c_cc (t sd) !! VTIME
    | None => None
    end
  | _ => None
  end.

(** The reading of the empty-read counter as a count of consecutive empty
    reads: the call writes the Timeout line exactly when its reads contain
    three zero-byte reads in a row. *)
Definition consecutive_timeout_rule (OS : os) (mbus_parse : list byte -> Z)
    (h : mbus_handle) : Prop :=
  let tr := w_trace (snd (mbus_serial_recv_frame OS unit true mbus_parse
                            (Some h) (Some tt) fresh)) in
  timed_out tr <-> three_consecutive_empty (read_results tr) = true.

(** The receive callback is called with the bytes received whenever the call
    has received at least one byte. *)
Definition recv_event_whenever_bytes (OS : os) (mbus_parse : list byte -> Z)
    (h : mbus_handle) : Prop :=
  let tr := w_trace (snd (mbus_serial_recv_frame OS unit true mbus_parse
                            (Some h) (Some tt) fresh)) in
  received tr <> [] ->
  EvRecvEvent MBUS_HANDLE_TYPE_SERIAL (received tr) ∈ tr.

(** Two empty reads, each followed by a byte of a SHORT frame, then a third
    empty read. *)
Definition interleaved_reads : list (option (list byte)) :=
  [Some []; Some [x10]; Some []; Some [x40]; Some []].

(** The start byte of a SHORT frame arrives, then the next [read] fails. *)
Definition failing_reads : list (option (list byte)) :=
  [Some [x10]; None].

(** Receive stubs for the polling loop; the state of the world is the number
    of attempts made.  [late_reply] has no data for nine attempts and a frame
    at the tenth; [no_reply] never has any. *)
Definition late_reply (n : nat) : Z * nat :=
  (if (n <? 9)%nat then -1 else 0, S n).

Definition no_reply (n : nat) : Z * nat := (-1, S n).

(** ** More of the serial transport *)

(** *** [mbus_serial_disconnect]

    [close(handle->fd)]: the result of [close] is not looked at and the
    handle is not written, so the function yields its result and the
    descriptor it has handed to [close], if any. *)
Definition mbus_serial_disconnect (handle : option mbus_handle)
  : Z * option Z :=
  match handle with
  | None => (-1, None)
  | Some h => (0, Some (fd h))
  end.

(** The number of bytes the loop of [mbus_serial_recv_frame] asks for after
    the events [pre]: 1 before the first read, then what [mbus_parse] has
    answered for the bytes received. *)
Definition next_request (mbus_parse : list byte -> Z) (pre : list event) : Z :=
  match read_results pre with
  | [] => 1
  | _ => mbus_parse (received pre)
  end.

(** The events a call of [mbus_serial_recv_frame] on the handle [h] can
    leave in the trace. *)
Definition recv_event_allowed (h : mbus_handle) (_mbus_recv_event : bool)
    (e : event) : Prop :=
  match e with
  | EvRead fildes _ _ => fildes = fd h
  | EvStderr msg => msg = timeout_msg
  | EvRecvEvent src _ => src = MBUS_HANDLE_TYPE_SERIAL /\ _mbus_recv_event = true
  | _ => False
  end.

(** A parser that never asks for more bytes than [buff] has room for. *)
Definition parser_fits (mbus_parse : list byte -> Z) : Prop :=
  forall buffer,
    0 < mbus_parse buffer ->
    Z.of_nat (length buffer) + mbus_parse buffer <= PACKET_BUFF_SIZE.

(** The settings of a handle, if it has any. *)
Definition settings (handle : option mbus_handle) : option termios :=
  match handle with
  | Some h => t <$> auxdata h
  | None => None
  end.

(** The cases of the [switch] of [mbus_serial_set_baudrate]: the rate, its
    speed constant and the [VTIME] that goes with it. *)
Definition baud_case (baudrate : Z) (speed : speed_t) (vtime : Z) : Prop :=
  (baudrate = 300 /\ speed = B300 /\ vtime = 12) \/
  (baudrate = 1200 /\ speed = B1200 /\ vtime = 4) \/
  (baudrate = 2400 /\ speed = B2400 /\ vtime = 2) \/
  (baudrate = 9600 /\ speed = B9600 /\ vtime = 1).

(** The settings [mbus_serial_set_baudrate] makes of the settings [tio]:
    the speed with its code in the [CBAUD] bits, [IBAUD0] cleared and the
    new [VTIME]. *)
Definition with_baud (tio : termios) (speed : speed_t) (vtime : Z) : termios :=
  mk_termios (Z.ldiff (c_iflag tio) IBAUD0) (c_oflag tio)
    (Z.lor (Z.ldiff (c_cflag tio) CBAUD) (speed_code speed)) (c_lflag tio)
    (<[VTIME:=vtime]> (c_cc tio)) speed speed.

(** ** The program [mbus-serial-request-data]

    [main] and [init_slaves] call the library through its public functions,
    none of which is among the sources.  They are the fields of [lib]: each is
    a function of the state [W] of everything outside the program (the handle,
    the device, the reply buffers of [main]), and a theorem about [main] holds
    for every library.  Each call goes, with its arguments and its result,
    into a list of calls.  The trailing newline of the formats is left out. *)
Module RequestData.

(** An argument handed to [printf] or [fprintf]. *)
Inductive arg := AStr (s : string) | ALong (n : Z).

Inductive call :=
| Fprintf (to_stderr : bool) (format : string) (args : list arg)
| ContextSerial (device : string) (ok : bool)
| RegisterSendEvent
| RegisterRecvEvent
| Connect (ret : Z)
| SetBaudrate (baudrate : Z) (ret : Z)
| SendPingFrame (address : Z) (purge_response : Z) (ret : Z)
| SendRequestFrame9600 (address : Z) (ret : Z)
| Disconnect
| RecvFrame (ret : Z)
| FramePrint
| FrameDataParse (ret : Z)
| FrameDataXml (ok : bool)
| FreeXml
| DataRecordFree
| ContextFree.

(** [mbus_context_serial] answers whether the handle it returns is not NULL,
    [mbus_frame_data_xml] the string it returns unless that is NULL, and
    [reply_data_record] whether [reply_data.data_var.record] is not NULL. *)
Record lib (W : Type) := mk_lib {
  atol : string -> Z;
  atoi : string -> Z;
  mbus_error_str : W -> string;
  mbus_context_serial : string -> W -> bool * W;
  mbus_register_send_event : W -> W;
  mbus_register_recv_event : W -> W;
  mbus_connect : W -> Z * W;
  mbus_serial_set_baudrate : Z -> W -> Z * W;
  mbus_send_ping_frame : Z -> Z -> W -> Z * W;
  mbus_send_request_frame_9600 : Z -> W -> Z * W;
  mbus_disconnect : W -> W;
  mbus_recv_frame : W -> Z * W;
  mbus_frame_print : W -> W;
  mbus_frame_data_parse : W -> Z * W;
  mbus_frame_data_xml : W -> option string * W;
  reply_data_record : W -> bool;
  mbus_data_record_free : W -> W;
  mbus_context_free : W -> W;
  MBUS_RECV_RESULT_OK : Z;
  MBUS_ADDRESS_NETWORK_LAYER : Z
}.

Arguments atol {W}.
Arguments atoi {W}.
Arguments mbus_error_str {W}.
Arguments mbus_context_serial {W}.
Arguments mbus_register_send_event {W}.
Arguments mbus_register_recv_event {W}.
Arguments mbus_connect {W}.
Arguments mbus_serial_set_baudrate {W}.
Arguments mbus_send_ping_frame {W}.
Arguments mbus_send_request_frame_9600 {W}.
Arguments mbus_disconnect {W}.
Arguments mbus_recv_frame {W}.
Arguments mbus_frame_print {W}.
Arguments mbus_frame_data_parse {W}.
Arguments mbus_frame_data_xml {W}.
Arguments reply_data_record {W}.
Arguments mbus_data_record_free {W}.
Arguments mbus_context_free {W}.
Arguments MBUS_RECV_RESULT_OK {W}.
Arguments MBUS_ADDRESS_NETWORK_LAYER {W}.

(** The state of a run: the outside, and the calls made so far, oldest
    first. *)
Record state (W : Type) := mk_state {
  outside : W;
  calls : list call
}.

Arguments mk_state {W}.
Arguments outside {W}.
Arguments calls {W}.

(** What the command line selects. *)
Record options := mk_options {
  device : string;
  addr_str : string;
  baudrate : Z;
  debug : bool
}.

(** The label [main] jumps to when it is done with the exchange. *)
Inductive label := FAIL | FAILC.

Section Program.

Context {W : Type}.
Variable L : lib W.

(** A call of a library function that returns an [int]. *)
Definition call_int (f : W -> Z * W) (ev : Z -> call) (s : state W)
  : Z * state W :=
  let '(r, w) := f (outside s) in
  (r, mk_state w (calls s ++ [ev r])).

(** A call whose result is not there or not looked at. *)
Definition call_void (f : W -> W) (ev : call) (s : state W) : state W :=
  mk_state (f (outside s)) (calls s ++ [ev]).

(** Something the program does itself. *)
Definition say (ev : call) (s : state W) : state W :=
  mk_state (outside s) (calls s ++ [ev]).

(** [init_slaves]: the reset is sent twice, "maybe the first get lost"; the
    function returns 0 as soon as a ping returns -1 and 1 otherwise.  [debug]
    is the static variable of the file. *)
Definition init_slaves (debug : bool) (s : state W) : Z * state W :=
  let s := if debug
           then say (Fprintf false "%s: debug: sending init frame #1"
                       [AStr "init_slaves"]) s
           else s in
  let '(r, s) :=
    call_int (mbus_send_ping_frame L (MBUS_ADDRESS_NETWORK_LAYER L) 1)
      (SendPingFrame (MBUS_ADDRESS_NETWORK_LAYER L) 1) s in
  if r =? -1 then (0, s)
  else
    let s := if debug
             then say (Fprintf false "%s: debug: sending init frame #2"
                         [AStr "init_slaves"]) s
             else s in
    let '(r, s) :=
      call_int (mbus_send_ping_frame L (MBUS_ADDRESS_NETWORK_LAYER L) 1)
        (SendPingFrame (MBUS_ADDRESS_NETWORK_LAYER L) 1) s in
    if r =? -1 then (0, s) else (1, s).

(** The [if ... else if] chain on [argc] and [argv]; [argv] holds [argc]
    strings, the name of the program first.  [None] is the final [else]. *)
Definition parse_args (argv : list string) : option options :=
  match argv with
  | [_; a1; a2] => Some (mk_options a1 a2 2400 false)
  | [_; a1; a2; a3] =>
    if String.eqb a1 "-d" then Some (mk_options a2 a3 2400 true) else None
  | [_; a1; a2; a3; a4] =>
    if String.eqb a1 "-b" then Some (mk_options a3 a4 (atol L a2) false)
    else None
  | [_; a1; a2; a3; a4; a5] =>
    if String.eqb a1 "-d" && String.eqb a2 "-b"
    then Some (mk_options a4 a5 (atol L a3) true)
    else None
  | _ => None
  end.

(** The three lines the final [else] writes. *)
Definition usage (argv : list string) : list call :=
  [Fprintf true "usage: %s [-d] [-b BAUDRATE] device mbus-address"
     [AStr (default ""%string (argv !! 0%nat))];
   Fprintf true "    optional flag -d for debug printout" [];
   Fprintf true "    optional flag -b for selecting baudrate" []].

(** [main] from [mbus_connect] to the statement before the label [FAIL]: the
    value of [result], and the label at which [main] goes on. *)
Definition exchange (o : options) (s : state W) : Z * label * state W :=
  let '(r, s) := call_int (mbus_connect L) Connect s in
  if r =? -1 then
    (1, FAILC,
     say (Fprintf true "Failed to setup connection to M-bus gateway" []) s)
  else
  let '(r, s) :=
    call_int (mbus_serial_set_baudrate L (to_int (baudrate o)))
      (SetBaudrate (to_int (baudrate o))) s in
  if r =? -1 then
    (1, FAIL,
     say (Fprintf true "Failed to set baud rate to %ld." [ALong (baudrate o)]) s)
  else
  (* primary addressing *)
  let address := atoi L (addr_str o) in
  let '(r, s) :=
    call_int (mbus_send_request_frame_9600 L address)
      (SendRequestFrame9600 address) s in
  if r =? -1 then
    (1, FAIL, say (Fprintf true "Failed to send M-Bus request frame." []) s)
  else
  (* Switch to 9600 baud *)
  let s := call_void (mbus_disconnect L) Disconnect s in
  let '(_, s) := call_int (mbus_connect L) Connect s in
  let baudrate := 9600 in
  let '(r, s) :=
    call_int (mbus_serial_set_baudrate L (to_int baudrate))
      (SetBaudrate (to_int baudrate)) s in
  if r =? -1 then
    (1, FAIL,
     say (Fprintf true "Failed to set baud rate to %ld." [ALong baudrate]) s)
  else
  (* Wait long for answer by retrying 10 times *)
  match main_receive_reply (state W) (call_int (mbus_recv_frame L) RecvFrame)
          (MBUS_RECV_RESULT_OK L) s with
  | ReplyFailed _ msg s => (1, FAIL, say (Fprintf true msg []) s)
  | ReplyReceived _ _ s =>
    let s := if debug o then call_void (mbus_frame_print L) FramePrint s
             else s in
    let '(r, s) := call_int (mbus_frame_data_parse L) FrameDataParse s in
    if r =? -1 then
      (1, FAIL,
       say (Fprintf true "M-bus data parse error: %s"
              [AStr (mbus_error_str L (outside s))]) s)
    else
    let '(xml_result, w) := mbus_frame_data_xml L (outside s) in
    let s := mk_state w
               (calls s ++ [FrameDataXml (bool_decide (xml_result <> None))]) in
    match xml_result with
    | None =>
      (1, FAIL,
       say (Fprintf true
              "Failed to generate XML representation of MBUS frame: %s"
              [AStr (mbus_error_str L (outside s))]) s)
    | Some xml =>
      let s := say (Fprintf false "%s" [AStr xml]) s in
      let s := say FreeXml s in
      (* manual free *)
      let s := if reply_data_record L (outside s)
               then call_void (mbus_data_record_free L) DataRecordFree s
               else s in
      (0, FAIL, s)
    end
  end.

(** [main]: its return value and the calls it has made. *)
Definition main (argv : list string) (w : W) : Z * state W :=
  match parse_args argv with
  | None => (0, mk_state w (usage argv))
  | Some o =>
    let '(ok, w) := mbus_context_serial L (device o) w in
    let s := mk_state w [ContextSerial (device o) ok] in
    if negb ok then
      (1, say (Fprintf true "Could not initialize M-Bus context: %s"
                 [AStr (mbus_error_str L w)]) s)
    else
      let s := if debug o
               then call_void (mbus_register_recv_event L) RegisterRecvEvent
                      (call_void (mbus_register_send_event L)
                         RegisterSendEvent s)
               else s in
      let '(result, lbl, s) := exchange o s in
      let s := match lbl with
               | FAIL => call_void (mbus_disconnect L) Disconnect s
               | FAILC => s
               end in
      let s := call_void (mbus_context_free L) ContextFree s in
      (result, s)
  end.

End Program.

(** A library that reads decimal numbers, opens every device and has a meter
    that answers as [reply] says; the outside is the number of receive
    attempts made. *)
Fixpoint decimal (s : string) (acc : Z) : Z :=
  match s with
  | EmptyString => acc
  | String c s =>
    let d := Z.of_nat (Ascii.nat_of_ascii c) - 48 in
    if (0 <=? d) && (d <=? 9) then decimal s (10 * acc + d) else acc
  end.

Definition meter (reply : nat -> Z * nat) (xml : option string) : lib nat :=
  mk_lib nat
    (fun s => decimal s 0) (fun s => decimal s 0)
    (fun _ => "error"%string)
    (fun _ n => (true, n))
    (fun n => n) (fun n => n)
    (fun n => (0, n))
    (fun b n =>
       (if (b =? 300) || (b =? 1200) || (b =? 2400) || (b =? 9600)
        then 0 else -1, n))
    (fun _ _ n => (0, n))
    (fun _ n => (0, n))
    (fun n => n)
    reply
    (fun n => n)
    (fun n => (0, n))
    (fun n => (xml, n))
    (fun _ => true)
    (fun n => n)
    (fun n => n)
    0 253.

(** The calls of [main] from the first [mbus_connect] to the second
    [mbus_serial_set_baudrate], with their results. *)
Definition switch_calls {W : Type} (L : lib W) (o : options)
    (c rb rs c2 r96 : Z) : list call :=
  [Connect c; SetBaudrate (to_int (baudrate o)) rb;
   SendRequestFrame9600 (atoi L (addr_str o)) rs;
   Disconnect; Connect c2; SetBaudrate (to_int 9600) r96].

Definition register_calls (o : options) : list call :=
  if debug o then [RegisterSendEvent; RegisterRecvEvent] else [].

Definition print_calls (o : options) : list call :=
  if debug o then [FramePrint] else [].

(** The ways through [exchange], one constructor for each: the value of
    [result], the label [main] goes on at, and the calls made. *)
Inductive exchange_path {W : Type} (L : lib W) (o : options)
  : Z -> label -> list call -> Prop :=
| path_connect_failed :
    exchange_path L o 1 FAILC
      [Connect (-1);
       Fprintf true "Failed to setup connection to M-bus gateway" []]
| path_baudrate_failed c :
    c <> -1 ->
    exchange_path L o 1 FAIL
      [Connect c; SetBaudrate (to_int (baudrate o)) (-1);
       Fprintf true "Failed to set baud rate to %ld." [ALong (baudrate o)]]
| path_send_failed c rb :
    c <> -1 -> rb <> -1 ->
    exchange_path L o 1 FAIL
      [Connect c; SetBaudrate (to_int (baudrate o)) rb;
       SendRequestFrame9600 (atoi L (addr_str o)) (-1);
       Fprintf true "Failed to send M-Bus request frame." []]
| path_switch_failed c rb rs c2 :
    c <> -1 -> rb <> -1 -> rs <> -1 ->
    exchange_path L o 1 FAIL
      (switch_calls L o c rb rs c2 (-1)
       ++ [Fprintf true "Failed to set baud rate to %ld." [ALong 9600]])
| path_no_reply c rb rs c2 r96 rcv :
    c <> -1 -> rb <> -1 -> rs <> -1 -> r96 <> -1 ->
    Forall (fun r => r <> MBUS_RECV_RESULT_OK L) rcv ->
    length rcv = 10%nat ->
    exchange_path L o 1 FAIL
      (switch_calls L o c rb rs c2 r96 ++ (RecvFrame <$> rcv)
       ++ [Fprintf true "Failed to receive M-Bus response frame." []])
| path_parse_failed c rb rs c2 r96 rcv e :
    c <> -1 -> rb <> -1 -> rs <> -1 -> r96 <> -1 ->
    Forall (fun r => r <> MBUS_RECV_RESULT_OK L) rcv ->
    (length rcv < 10)%nat ->
    exchange_path L o 1 FAIL
      (switch_calls L o c rb rs c2 r96 ++ (RecvFrame <$> rcv)
       ++ [RecvFrame (MBUS_RECV_RESULT_OK L)] ++ print_calls o
       ++ [FrameDataParse (-1);
           Fprintf true "M-bus data parse error: %s" [AStr e]])
| path_xml_failed c rb rs c2 r96 rcv p e :
    c <> -1 -> rb <> -1 -> rs <> -1 -> r96 <> -1 ->
    Forall (fun r => r <> MBUS_RECV_RESULT_OK L) rcv ->
    (length rcv < 10)%nat ->
    p <> -1 ->
    exchange_path L o 1 FAIL
      (switch_calls L o c rb rs c2 r96 ++ (RecvFrame <$> rcv)
       ++ [RecvFrame (MBUS_RECV_RESULT_OK L)] ++ print_calls o
       ++ [FrameDataParse p; FrameDataXml false;
           Fprintf true
             "Failed to generate XML representation of MBUS frame: %s"
             [AStr e]])
| path_done c rb rs c2 r96 rcv p xml free :
    c <> -1 -> rb <> -1 -> rs <> -1 -> r96 <> -1 ->
    Forall (fun r => r <> MBUS_RECV_RESULT_OK L) rcv ->
    (length rcv < 10)%nat ->
    p <> -1 ->
    free = [] \/ free = [DataRecordFree] ->
    exchange_path L o 0 FAIL
      (switch_calls L o c rb rs c2 r96 ++ (RecvFrame <$> rcv)
       ++ [RecvFrame (MBUS_RECV_RESULT_OK L)] ++ print_calls o
       ++ [FrameDataParse p; FrameDataXml true;
           Fprintf false "%s" [AStr xml]; FreeXml] ++ free).

(** The calls after the label: [mbus_disconnect] at [FAIL] only, then
    [mbus_context_free]. *)
Definition cleanup_calls (lbl : label) : list call :=
  match lbl with
  | FAIL => [Disconnect; ContextFree]
  | FAILC => [ContextFree]
  end.

(** The pings among some calls: address, purge flag and result. *)
Definition ping_results (cs : list call) : list (Z * Z * Z) :=
  omap (fun c => match c with
                 | SendPingFrame a p r => Some (a, p, r)
                 | _ => None
                 end) cs.

(** A line written to [stderr]. *)
Definition is_error_line (c : call) : bool :=
  match c with Fprintf true _ _ => true | _ => false end.

(** The command lines [main] accepts: [prog device address], with [-d] and
    [-b BAUDRATE] in this order before the device. *)
Definition accepted (argv : list string) : Prop :=
  (exists p dev a, argv = [p; dev; a]) \/
  (exists p dev a, argv = [p; "-d"%string; dev; a]) \/
  (exists p b dev a, argv = [p; "-b"%string; b; dev; a]) \/
  (exists p b dev a, argv = [p; "-d"%string; "-b"%string; b; dev; a]).

End RequestData.

(** ** Traces *)

Lemma read_results_app (a b : list event) :
  read_results (a ++ b) = read_results a ++ read_results b.
Proof.
  induction a as [|e a IH]; [reflexivity|].
  destruct e; simpl; rewrite ?IH; reflexivity.
Qed.

Lemma empty_reads_app (a b : list event) :
  empty_reads (a ++ b) = empty_reads a + empty_reads b.
Proof.
  unfold empty_reads. rewrite read_results_app, filter_app, length_app. lia.
Qed.

Lemma received_app (a b : list event) :
  received (a ++ b) = received a ++ received b.
Proof.
  unfold received. rewrite read_results_app, omap_app, concat_app. reflexivity.
Qed.

Lemma empty_reads_read (fildes count : Z) (bs : list byte) :
  empty_reads [EvRead fildes count (Some bs)]
  = if Z.of_nat (length bs) =? 0 then 1 else 0.
Proof. destruct bs; reflexivity. Qed.

Lemma received_read (fildes count : Z) (bs : list byte) :
  received [EvRead fildes count (Some bs)] = bs.
Proof. unfold received. simpl. apply app_nil_r. Qed.

Lemma good_reads_no_failure (tr : list event) :
  Forall good_read tr -> None ∉ read_results tr.
Proof.
  induction 1 as [|e tr He _ IH]; simpl.
  - apply not_elem_of_nil.
  - destruct e as [| | | |? ? [bs|]| | |]; try contradiction.
    rewrite elem_of_cons. intros [Hx|Hx]; [discriminate|auto].
Qed.

Lemma good_reads_not_timed_out (tr : list event) :
  Forall good_read tr -> ~ timed_out tr.
Proof.
  unfold timed_out. intros H Hin.
  rewrite Forall_forall in H. apply H in Hin. exact Hin.
Qed.

(** ** The receive loop *)

(** A trace made of successful reads holds no Timeout line. *)
Ltac no_timeout H :=
  let Hto := fresh "Hto" in
  intros Hto; exfalso; revert Hto; apply good_reads_not_timed_out, H.

(** [w_trace w0 ++ tr] extended by the events of one iteration. *)
Ltac trace_step H := rewrite H, <- ?app_assoc; reflexivity.

Section RecvLoop.

Variable OS : os.
Variable mbus_parse : list byte -> Z.
Variable h : mbus_handle.
Variable w0 : world.

Lemma recv_loop_unfold (fuel : nat) (s : recv_state) :
  recv_loop OS mbus_parse (S fuel) h s =
  let '(res, w) := sys_read OS (fd h) (remaining s) (rw s) in
  match res with
  | None =>
    LReturn (-1) (mk_recv (buff s) (len s) (remaining s) (timeouts s) w)
  | Some bs =>
    let nread := Z.of_nat (length bs) in
    if PACKET_BUFF_SIZE <? len s + nread then
      LOverrun (mk_recv (buff s) (len s) (remaining s) (timeouts s) w)
    else
      let timeouts' := if nread =? 0 then timeouts s + 1 else timeouts s in
      if (nread =? 0) && (3 <=? timeouts') then
        LDone (mk_recv (buff s) (len s) (remaining s) timeouts'
                 (log (EvStderr timeout_msg) w))
      else
        let s' := mk_recv (buff s ++ bs) (len s + nread)
                    (mbus_parse (buff s ++ bs)) timeouts' w in
        if 0 <? mbus_parse (buff s ++ bs)
        then recv_loop OS mbus_parse fuel h s' else LDone s'
  end.
Proof. reflexivity. Qed.

Lemma head_inv_init : head_inv mbus_parse w0 (recv_init w0) [].
Proof.
  constructor; simpl; try reflexivity; try lia; auto.
  - symmetry. apply app_nil_r.
  - unfold PACKET_BUFF_SIZE. lia.
Qed.

Lemma timed_out_snoc_read (tr : list event) (count : Z)
    (r : option (list byte)) :
  timed_out (tr ++ [EvRead (fd h) count r]) <-> timed_out tr.
Proof.
  unfold timed_out. rewrite elem_of_app, elem_of_cons, elem_of_nil.
  split; [intros [H|[H|[]]]; [exact H|discriminate]|auto].
Qed.

Lemma head_inv_exit (s : recv_state) (tr : list event) :
  head_inv mbus_parse w0 s tr -> exit_inv mbus_parse w0 (LFuel s) tr.
Proof.
  intros H. pose proof H as [Htr Hn Hr Hb Hl Hbd Ht H3 Hp Hrem].
  unfold exit_inv; simpl. repeat split; auto; try lia.
  no_timeout Hr.
Qed.

(** The state in which the loop goes round again after a read of [bs]. *)
Lemma head_inv_next (s : recv_state) (tr : list event) (bs : list byte) :
  head_inv mbus_parse w0 s tr ->
  len s + Z.of_nat (length bs) <= PACKET_BUFF_SIZE ->
  (bs = [] -> timeouts s + 1 < 3) ->
  0 < mbus_parse (buff s ++ bs) ->
  head_inv mbus_parse w0
    (mk_recv (buff s ++ bs) (len s + Z.of_nat (length bs))
       (mbus_parse (buff s ++ bs))
       (if Z.of_nat (length bs) =? 0 then timeouts s + 1 else timeouts s)
       (mk_world (S (w_nreads (rw s)))
          (w_trace (rw s) ++ [EvRead (fd h) (remaining s) (Some bs)])))
    (tr ++ [EvRead (fd h) (remaining s) (Some bs)]).
Proof.
  intros [Htr Hn Hr Hb Hl Hbd Ht H3 Hp Hrem] Hfit Hempty Hmore.
  constructor; simpl; auto.
  - trace_step Htr.
  - rewrite read_results_app, length_app. simpl. lia.
  - apply Forall_app. split; [exact Hr|]. repeat constructor.
  - rewrite received_app, received_read, Hb. reflexivity.
  - rewrite length_app. lia.
  - rewrite empty_reads_app, empty_reads_read.
    destruct (Z.of_nat (length bs) =? 0); lia.
  - destruct bs; simpl; [apply Hempty; reflexivity|lia].
Qed.

(** Whatever the device answers and however long the loop runs, the state
    and the trace it is left with are related as [exit_inv] says. *)
Lemma recv_loop_inv (fuel : nat) :
  forall (s : recv_state) (tr : list event),
    head_inv mbus_parse w0 s tr ->
    exists tr', exit_inv mbus_parse w0 (recv_loop OS mbus_parse fuel h s) tr'.
Proof.
  induction fuel as [|fuel IH]; intros s tr H.
  { exists tr. apply head_inv_exit, H. }
  pose proof H as [Htr Hn Hr Hb Hl Hbd Ht H3 Hp Hrem].
  rewrite recv_loop_unfold. unfold sys_read.
  destruct (os_read OS (w_nreads (rw s)) (fd h) (remaining s)) as [bs0|];
    simpl.
  2:{ (* the read fails *)
    exists (tr ++ [EvRead (fd h) (remaining s) None]).
    unfold exit_inv; simpl.
    rewrite read_results_app, empty_reads_app, received_app, length_app.
    rewrite timed_out_snoc_read. simpl.
    change (empty_reads [EvRead (fd h) (remaining s) None]) with 0.
    change (received [EvRead (fd h) (remaining s) None]) with (@nil byte).
    rewrite app_nil_r.
    repeat split; auto; try lia.
    - trace_step Htr.
    - no_timeout Hr.
    - rewrite elem_of_app, elem_of_cons. auto. }
  set (bs := take (Z.to_nat (remaining s)) bs0).
  set (ev := EvRead (fd h) (remaining s) (Some bs)).
  assert (Hgood : Forall good_read (tr ++ [ev])).
  { apply Forall_app. split; [exact Hr|]. repeat constructor. }
  assert (Hrd : read_results (tr ++ [ev]) = read_results tr ++ [Some bs]).
  { rewrite read_results_app. reflexivity. }
  assert (Hem : empty_reads (tr ++ [ev])
                = empty_reads tr + if Z.of_nat (length bs) =? 0 then 1 else 0).
  { rewrite empty_reads_app. unfold ev. rewrite empty_reads_read. reflexivity. }
  assert (Hrc : received (tr ++ [ev]) = buff s ++ bs).
  { rewrite received_app. unfold ev. rewrite received_read, Hb. reflexivity. }
  destruct (PACKET_BUFF_SIZE <? len s + Z.of_nat (length bs)) eqn:Hov.
  { (* more bytes than the buffer holds *)
    exists (tr ++ [ev]). unfold exit_inv; simpl.
    rewrite Hrd, Hem, Hrc, !length_app. simpl.
    apply Z.ltb_lt in Hov.
    assert ((Z.of_nat (length bs) =? 0) = false) as -> by lia.
    repeat split; auto; try lia.
    - trace_step Htr.
    - no_timeout Hgood.
    - rewrite <- Hrd. apply good_reads_no_failure, Hgood. }
  apply Z.ltb_ge in Hov.
  destruct (Z.of_nat (length bs) =? 0) eqn:Hz; simpl.
  - (* an empty read *)
    apply Z.eqb_eq in Hz.
    assert (bs = []) as Hnil by (destruct bs; [reflexivity|simpl in Hz; lia]).
    destruct (3 <=? timeouts s + 1) eqn:Hto3.
    + (* the third one: break *)
      apply Z.leb_le in Hto3.
      exists (tr ++ [ev; EvStderr timeout_msg]). unfold exit_inv; simpl.
      replace (tr ++ [ev; EvStderr timeout_msg])
        with ((tr ++ [ev]) ++ [EvStderr timeout_msg])
        by (rewrite <- app_assoc; reflexivity).
      rewrite read_results_app, empty_reads_app, received_app, Hrd, Hem, Hrc.
      rewrite Hnil, !app_nil_r, length_app. simpl.
      repeat split; auto; try lia.
      * trace_step Htr.
      * change (empty_reads [EvStderr timeout_msg]) with 0. lia.
      * intros _. unfold timed_out. rewrite elem_of_app, elem_of_cons. auto.
      * rewrite <- Hnil, <- Hrd. apply good_reads_no_failure, Hgood.
      * destruct Hrem as [->|Hrem]; [|exact Hrem].
        unfold empty_reads in Ht. simpl in Ht. lia.
    + (* go round again *)
      apply Z.leb_gt in Hto3.
      destruct (0 <? mbus_parse (buff s ++ bs)) eqn:Hmore.
      * apply Z.ltb_lt in Hmore. apply (IH _ (tr ++ [ev])).
        pose proof (head_inv_next s tr bs H) as Hnext.
        assert ((Z.of_nat (length bs) =? 0) = true) as Hif by lia.
        rewrite Hif in Hnext. apply Hnext; [lia|intros _; lia|exact Hmore].
      * exists (tr ++ [ev]). unfold exit_inv; simpl.
        rewrite Hrd, Hem, Hrc, Hz, !length_app. simpl.
        repeat split; auto; try lia.
        -- trace_step Htr.
        -- no_timeout Hgood.
        -- rewrite <- Hrd. apply good_reads_no_failure, Hgood.
  - (* bytes arrived *)
    apply Z.eqb_neq in Hz.
    destruct (0 <? mbus_parse (buff s ++ bs)) eqn:Hmore.
    + apply Z.ltb_lt in Hmore. apply (IH _ (tr ++ [ev])).
      pose proof (head_inv_next s tr bs H) as Hnext.
      assert ((Z.of_nat (length bs) =? 0) = false) as Hif by lia.
      rewrite Hif in Hnext.
      apply Hnext; [lia|intros Hnil; rewrite Hnil in Hz; simpl in Hz; lia
                   |exact Hmore].
    + exists (tr ++ [ev]). unfold exit_inv; simpl.
      rewrite Hrd, Hem, Hrc, !length_app. simpl.
      repeat split; auto; try lia.
      * trace_step Htr.
      * no_timeout Hgood.
      * rewrite <- Hrd. apply good_reads_no_failure, Hgood.
Qed.

(** The loop stops: an iteration that goes round again has stored a byte in
    [buff] or counted an empty read, and neither can go on for ever. *)
Lemma recv_loop_fuel (fuel : nat) :
  forall (s : recv_state) (tr : list event),
    head_inv mbus_parse w0 s tr ->
    PACKET_BUFF_SIZE - len s + (3 - timeouts s) <= Z.of_nat fuel ->
    forall s', recv_loop OS mbus_parse fuel h s <> LFuel s'.
Proof.
  induction fuel as [|fuel IH]; intros s tr H Hfuel s'.
  { destruct H. lia. }
  pose proof H as [Htr Hn Hr Hb Hl Hbd Ht H3 Hp Hrem].
  rewrite recv_loop_unfold. unfold sys_read.
  destruct (os_read OS (w_nreads (rw s)) (fd h) (remaining s)) as [bs0|];
    simpl; [|discriminate].
  set (bs := take (Z.to_nat (remaining s)) bs0).
  destruct (PACKET_BUFF_SIZE <? len s + Z.of_nat (length bs)) eqn:Hov;
    [discriminate|].
  apply Z.ltb_ge in Hov.
  pose proof (head_inv_next s tr bs H Hov) as Hnext.
  destruct (Z.of_nat (length bs) =? 0) eqn:Hz; simpl.
  - destruct (3 <=? timeouts s + 1) eqn:Hto3; [discriminate|].
    apply Z.leb_gt in Hto3.
    destruct (0 <? mbus_parse (buff s ++ bs)) eqn:Hmore; [|discriminate].
    apply Z.ltb_lt in Hmore.
    apply (IH _ (tr ++ [EvRead (fd h) (remaining s) (Some bs)])).
    + apply Hnext; [intros _; lia|exact Hmore].
    + simpl. lia.
  - apply Z.eqb_neq in Hz.
    destruct (0 <? mbus_parse (buff s ++ bs)) eqn:Hmore; [|discriminate].
    apply Z.ltb_lt in Hmore.
    apply (IH _ (tr ++ [EvRead (fd h) (remaining s) (Some bs)])).
    + apply Hnext; [intros Hnil; rewrite Hnil in Hz; simpl in Hz; lia
                   |exact Hmore].
    + simpl. lia.
Qed.

End RecvLoop.

(** ** [mbus_serial_recv_frame] as a whole *)

Section RecvFrame.

Variable OS : os.
Variable mbus_frame : Type.
Variable _mbus_recv_event : bool.
Variable mbus_parse : list byte -> Z.

Local Abbreviation recv_frame :=
  (mbus_serial_recv_frame OS mbus_frame _mbus_recv_event mbus_parse).

Lemma recv_fuel_enough (w : world) :
  PACKET_BUFF_SIZE - len (recv_init w) + (3 - timeouts (recv_init w))
  <= Z.of_nat recv_fuel.
Proof. unfold recv_fuel, recv_init, PACKET_BUFF_SIZE. cbn [len timeouts]. lia. Qed.

(** The four ways a call with valid arguments can go, read off the events
    [tr] of its loop: a read failed; more bytes arrived than [buff] holds; the
    loop ended with nothing received; the loop ended with bytes received. *)
Lemma recv_frame_cases (h : mbus_handle) (f : mbus_frame) (w : world) :
  exists tr : list event,
    let w1 := mk_world (w_nreads w + length (read_results tr))
                (w_trace w ++ tr) in
    empty_reads tr <= 3 /\
    (timed_out tr <-> empty_reads tr = 3) /\
    ((None ∈ read_results tr) /\ ~ timed_out tr /\
     recv_frame (Some h) (Some f) w = (Some (-1), w1)
     \/ (None ∉ read_results tr) /\
        (PACKET_BUFF_SIZE < Z.of_nat (length (received tr)) /\
         ~ timed_out tr /\
         recv_frame (Some h) (Some f) w = (None, w1)
         \/ received tr = [] /\
            recv_frame (Some h) (Some f) w = (Some (-1), w1)
         \/ received tr <> [] /\
            (timed_out tr -> 0 < mbus_parse (received tr)) /\
            recv_frame (Some h) (Some f) w =
            (Some (if mbus_parse (received tr) =? 0 then 0 else -2),
             if _mbus_recv_event
             then log (EvRecvEvent MBUS_HANDLE_TYPE_SERIAL (received tr)) w1
             else w1))).
Proof.
  destruct (recv_loop_inv OS mbus_parse h w recv_fuel _ _
              (head_inv_init mbus_parse w)) as [tr Hexit].
  pose proof (recv_loop_fuel OS mbus_parse h w recv_fuel _ _
                (head_inv_init mbus_parse w) (recv_fuel_enough w)) as Hfuel.
  exists tr. unfold mbus_serial_recv_frame.
  destruct (recv_loop OS mbus_parse recv_fuel h (recv_init w)) as [r s|s|s|s];
    [| | |exfalso; exact (Hfuel s eq_refl)];
    destruct Hexit as (Htr & Hn & Ht & H3 & Hto & Hcase); simpl in *;
    rewrite <- Ht; (split; [exact H3|]); (split; [exact Hto|]);
    assert (Hw : rw s = mk_world (w_nreads w + length (read_results tr))
                          (w_trace w ++ tr))
      by (destruct (rw s); simpl in *; congruence).
  - destruct Hcase as (-> & Hfail & _ & Hlt). left. rewrite Hw.
    repeat split; auto. rewrite Hto. lia.
  - destruct Hcase as (Hok & Hb & Hl & Hrem & Hpos & Hneg).
    right. split; [exact Hok|]. right.
    rewrite Hw, <- Hb.
    destruct (len s =? 0) eqn:Hz.
    + left. split; [|reflexivity].
      destruct (buff s); [reflexivity|simpl in Hl; lia].
    + right. split; [intros Hnil; rewrite Hnil in Hl; simpl in Hl; lia|].
      split; [intros Hx; apply Hto in Hx; rewrite <- Hrem; auto|].
      rewrite <- Hrem.
      destruct (remaining s =? 0); simpl; [|reflexivity].
      destruct (len s =? -1) eqn:Hm; [lia|reflexivity].
  - destruct Hcase as (Hok & Hbig & Hlt). right. split; [exact Hok|].
    left. rewrite Hw. repeat split; auto. rewrite Hto. lia.
Qed.

(** The same in terms of the events [tr] of the whole call, the callback
    included. *)
Lemma recv_frame_result (h : mbus_handle) (f : mbus_frame) (w : world) :
  exists tr : list event,
    w_trace (snd (recv_frame (Some h) (Some f) w)) = w_trace w ++ tr /\
    empty_reads tr <= 3 /\
    (timed_out tr <-> empty_reads tr = 3) /\
    let r := fst (recv_frame (Some h) (Some f) w) in
    ((None ∈ read_results tr) /\ ~ timed_out tr /\ r = Some (-1)
     \/ (None ∉ read_results tr) /\
        (PACKET_BUFF_SIZE < Z.of_nat (length (received tr)) /\
         ~ timed_out tr /\ r = None
         \/ received tr = [] /\ r = Some (-1)
         \/ received tr <> [] /\
            (timed_out tr -> 0 < mbus_parse (received tr)) /\
            r = Some (if mbus_parse (received tr) =? 0 then 0 else -2) /\
            (_mbus_recv_event = true ->
             exists tr0, tr = tr0 ++ [EvRecvEvent MBUS_HANDLE_TYPE_SERIAL
                                        (received tr)]))).
Proof.
  destruct (recv_frame_cases h f w) as (tr & H3 & Hto & Hcase).
  cbv zeta in Hcase.
  destruct Hcase
    as [(Hfail & Hnt & ->)|(Hok & [(Hbig & Hnt & ->)|[(Hnil & ->)|Hcase]])];
    cbn [fst snd w_trace].
  - exists tr. do 3 (split; [assumption || reflexivity|]). left. auto.
  - exists tr. do 3 (split; [assumption || reflexivity|]). right. auto.
  - exists tr. do 3 (split; [assumption || reflexivity|]). right. auto.
  - destruct Hcase as (Hne & Hpos & ->). cbn [fst snd].
    destruct _mbus_recv_event; cbn [log w_trace].
    + set (ev := EvRecvEvent MBUS_HANDLE_TYPE_SERIAL (received tr)).
      assert (Hrd : read_results (tr ++ [ev]) = read_results tr)
        by (rewrite read_results_app; apply app_nil_r).
      assert (Hrc : received (tr ++ [ev]) = received tr)
        by (unfold received; rewrite Hrd; reflexivity).
      assert (Hem : empty_reads (tr ++ [ev]) = empty_reads tr)
        by (unfold empty_reads; rewrite Hrd; reflexivity).
      assert (Htm : timed_out (tr ++ [ev]) <-> timed_out tr).
      { unfold timed_out. rewrite elem_of_app, elem_of_cons, elem_of_nil.
        split; [intros [Hx|[Hx|[]]]; [exact Hx|discriminate]|auto]. }
      exists (tr ++ [ev]). rewrite Hrd, Hrc, Hem, Htm.
      split; [rewrite <- app_assoc; reflexivity|].
      do 2 (split; [assumption|]).
      right. split; [exact Hok|]. right. right. repeat split; auto.
      intros _. exists tr. reflexivity.
    + exists tr. do 3 (split; [assumption || reflexivity|]).
      right. split; [exact Hok|]. right. right. repeat split; auto.
      discriminate.
Qed.

End RecvFrame.

(** ** The events of the loop *)

Section RecvTrace.

Variable OS : os.
Variable mbus_parse : list byte -> Z.
Variable h : mbus_handle.
Variable w0 : world.

Lemma next_request_snoc_read (tr : list event) (count : Z) (bs : list byte) :
  next_request mbus_parse (tr ++ [EvRead (fd h) count (Some bs)])
  = mbus_parse (received tr ++ bs).
Proof.
  unfold next_request.
  rewrite read_results_app, received_app, received_read. simpl.
  destruct (read_results tr); reflexivity.
Qed.

(** A property of traces that holds of the empty trace and survives every
    read the loop can issue and the Timeout line holds of the trace of the
    loop, however the loop is left. *)
Lemma recv_loop_trace_inv (P : list event -> Prop) :
  (forall s tr res,
      head_inv mbus_parse w0 s tr ->
      remaining s = next_request mbus_parse tr ->
      P tr ->
      P (tr ++ [EvRead (fd h) (remaining s)
                  (take (Z.to_nat (remaining s)) <$> res)])) ->
  (forall tr, P tr -> P (tr ++ [EvStderr timeout_msg])) ->
  forall fuel s tr,
    head_inv mbus_parse w0 s tr ->
    remaining s = next_request mbus_parse tr ->
    P tr ->
    exists tr',
      w_trace (rw (exit_state (recv_loop OS mbus_parse fuel h s)))
      = w_trace w0 ++ tr' /\ P tr'.
Proof.
  intros Hread Htimeout.
  induction fuel as [|fuel IH]; intros s tr H Hreq HP.
  { exists tr. split; [apply H|exact HP]. }
  pose proof H as [Htr Hn Hr Hb Hl Hbd Ht H3 Hp Hrem].
  pose proof (Hread s tr
                (os_read OS (w_nreads (rw s)) (fd h) (remaining s)) H Hreq HP)
    as HP'.
  rewrite recv_loop_unfold. unfold sys_read.
  destruct (os_read OS (w_nreads (rw s)) (fd h) (remaining s)) as [bs0|];
    simpl in *.
  2:{ eexists. split; [|exact HP']. trace_step Htr. }
  set (bs := take (Z.to_nat (remaining s)) bs0) in *.
  destruct (PACKET_BUFF_SIZE <? len s + Z.of_nat (length bs)) eqn:Hov.
  { eexists. split; [|exact HP']. simpl. trace_step Htr. }
  apply Z.ltb_ge in Hov.
  pose proof (head_inv_next mbus_parse h w0 s tr bs H Hov) as Hnext.
  assert (Hreq' : mbus_parse (buff s ++ bs)
                  = next_request mbus_parse
                      (tr ++ [EvRead (fd h) (remaining s) (Some bs)]))
    by (rewrite next_request_snoc_read, Hb; reflexivity).
  destruct (Z.of_nat (length bs) =? 0) eqn:Hz; simpl.
  - destruct (3 <=? timeouts s + 1) eqn:Hto3.
    + eexists. split; [|apply Htimeout, HP']. simpl.
      rewrite Htr, <- !app_assoc. reflexivity.
    + apply Z.leb_gt in Hto3.
      destruct (0 <? mbus_parse (buff s ++ bs)) eqn:Hmore.
      * apply Z.ltb_lt in Hmore.
        apply (IH _ (tr ++ [EvRead (fd h) (remaining s) (Some bs)]));
          [apply Hnext; [intros _; lia|exact Hmore]|exact Hreq'|exact HP'].
      * eexists. split; [|exact HP']. simpl. trace_step Htr.
  - apply Z.eqb_neq in Hz.
    destruct (0 <? mbus_parse (buff s ++ bs)) eqn:Hmore.
    + apply Z.ltb_lt in Hmore.
      apply (IH _ (tr ++ [EvRead (fd h) (remaining s) (Some bs)]));
        [apply Hnext;
         [intros Hnil; rewrite Hnil in Hz; simpl in Hz; lia|exact Hmore]
        |exact Hreq'|exact HP'].
    + eexists. split; [|exact HP']. simpl. trace_step Htr.
Qed.

(** The loop issues at most one read for each unit of fuel. *)
Lemma recv_loop_reads_bound (fuel : nat) :
  forall s,
    (w_nreads (rw (exit_state (recv_loop OS mbus_parse fuel h s)))
     <= w_nreads (rw s) + fuel)%nat.
Proof.
  induction fuel as [|fuel IH]; intros s; [simpl; lia|].
  rewrite recv_loop_unfold. unfold sys_read.
  destruct (os_read OS (w_nreads (rw s)) (fd h) (remaining s)) as [bs0|];
    simpl; [|lia].
  set (bs := take (Z.to_nat (remaining s)) bs0).
  destruct (PACKET_BUFF_SIZE <? len s + Z.of_nat (length bs)); [simpl; lia|].
  destruct ((Z.of_nat (length bs) =? 0)
            && (3 <=? (if Z.of_nat (length bs) =? 0
                       then timeouts s + 1 else timeouts s)));
    [simpl; lia|].
  destruct (0 <? mbus_parse (buff s ++ bs)); [|simpl; lia].
  etransitivity; [apply IH|]. simpl. lia.
Qed.

(** With a parser that never asks for more than [buff] has room for, no read
    stores a byte past the end of [buff]. *)
Lemma recv_loop_no_overrun (fuel : nat) :
  parser_fits mbus_parse ->
  forall s tr,
    head_inv mbus_parse w0 s tr ->
    len s + remaining s <= PACKET_BUFF_SIZE ->
    forall s', recv_loop OS mbus_parse fuel h s <> LOverrun s'.
Proof.
  intros Hfit.
  induction fuel as [|fuel IH]; intros s tr H Hroom s'; [discriminate|].
  pose proof H as [Htr Hn Hr Hb Hl Hbd Ht H3 Hp Hrem].
  rewrite recv_loop_unfold. unfold sys_read.
  destruct (os_read OS (w_nreads (rw s)) (fd h) (remaining s)) as [bs0|];
    simpl; [|discriminate].
  set (bs := take (Z.to_nat (remaining s)) bs0).
  assert (Hclip : Z.of_nat (length bs) <= remaining s).
  { unfold bs. rewrite length_take. lia. }
  destruct (PACKET_BUFF_SIZE <? len s + Z.of_nat (length bs)) eqn:Hov;
    [lia|].
  apply Z.ltb_ge in Hov.
  pose proof (head_inv_next mbus_parse h w0 s tr bs H Hov) as Hnext.
  assert (Hroom' : 0 < mbus_parse (buff s ++ bs) ->
                   len s + Z.of_nat (length bs) + mbus_parse (buff s ++ bs)
                   <= PACKET_BUFF_SIZE).
  { intros Hmore. apply Hfit in Hmore. rewrite length_app in Hmore. lia. }
  destruct (Z.of_nat (length bs) =? 0) eqn:Hz; simpl.
  - destruct (3 <=? timeouts s + 1) eqn:Hto3; [discriminate|].
    apply Z.leb_gt in Hto3.
    destruct (0 <? mbus_parse (buff s ++ bs)) eqn:Hmore; [|discriminate].
    apply Z.ltb_lt in Hmore.
    apply (IH _ (tr ++ [EvRead (fd h) (remaining s) (Some bs)]));
      [apply Hnext; [intros _; lia|exact Hmore]|simpl; auto].
  - apply Z.eqb_neq in Hz.
    destruct (0 <? mbus_parse (buff s ++ bs)) eqn:Hmore; [|discriminate].
    apply Z.ltb_lt in Hmore.
    apply (IH _ (tr ++ [EvRead (fd h) (remaining s) (Some bs)]));
      [apply Hnext;
       [intros Hnil; rewrite Hnil in Hz; simpl in Hz; lia|exact Hmore]
      |simpl; auto].
Qed.

End RecvTrace.

(** A call in which a read has failed returns -1 and has not called the
    receive callback. *)
Lemma recv_frame_failed_read (OS : os) (mbus_frame : Type)
    (_mbus_recv_event : bool) (mbus_parse : list byte -> Z)
    (h : mbus_handle) (f : mbus_frame) (w : world) (tr : list event) :
  w_trace (snd (mbus_serial_recv_frame OS mbus_frame _mbus_recv_event
                  mbus_parse (Some h) (Some f) w)) = w_trace w ++ tr ->
  None ∈ read_results tr ->
  fst (mbus_serial_recv_frame OS mbus_frame _mbus_recv_event mbus_parse
         (Some h) (Some f) w) = Some (-1) /\
  forall src data, EvRecvEvent src data ∉ tr.
Proof.
  intros Htr Hfail.
  destruct (recv_loop_inv OS mbus_parse h w recv_fuel _ _
              (head_inv_init mbus_parse w)) as (tr1 & Hexit).
  assert (Hev : exists tr2,
             w_trace (rw (exit_state (recv_loop OS mbus_parse recv_fuel h
                                        (recv_init w))))
             = w_trace w ++ tr2 /\
             forall src data, EvRecvEvent src data ∉ tr2).
  { apply (recv_loop_trace_inv OS mbus_parse h w
             (fun tr => forall src data, EvRecvEvent src data ∉ tr))
      with (tr := @nil event).
    - intros s0 tr0 res _ _ HP0 src data Hin.
      rewrite elem_of_app, elem_of_cons, elem_of_nil in Hin.
      destruct Hin as [Hin|[Hin|[]]]; [exact (HP0 _ _ Hin)|discriminate Hin].
    - intros tr0 HP0 src data Hin.
      rewrite elem_of_app, elem_of_cons, elem_of_nil in Hin.
      destruct Hin as [Hin|[Hin|[]]]; [exact (HP0 _ _ Hin)|discriminate Hin].
    - apply head_inv_init.
    - reflexivity.
    - intros src data Hin. apply elem_of_nil in Hin. exact Hin. }
  destruct Hev as (tr2 & Htr2 & HP).
  assert (tr2 = tr1) as ->.
  { destruct Hexit as (Htr1 & _). rewrite Htr2 in Htr1.
    apply app_inv_head in Htr1. exact Htr1. }
  revert Htr Hfail. unfold mbus_serial_recv_frame.
  destruct (recv_loop OS mbus_parse recv_fuel h (recv_init w)) as [r s|s|s|s];
    cbn [exit_state] in *; intros Htr Hfail;
    destruct Hexit as (_ & _ & _ & _ & _ & Hcase).
  - cbn [fst snd] in Htr |- *. rewrite Htr2 in Htr.
    apply app_inv_head in Htr. subst tr.
    destruct Hcase as (-> & _). split; [reflexivity|exact HP].
  - exfalso. destruct Hcase as (Hok & _). apply Hok.
    destruct (len s =? 0), _mbus_recv_event, (remaining s =? 0),
      (len s =? -1);
      cbn [snd negb log w_trace] in Htr; rewrite Htr2 in Htr;
      rewrite <- ?app_assoc in Htr; apply app_inv_head in Htr; subst tr;
      rewrite ?read_results_app in Hfail; cbn [read_results] in Hfail;
      rewrite ?app_nil_r in Hfail; exact Hfail.
  - exfalso. cbn [snd] in Htr. rewrite Htr2 in Htr.
    apply app_inv_head in Htr. subst tr.
    destruct Hcase as (Hok & _). exact (Hok Hfail).
  - exfalso. cbn [snd] in Htr. rewrite Htr2 in Htr.
    apply app_inv_head in Htr. subst tr.
    exact (good_reads_no_failure _ (hi_reads _ _ _ _ Hcase) Hfail).
Qed.

(** ** The claims about [mbus_serial_recv_frame] *)

Lemma recv_loop_timeouts_mono (OS : os) (mbus_parse : list byte -> Z)
    (h : mbus_handle) (fuel : nat) :
  forall s : recv_state,
    timeouts s <= timeouts (exit_state (recv_loop OS mbus_parse fuel h s)).
Proof.
  induction fuel as [|fuel IH]; intros s; [simpl; lia|].
  rewrite recv_loop_unfold. unfold sys_read.
  destruct (os_read OS (w_nreads (rw s)) (fd h) (remaining s)) as [bs0|];
    simpl; [|lia].
  set (bs := take (Z.to_nat (remaining s)) bs0).
  destruct (PACKET_BUFF_SIZE <? len s + Z.of_nat (length bs)); [simpl; lia|].
  destruct (Z.of_nat (length bs) =? 0); simpl.
  - destruct (3 <=? timeouts s + 1); [simpl; lia|].
    destruct (0 <? mbus_parse (buff s ++ bs)); [|simpl; lia].
    etransitivity; [|apply IH]. simpl. lia.
  - destruct (0 <? mbus_parse (buff s ++ bs)); [|simpl; lia].
    etransitivity; [|apply IH]. simpl. lia.
Qed.

Lemma invalid_parameter_not_timeout :
  ~ timed_out [EvStderr "mbus_serial_recv_frame: Invalid parameter."].
Proof.
  unfold timed_out. rewrite elem_of_cons, elem_of_nil.
  intros [H|[]]. discriminate H.
Qed.

(** C1.  On a link that delivers no bytes, a call with valid arguments issues
    exactly three reads, each of which returns nothing, writes the Timeout
    line and returns -1.  The second and third read ask for what
    [mbus_parse] answers for the empty buffer, which is a request for more
    bytes (1 in the assembler of the spec). *)
Theorem silent_link_three_empty_reads
    (OS : os) (mbus_frame : Type) (_mbus_recv_event : bool)
    (mbus_parse : list byte -> Z)
    (h : mbus_handle) (f : mbus_frame) (w : world) :
  (forall k fildes count,
      (w_nreads w <= k)%nat -> os_read OS k fildes count = Some []) ->
  0 < mbus_parse [] ->
  mbus_serial_recv_frame OS mbus_frame _mbus_recv_event mbus_parse
    (Some h) (Some f) w
  = (Some (-1),
     mk_world (S (S (S (w_nreads w))))
       (w_trace w ++ [EvRead (fd h) 1 (Some []);
                      EvRead (fd h) (mbus_parse []) (Some []);
                      EvRead (fd h) (mbus_parse []) (Some []);
                      EvStderr timeout_msg])).
Proof.
  intros Hsilent Hmore. unfold mbus_serial_recv_frame.
  assert (recv_fuel = S (S (S (Z.to_nat PACKET_BUFF_SIZE)))) as ->
    by (unfold recv_fuel; lia).
  apply Z.ltb_lt in Hmore.
  do 2 (rewrite recv_loop_unfold; unfold sys_read;
        rewrite Hsilent by (simpl; lia); simpl;
        rewrite ?take_nil; simpl; rewrite Hmore).
  rewrite recv_loop_unfold. unfold sys_read.
  rewrite Hsilent by (simpl; lia). simpl.
  rewrite ?take_nil. simpl.
  unfold log. simpl. rewrite <- !app_assoc. reflexivity.
Qed.

(** C1 on a scripted device that stays silent, with the assembler of the
    spec. *)
Lemma silent_link_three_empty_reads_witness :
  mbus_serial_recv_frame (script_os []) unit true mbus_parse_spec
    (Some tty_handle) (Some tt) fresh
  = (Some (-1),
     mk_world 3 [EvRead 0 1 (Some []); EvRead 0 1 (Some []);
                 EvRead 0 1 (Some []); EvStderr timeout_msg]).
Proof.
  apply (silent_link_three_empty_reads (script_os []) unit true
           mbus_parse_spec tty_handle tt fresh).
  - intros k fildes count _. reflexivity.
  - reflexivity.
Defined.

(** The three reads of C1 depend on the answer of [mbus_parse] for the empty
    buffer: were it not a request for more bytes, the loop would end after the
    first empty read, still with result -1. *)
Remark silent_link_parser_declines
    (OS : os) (mbus_frame : Type) (_mbus_recv_event : bool)
    (mbus_parse : list byte -> Z)
    (h : mbus_handle) (f : mbus_frame) (w : world) :
  (forall k fildes count,
      (w_nreads w <= k)%nat -> os_read OS k fildes count = Some []) ->
  mbus_parse [] <= 0 ->
  mbus_serial_recv_frame OS mbus_frame _mbus_recv_event mbus_parse
    (Some h) (Some f) w
  = (Some (-1),
     mk_world (S (w_nreads w)) (w_trace w ++ [EvRead (fd h) 1 (Some [])])).
Proof.
  intros Hsilent Hdone. unfold mbus_serial_recv_frame.
  assert (recv_fuel = S (S (S (Z.to_nat PACKET_BUFF_SIZE)))) as ->
    by (unfold recv_fuel; lia).
  apply Z.ltb_ge in Hdone.
  rewrite recv_loop_unfold. unfold sys_read.
  rewrite Hsilent by (simpl; lia). simpl.
  rewrite Hdone. reflexivity.
Qed.

(** What a call with a NULL handle or a NULL frame does. *)
Lemma recv_frame_invalid (OS : os) (mbus_frame : Type)
    (_mbus_recv_event : bool) (mbus_parse : list byte -> Z)
    (handle : option mbus_handle) (frame : option mbus_frame) (w : world) :
  handle = None \/ frame = None ->
  mbus_serial_recv_frame OS mbus_frame _mbus_recv_event mbus_parse
    handle frame w
  = (Some (-1),
     log (EvStderr "mbus_serial_recv_frame: Invalid parameter.") w).
Proof.
  intros [->| ->]; [reflexivity|]. destruct handle; reflexivity.
Qed.



(** C3, as stated, fails: with two empty reads that are each followed by a
    byte and then a third empty read, the loop is aborted although no three
    empty reads were consecutive. *)
Lemma consecutive_timeout_rule_fails :
  ~ consecutive_timeout_rule (script_os interleaved_reads) mbus_parse_spec
      tty_handle.
Proof.
  unfold consecutive_timeout_rule.
  assert (Htr : w_trace (snd (mbus_serial_recv_frame
                  (script_os interleaved_reads) unit true mbus_parse_spec
                  (Some tty_handle) (Some tt) fresh))
                = [EvRead 0 1 (Some []); EvRead 0 1 (Some [x10]);
                   EvRead 0 4 (Some []); EvRead 0 4 (Some [x40]);
                   EvRead 0 3 (Some []); EvStderr timeout_msg;
                   EvRecvEvent MBUS_HANDLE_TYPE_SERIAL [x10; x40]])
    by (vm_compute; reflexivity).
  rewrite Htr. clear Htr. intros [Hfwd _].
  assert (Hto : timed_out
                  [EvRead 0 1 (Some []); EvRead 0 1 (Some [x10]);
                   EvRead 0 4 (Some []); EvRead 0 4 (Some [x40]);
                   EvRead 0 3 (Some []); EvStderr timeout_msg;
                   EvRecvEvent MBUS_HANDLE_TYPE_SERIAL [x10; x40]]).
  { unfold timed_out. do 5 apply list_elem_of_further.
    apply list_elem_of_here. }
  apply Hfwd in Hto. vm_compute in Hto. discriminate Hto.
Qed.

(** C3, amended.  The counter counts all empty reads of the call: the loop is
    aborted, with the Timeout line, exactly when the call has had three
    zero-byte reads, consecutive or not; the call then returns -1 if nothing
    was received and -2 otherwise. *)
Theorem timeout_on_third_empty_read
    (OS : os) (mbus_frame : Type) (_mbus_recv_event : bool)
    (mbus_parse : list byte -> Z)
    (handle : option mbus_handle) (frame : option mbus_frame) (w : world) :
  exists tr : list event,
    w_trace (snd (mbus_serial_recv_frame OS mbus_frame _mbus_recv_event
                    mbus_parse handle frame w)) = w_trace w ++ tr /\
    (timed_out tr <-> empty_reads tr = 3) /\
    (timed_out tr ->
     fst (mbus_serial_recv_frame OS mbus_frame _mbus_recv_event
            mbus_parse handle frame w)
     = Some (match received tr with [] => -1 | _ => -2 end)).
Proof.
  destruct handle as [h|], frame as [f|];
    try (rewrite recv_frame_invalid by auto;
         exists [EvStderr "mbus_serial_recv_frame: Invalid parameter."];
         split; [reflexivity|];
         split; [split; [intros Hx; contradiction
                           (invalid_parameter_not_timeout Hx)
                        |discriminate]
                |intros Hx; contradiction (invalid_parameter_not_timeout Hx)]).
  destruct (recv_frame_result OS mbus_frame _mbus_recv_event mbus_parse h f w)
    as (tr & Htr & H3 & Hto & Hcase).
  exists tr. split; [exact Htr|]. split; [exact Hto|].
  intros Hx. simpl in Hcase.
  destruct Hcase
    as [(_ & Hnt & _)|(_ & [(_ & Hnt & _)|[(Hnil & Hr)|(Hne & Hpos & Hr & _)]])];
    try contradiction.
  - rewrite Hr, Hnil. reflexivity.
  - rewrite Hr. apply Hpos in Hx.
    destruct (Z.eqb_spec (mbus_parse (received tr)) 0) as [Hz|_]; [lia|].
    destruct (received tr); [contradiction|reflexivity].
Qed.

(** C3, amended, on the interleaved reads. *)
Lemma timeout_on_third_empty_read_witness :
  exists tr : list event,
    w_trace (snd (mbus_serial_recv_frame (script_os interleaved_reads) unit
                    true mbus_parse_spec (Some tty_handle) (Some tt) fresh))
    = [] ++ tr /\
    (timed_out tr <-> empty_reads tr = 3) /\
    (timed_out tr ->
     fst (mbus_serial_recv_frame (script_os interleaved_reads) unit true
            mbus_parse_spec (Some tty_handle) (Some tt) fresh)
     = Some (match received tr with [] => -1 | _ => -2 end)).
Proof.
  apply (timeout_on_third_empty_read (script_os interleaved_reads) unit true
           mbus_parse_spec (Some tty_handle) (Some tt) fresh).
Defined.

(** C9, as stated, fails: when a read fails after a byte has arrived, the call
    returns -1 from inside the loop and the callback is not called. *)
Lemma recv_event_whenever_bytes_fails :
  ~ recv_event_whenever_bytes (script_os failing_reads) mbus_parse_spec
      tty_handle.
Proof.
  unfold recv_event_whenever_bytes.
  assert (Htr : w_trace (snd (mbus_serial_recv_frame
                  (script_os failing_reads) unit true mbus_parse_spec
                  (Some tty_handle) (Some tt) fresh))
                = [EvRead 0 1 (Some [x10]); EvRead 0 4 None])
    by (vm_compute; reflexivity).
  rewrite Htr. clear Htr. intros Hclaim.
  assert (Hne : received [EvRead 0 1 (Some [x10]); EvRead 0 4 None] <> [])
    by (vm_compute; discriminate).
  apply Hclaim in Hne.
  repeat (apply elem_of_cons in Hne as [Hne|Hne]; [discriminate Hne|]).
  apply elem_of_nil in Hne. exact Hne.
Qed.

(** C9, amended.  With a callback registered, whenever no read has failed and
    at least one byte was received, the last thing the call does before it
    returns is to call the callback with the bytes received; this is so for a
    complete frame (result 0) and for bytes that are no complete frame
    (result -2) alike.  Whenever a read has failed, the result is -1 and the
    callback has not been called, whatever was received before. *)
Theorem recv_event_after_loop
    (OS : os) (mbus_frame : Type) (mbus_parse : list byte -> Z)
    (handle : option mbus_handle) (frame : option mbus_frame)
    (w w' : world) (r : Z) (tr : list event) :
  mbus_serial_recv_frame OS mbus_frame true mbus_parse handle frame w
  = (Some r, w') ->
  w_trace w' = w_trace w ++ tr ->
  (None ∉ read_results tr ->
   received tr <> [] ->
   (exists tr0,
       tr = tr0 ++ [EvRecvEvent MBUS_HANDLE_TYPE_SERIAL (received tr)]) /\
   (mbus_parse (received tr) = 0 -> r = 0) /\
   (mbus_parse (received tr) <> 0 -> r = -2)) /\
  (None ∈ read_results tr ->
   r = -1 /\ forall src data, EvRecvEvent src data ∉ tr).
Proof.
  intros Hcall Htr. split.
  - intros Hok Hne.
    destruct handle as [h|], frame as [f|];
      try (rewrite recv_frame_invalid in Hcall by auto;
           injection Hcall as _ <-; simpl in Htr;
           apply app_inv_head in Htr; subst tr; contradiction Hne;
           reflexivity).
    destruct (recv_frame_result OS mbus_frame true mbus_parse h f w)
      as (tr' & Htr' & _ & _ & Hcase).
    rewrite Hcall in Htr', Hcase. simpl in Htr', Hcase.
    rewrite Htr in Htr'. apply app_inv_head in Htr'. subst tr'.
    destruct Hcase
      as [(Hfail & _)|(_ & [(_ & _ & Hr)|[(Hnil & _)|(_ & _ & Hr & Hev)]])];
      try contradiction; try discriminate Hr.
    injection Hr as ->. split; [apply Hev; reflexivity|].
    destruct (Z.eqb_spec (mbus_parse (received tr)) 0); split; intros; lia.
  - intros Hfail.
    destruct handle as [h|], frame as [f|];
      try (rewrite recv_frame_invalid in Hcall by auto;
           injection Hcall as _ <-; simpl in Htr;
           apply app_inv_head in Htr; subst tr; simpl in Hfail;
           apply elem_of_nil in Hfail; contradiction).
    destruct (recv_frame_failed_read OS mbus_frame true mbus_parse h f w tr)
      as (Hr & Hno); [rewrite Hcall; exact Htr|exact Hfail|].
    rewrite Hcall in Hr. injection Hr as ->. split; [reflexivity|exact Hno].
Qed.

(** C9, amended, on the interleaved reads, where the callback gets the two
    bytes and the result is -2, and on the reads of which the second fails,
    where the result is -1 and the callback is not called. *)
Lemma recv_event_after_loop_witness :
  ((exists tr0,
       [EvRead 0 1 (Some []); EvRead 0 1 (Some [x10]);
        EvRead 0 4 (Some []); EvRead 0 4 (Some [x40]);
        EvRead 0 3 (Some []); EvStderr timeout_msg;
        EvRecvEvent MBUS_HANDLE_TYPE_SERIAL [x10; x40]]
       = tr0 ++ [EvRecvEvent MBUS_HANDLE_TYPE_SERIAL [x10; x40]]) /\
   (mbus_parse_spec [x10; x40] = 0 -> -2 = 0) /\
   (mbus_parse_spec [x10; x40] <> 0 -> -2 = -2)) /\
  (-1 = -1 /\
   forall src data,
     EvRecvEvent src data ∉ [EvRead 0 1 (Some [x10]); EvRead 0 4 None]).
Proof.
  split.
  - apply (proj1 (recv_event_after_loop
                    (script_os interleaved_reads) unit mbus_parse_spec
                    (Some tty_handle) (Some tt) fresh
                    (mk_world 5
                       [EvRead 0 1 (Some []); EvRead 0 1 (Some [x10]);
                        EvRead 0 4 (Some []); EvRead 0 4 (Some [x40]);
                        EvRead 0 3 (Some []); EvStderr timeout_msg;
                        EvRecvEvent MBUS_HANDLE_TYPE_SERIAL [x10; x40]])
                    (-2)
                    [EvRead 0 1 (Some []); EvRead 0 1 (Some [x10]);
                     EvRead 0 4 (Some []); EvRead 0 4 (Some [x40]);
                     EvRead 0 3 (Some []); EvStderr timeout_msg;
                     EvRecvEvent MBUS_HANDLE_TYPE_SERIAL [x10; x40]]
                    ltac:(vm_compute; reflexivity) eq_refl)).
    + vm_compute. intros H.
      repeat (apply elem_of_cons in H as [H|H]; [discriminate H|]).
      apply elem_of_nil in H. exact H.
    + vm_compute. discriminate.
  - apply (proj2 (recv_event_after_loop
                    (script_os failing_reads) unit mbus_parse_spec
                    (Some tty_handle) (Some tt) fresh
                    (mk_world 2 [EvRead 0 1 (Some [x10]); EvRead 0 4 None])
                    (-1)
                    [EvRead 0 1 (Some [x10]); EvRead 0 4 None]
                    ltac:(vm_compute; reflexivity) eq_refl)).
    vm_compute. apply list_elem_of_further, list_elem_of_here.
Defined.

(** C10.  The counter of empty reads never decreases while the loop runs;
    after any number of iterations it equals the number of zero-byte reads
    the call has issued so far, whatever came between them, and it is at most
    3: a call never issues a fourth zero-byte read. *)
Theorem empty_read_counter_never_reset
    (OS : os) (mbus_frame : Type) (_mbus_recv_event : bool)
    (mbus_parse : list byte -> Z)
    (handle : option mbus_handle) (frame : option mbus_frame) (w : world) :
  (forall fuel h s,
      timeouts s
      <= timeouts (exit_state (recv_loop OS mbus_parse fuel h s))) /\
  (forall fuel h,
      exists tr,
        let s := exit_state (recv_loop OS mbus_parse fuel h (recv_init w))
        in w_trace (rw s) = w_trace w ++ tr /\
           timeouts s = empty_reads tr /\ timeouts s <= 3) /\
  exists tr,
    w_trace (snd (mbus_serial_recv_frame OS mbus_frame _mbus_recv_event
                    mbus_parse handle frame w)) = w_trace w ++ tr /\
    empty_reads tr <= 3.
Proof.
  split; [intros; apply recv_loop_timeouts_mono|]. split.
  - intros fuel h.
    destruct (recv_loop_inv OS mbus_parse h w fuel _ _
                (head_inv_init mbus_parse w))
      as (tr & Htr & _ & Ht & H3 & _).
    exists tr. simpl. auto.
  - destruct handle as [h|], frame as [f|];
      try (rewrite recv_frame_invalid by auto;
           exists [EvStderr "mbus_serial_recv_frame: Invalid parameter."];
           split; [reflexivity|vm_compute; discriminate]).
    destruct (recv_frame_result OS mbus_frame _mbus_recv_event mbus_parse
                h f w) as (tr & Htr & H3 & _).
    exists tr. auto.
Qed.

(** ** The claims about the line settings *)

(** The [switch] of [mbus_serial_set_baudrate] has a case for a rate exactly
    when the rate is one of the four supported ones. *)
Lemma set_baudrate_default (OS : os) (h : mbus_handle) (baudrate : Z)
    (w : world) :
  ~ supported_baudrate baudrate ->
  mbus_serial_set_baudrate OS (Some h) baudrate w = Some (-1, Some h, w).
Proof.
  unfold supported_baudrate, mbus_serial_set_baudrate. intros Hno.
  destruct baudrate as [|p|p]; try reflexivity.
  repeat (destruct p as [p|p|]; try reflexivity); exfalso; apply Hno; auto.
Qed.

(** The code of a speed constant lies within the [CBAUD] bits, so writing a
    code twice, or one code after another, leaves the last one. *)
Lemma speed_code_in_cbaud (s : speed_t) : Z.ldiff (speed_code s) CBAUD = 0.
Proof. destruct s; reflexivity. Qed.

Lemma cbaud_clear_after_set (c k : Z) :
  Z.ldiff k CBAUD = 0 ->
  Z.ldiff (Z.lor (Z.ldiff c CBAUD) k) CBAUD = Z.ldiff c CBAUD.
Proof.
  intros Hk. apply Z.bits_inj'. intros n Hn.
  rewrite !Z.ldiff_spec, Z.lor_spec, Z.ldiff_spec.
  assert (H : Z.testbit (Z.ldiff k CBAUD) n = false)
    by (rewrite Hk; apply Z.bits_0).
  rewrite Z.ldiff_spec in H.
  destruct (Z.testbit c n), (Z.testbit k n), (Z.testbit CBAUD n);
    simpl in *; congruence.
Qed.

Lemma ibaud0_clear_twice (i : Z) :
  Z.ldiff (Z.ldiff i IBAUD0) IBAUD0 = Z.ldiff i IBAUD0.
Proof.
  apply Z.bits_inj'. intros n Hn. rewrite !Z.ldiff_spec.
  destruct (Z.testbit i n), (Z.testbit IBAUD0 n); reflexivity.
Qed.

(** [cfsetispeed] followed by [cfsetospeed] with the same speed other than
    [B0]. *)
Lemma cfset_both_speeds (tio : termios) (speed : speed_t) :
  speed <> B0 ->
  cfsetispeed tio speed
  = (0, mk_termios (Z.ldiff (c_iflag tio) IBAUD0) (c_oflag tio)
          (Z.lor (Z.ldiff (c_cflag tio) CBAUD) (speed_code speed))
          (c_lflag tio) (c_cc tio) speed (c_ospeed tio)) /\
  cfsetospeed (snd (cfsetispeed tio speed)) speed
  = (0, mk_termios (Z.ldiff (c_iflag tio) IBAUD0) (c_oflag tio)
          (Z.lor (Z.ldiff (c_cflag tio) CBAUD) (speed_code speed))
          (c_lflag tio) (c_cc tio) speed speed).
Proof.
  intros Hs.
  assert (Hi : cfsetispeed tio speed
               = (0, mk_termios (Z.ldiff (c_iflag tio) IBAUD0) (c_oflag tio)
                       (Z.lor (Z.ldiff (c_cflag tio) CBAUD) (speed_code speed))
                       (c_lflag tio) (c_cc tio) speed (c_ospeed tio)))
    by (destruct speed; [contradiction Hs| | | |]; reflexivity).
  split; [exact Hi|]. rewrite Hi. unfold cfsetospeed.
  cbn [snd c_iflag c_oflag c_cflag c_lflag c_cc c_ispeed c_ospeed].
  rewrite (cbaud_clear_after_set _ _ (speed_code_in_cbaud speed)).
  reflexivity.
Qed.

(** A supported rate: the settings of its case, with [VTIME] written first,
    go to [tcsetattr], and the result of [tcsetattr] decides. *)
Lemma set_baudrate_supported (OS : os) (h : mbus_handle)
    (sd : mbus_serial_data) (baudrate : Z) (speed : speed_t) (vtime : Z)
    (w : world) :
  auxdata h = Some sd ->
  baud_case baudrate speed vtime ->
  let tio := with_baud (t sd) speed vtime in
  let r := os_tcsetattr OS (fd h) TCSANOW tio in
  mbus_serial_set_baudrate OS (Some h) baudrate w
  = Some (if r =? 0 then 0 else -1,
          Some (mk_handle (fd h) (Some (mk_serial_data (device sd) tio))),
          log (EvTcsetattr (fd h) TCSANOW tio r) w).
Proof.
  intros Hsd Hcase.
  assert (Hs : speed <> B0)
    by (destruct Hcase as [(_ & -> & _)|[(_ & -> & _)|[(_ & -> & _)
                                                      |(_ & -> & _)]]];
        discriminate).
  assert (Hbody :
    forall t1,
      t1 = set_c_cc (t sd) VTIME vtime ->
      (let '(r, t2) := cfsetispeed t1 speed in
       if negb (r =? 0) then
         Some (-1, Some (mk_handle (fd h)
                           (Some (mk_serial_data (device sd) t2))), w)
       else
       let '(r, t3) := cfsetospeed t2 speed in
       if negb (r =? 0) then
         Some (-1, Some (mk_handle (fd h)
                           (Some (mk_serial_data (device sd) t3))), w)
       else
       let h' := mk_handle (fd h) (Some (mk_serial_data (device sd) t3)) in
       let r := os_tcsetattr OS (fd h) TCSANOW t3 in
       let w := log (EvTcsetattr (fd h) TCSANOW t3 r) w in
       if negb (r =? 0) then Some (-1, Some h', w)
       else Some (0, Some h', w))
      = Some (if os_tcsetattr OS (fd h) TCSANOW
                   (with_baud (t sd) speed vtime) =? 0 then 0 else -1,
              Some (mk_handle (fd h)
                      (Some (mk_serial_data (device sd)
                               (with_baud (t sd) speed vtime)))),
              log (EvTcsetattr (fd h) TCSANOW (with_baud (t sd) speed vtime)
                     (os_tcsetattr OS (fd h) TCSANOW
                        (with_baud (t sd) speed vtime))) w)).
  { intros t1 ->.
    destruct (cfset_both_speeds (set_c_cc (t sd) VTIME vtime) speed Hs)
      as [Hi Ho].
    rewrite Hi in Ho |- *. cbn [snd] in Ho. cbn [negb Z.eqb].
    rewrite Ho. cbn [negb Z.eqb set_c_cc c_iflag c_oflag c_cflag c_lflag c_cc].
    fold (with_baud (t sd) speed vtime).
    destruct (os_tcsetattr OS (fd h) TCSANOW (with_baud (t sd) speed vtime)
              =? 0); reflexivity. }
  cbv zeta.
  destruct Hcase as [(-> & -> & ->)|[(-> & -> & ->)|[(-> & -> & ->)
                                                   |(-> & -> & ->)]]];
    unfold mbus_serial_set_baudrate; rewrite Hsd;
    cbv beta iota zeta; apply Hbody; reflexivity.
Qed.

Lemma supported_baud_case (baudrate : Z) :
  supported_baudrate baudrate ->
  exists speed vtime,
    baud_case baudrate speed vtime /\ speed_baud speed = baudrate.
Proof.
  unfold baud_case.
  intros [ -> | [ -> | [ -> | -> ] ] ];
    [exists B300, 12|exists B1200, 4|exists B2400, 2|exists B9600, 1];
    (split; [tauto|reflexivity]).
Qed.

(** C5.  A rate outside {300, 1200, 2400, 9600} makes the call return -1
    with the handle, the settings in it and the world exactly as they were: no
    [tcsetattr] is issued.  For a rate inside the set the settings with the
    new speed, its code in the [CBAUD] bits of the flag word, and the new
    [VTIME] are stored in the handle and handed to [tcsetattr] on the
    handle's descriptor with [TCSANOW], and the call returns 0 when that
    succeeds and -1 when not. *)
Theorem set_baudrate_unsupported_unchanged
    (OS : os) (handle : option mbus_handle) (baudrate : Z) (w : world) :
  (~ supported_baudrate baudrate ->
   mbus_serial_set_baudrate OS handle baudrate w = Some (-1, handle, w)) /\
  (supported_baudrate baudrate ->
   forall h sd,
     handle = Some h -> auxdata h = Some sd ->
     exists speed vtime,
       baud_case baudrate speed vtime /\
       speed_baud speed = baudrate /\
       let tio := mk_termios (Z.ldiff (c_iflag (t sd)) IBAUD0)
                    (c_oflag (t sd))
                    (Z.lor (Z.ldiff (c_cflag (t sd)) CBAUD)
                       (speed_code speed))
                    (c_lflag (t sd))
                    (<[VTIME:=vtime]> (c_cc (t sd))) speed speed in
       let r := os_tcsetattr OS (fd h) TCSANOW tio in
       Z.land (c_cflag tio) CBAUD = speed_code speed /\
       mbus_serial_set_baudrate OS handle baudrate w
       = Some (if r =? 0 then 0 else -1,
               Some (mk_handle (fd h) (Some (mk_serial_data (device sd) tio))),
               log (EvTcsetattr (fd h) TCSANOW tio r) w)).
Proof.
  split.
  - intros Hno. destruct handle as [h|]; [|reflexivity].
    apply set_baudrate_default, Hno.
  - intros Hsup h sd -> Hsd.
    destruct (supported_baud_case baudrate Hsup)
      as (speed & vtime & Hcase & Hbaud).
    exists speed, vtime. split; [exact Hcase|]. split; [exact Hbaud|].
    cbv zeta.
    split; [|exact (set_baudrate_supported OS h sd baudrate speed vtime w
                      Hsd Hcase)].
    cbn [c_cflag].
    apply Z.bits_inj'. intros n Hn.
    rewrite Z.land_spec, Z.lor_spec, Z.ldiff_spec.
    assert (H : Z.testbit (Z.ldiff (speed_code speed) CBAUD) n = false)
      by (rewrite speed_code_in_cbaud; apply Z.bits_0).
    rewrite Z.ldiff_spec in H.
    destruct (Z.testbit (c_cflag (t sd)) n), (Z.testbit (speed_code speed) n),
      (Z.testbit CBAUD n); simpl in *; congruence.
Qed.

(** C5 at 4800 baud, which is refused, and at 9600 baud, where the code 13 of
    [B9600] is written into the flag word of the zeroed settings. *)
Lemma set_baudrate_unsupported_unchanged_witness :
  mbus_serial_set_baudrate (script_os []) (Some tty_handle) 4800 fresh
  = Some (-1, Some tty_handle, fresh) /\
  mbus_serial_set_baudrate (script_os []) (Some tty_handle) 9600 fresh
  = Some (0,
          Some (mk_handle 0
                  (Some (mk_serial_data (Some "/dev/ttyS0"%string)
                           (mk_termios 0 0 13 0
                              (<[VTIME:=1]> (replicate NCCS 0))
                              B9600 B9600)))),
          log (EvTcsetattr 0 TCSANOW
                 (mk_termios 0 0 13 0 (<[VTIME:=1]> (replicate NCCS 0))
                    B9600 B9600) 0) fresh).
Proof.
  split.
  - apply (set_baudrate_unsupported_unchanged
             (script_os []) (Some tty_handle) 4800 fresh).
    unfold supported_baudrate. lia.
  - destruct (proj2 (set_baudrate_unsupported_unchanged
                       (script_os []) (Some tty_handle) 9600 fresh)
                ltac:(unfold supported_baudrate; lia)
                tty_handle
                (mk_serial_data (Some "/dev/ttyS0"%string) termios_zero)
                eq_refl eq_refl)
      as (speed & vtime & Hcase & _ & _ & Heq).
    rewrite Heq.
    destruct Hcase as [(Hb & _)|[(Hb & _)|[(Hb & _)|(_ & -> & ->)]]];
      [discriminate Hb|discriminate Hb|discriminate Hb|reflexivity].
Defined.

(** C8.  The [VTIME] left in the handle is 12, 4, 2 and 1 tenths of a second
    for 300, 1200, 2400 and 9600 baud, so of two supported rates the lower
    one gets the longer timeout. *)
Theorem vtime_decreasing_in_baudrate
    (OS : os) (h : mbus_handle) (sd : mbus_serial_data) (w : world) :
  auxdata h = Some sd ->
  (VTIME < length (c_cc (t sd)))%nat ->
  (installed_vtime (mbus_serial_set_baudrate OS (Some h) 300 w) = Some 12 /\
   installed_vtime (mbus_serial_set_baudrate OS (Some h) 1200 w) = Some 4 /\
   installed_vtime (mbus_serial_set_baudrate OS (Some h) 2400 w) = Some 2 /\
   installed_vtime (mbus_serial_set_baudrate OS (Some h) 9600 w) = Some 1) /\
  forall b1 b2,
    supported_baudrate b1 -> supported_baudrate b2 -> b1 < b2 ->
    exists v1 v2,
      installed_vtime (mbus_serial_set_baudrate OS (Some h) b1 w) = Some v1 /\
      installed_vtime (mbus_serial_set_baudrate OS (Some h) b2 w) = Some v2 /\
      v2 < v1.
Proof.
  intros Hsd Hlen.
  assert (Htable :
    installed_vtime (mbus_serial_set_baudrate OS (Some h) 300 w) = Some 12 /\
    installed_vtime (mbus_serial_set_baudrate OS (Some h) 1200 w) = Some 4 /\
    installed_vtime (mbus_serial_set_baudrate OS (Some h) 2400 w) = Some 2 /\
    installed_vtime (mbus_serial_set_baudrate OS (Some h) 9600 w) = Some 1).
  { unfold mbus_serial_set_baudrate. rewrite Hsd. simpl.
    repeat split;
      match goal with |- context [os_tcsetattr ?o ?a ?b ?c] =>
        destruct (os_tcsetattr o a b c =? 0) end;
      simpl; apply list_lookup_insert_eq, Hlen. }
  split; [exact Htable|].
  destruct Htable as (H300 & H1200 & H2400 & H9600).
  intros b1 b2 [ -> | [ -> | [ -> | -> ] ] ] [ -> | [ -> | [ -> | -> ] ] ] Hlt; try lia;
    eexists _, _; (split; [eassumption|]); (split; [eassumption|]); lia.
Qed.

(** C8 for 300 and 9600 baud. *)
Lemma vtime_decreasing_in_baudrate_witness :
  exists v1 v2,
    installed_vtime
      (mbus_serial_set_baudrate (script_os []) (Some tty_handle) 300 fresh)
    = Some v1 /\
    installed_vtime
      (mbus_serial_set_baudrate (script_os []) (Some tty_handle) 9600 fresh)
    = Some v2 /\
    v2 < v1.
Proof.
  apply (proj2 (vtime_decreasing_in_baudrate (script_os []) tty_handle
                  (mk_serial_data (Some "/dev/ttyS0"%string) termios_zero)
                  fresh eq_refl ltac:(vm_compute; lia))).
  - unfold supported_baudrate. lia.
  - unfold supported_baudrate. lia.
  - lia.
Defined.



(** ** The claim about [mbus_serial_send_frame] *)

Lemma to_int_small (n : Z) : - 2 ^ 31 <= n < 2 ^ 31 -> to_int n = n.
Proof. intros Hn. unfold to_int. rewrite Z.mod_small; lia. Qed.


Lemma first_bytes_take (count : Z) (buff : list byte) :
  first_bytes count buff = take (Z.to_nat count) buff.
Proof.
  unfold first_bytes.
  destruct (Z.leb_spec (Z.of_nat (length buff)) count); [|reflexivity].
  symmetry. apply take_ge. lia.
Qed.



(** What C7 assumes of [mbus_frame_pack] is needed: when it returns -2, the
    call asks [write] for 2^64 - 2 bytes and returns -1 whatever [write]
    answers within its contract, though the result of packing is not -1 and
    no [write] transfers fewer than -2 bytes. *)
Remark send_frame_pack_other_code :
  mbus_serial_send_frame closed_os unit (pack_code (-2)) true
    (Some tty_handle) (Some tt) fresh
  = (-1,
     mk_world 0
       [EvWrite 0 [] (2 ^ 64 - 2) (-1);
        EvStderr
          "mbus_serial_send_frame: Failed to write frame to socket (ret = -1: Bad file descriptor)"]) /\
  forall OS,
    (forall fildes data count,
        0 <= count -> -1 <= os_write OS fildes data count <= count) ->
    -1 <= os_write OS 0 [] (to_size_t (-2)) < 2 ^ 31 ->
    fst (mbus_serial_send_frame OS unit (pack_code (-2)) true
           (Some tty_handle) (Some tt) fresh) = -1 /\
    ~ Z.max 0 (os_write OS 0 [] (to_size_t (-2))) < -2.
Proof.
  split; [vm_compute; reflexivity|].
  intros OS _ Hret. split; [|lia].
  unfold mbus_serial_send_frame, pack_code, tty_handle.
  cbn [fd Z.eqb]. cbv zeta.
  replace (first_bytes (to_size_t (-2)) []) with (@nil byte)
    by (rewrite first_bytes_take; symmetry; apply take_nil).
  rewrite (to_int_small (os_write OS 0 [] (to_size_t (-2)))) by lia.
  destruct (Z.eqb_spec (os_write OS 0 [] (to_size_t (-2))) (-2)); [lia|].
  reflexivity.
Qed.

(** ** The claim about the polling loop of [main] *)

Section ReplyLoop.

Variable W : Type.
Variable mbus_recv_frame : W -> Z * W.
Variable MBUS_RECV_RESULT_OK : Z.

Local Abbreviation loop := (reply_loop W mbus_recv_frame MBUS_RECV_RESULT_OK).
Local Abbreviation after := (world_after W mbus_recv_frame).
Local Abbreviation result := (attempt W mbus_recv_frame).

(** The loop entered with [i = k] after [k] attempts either sees every
    further attempt up to the tenth fail and ends with [i = 10], or stops at
    the first attempt that returns OK. *)
Lemma reply_loop_cases (w : W) (fuel : nat) :
  forall k : nat,
    (k <= 10)%nat -> (10 - k < fuel)%nat ->
    (loop fuel (Z.of_nat k) (after k w) = (10, after 10%nat w) /\
     forall j, (k <= j < 10)%nat -> result j w <> MBUS_RECV_RESULT_OK)
    \/ exists j,
        (k <= j < 10)%nat /\
        result j w = MBUS_RECV_RESULT_OK /\
        (forall j', (k <= j' < j)%nat -> result j' w <> MBUS_RECV_RESULT_OK) /\
        loop fuel (Z.of_nat k) (after k w) = (Z.of_nat j, after (S j) w).
Proof.
  induction fuel as [|fuel IH]; intros k Hk Hfuel; [lia|].
  cbn [reply_loop]. destruct (Z.ltb_spec (Z.of_nat k) 10) as [Hlt|Hge].
  - destruct (mbus_recv_frame (after k w)) as [r w1] eqn:Hcall.
    assert (Hr : result k w = r) by (unfold attempt; rewrite Hcall; reflexivity).
    assert (Hw : after (S k) w = w1)
      by (cbn [world_after]; rewrite Hcall; reflexivity).
    destruct (Z.eqb_spec r MBUS_RECV_RESULT_OK) as [Hok|Hno].
    + right. exists k. rewrite Hr, Hw. repeat split; auto; try lia.
    + replace (Z.of_nat k + 1) with (Z.of_nat (S k)) by lia. rewrite <- Hw.
      destruct (IH (S k)) as [(Hloop & Hall)|(j & Hj & Hok & Hfirst & Hloop)];
        try lia.
      * left. split; [exact Hloop|].
        intros j Hj. destruct (decide (j = k)) as [->|Hne].
        -- rewrite Hr. exact Hno.
        -- apply Hall. lia.
      * right. exists j. repeat split; auto; try lia.
        intros j' Hj'. destruct (decide (j' = k)) as [->|Hne].
        -- rewrite Hr. exact Hno.
        -- apply Hfirst. lia.
  - left. assert (k = 10%nat) as -> by lia. split; [reflexivity|].
    intros j Hj. lia.
Qed.

(** C4.  The loop calls [mbus_recv_frame] at most ten times.  It stops at the
    first attempt that returns OK, the tenth included, and [main] goes on with
    the reply; [main] gives up with its diagnostic exactly when all ten
    attempts have returned something else. *)
Theorem reply_polling_bounded (w : W) :
  ((forall k, (k < 10)%nat -> result k w <> MBUS_RECV_RESULT_OK) <->
   main_receive_reply W mbus_recv_frame MBUS_RECV_RESULT_OK w
   = ReplyFailed W "Failed to receive M-Bus response frame."
       (after 10%nat w)) /\
  (forall k,
      (k < 10)%nat ->
      result k w = MBUS_RECV_RESULT_OK ->
      (forall j, (j < k)%nat -> result j w <> MBUS_RECV_RESULT_OK) ->
      main_receive_reply W mbus_recv_frame MBUS_RECV_RESULT_OK w
      = ReplyReceived W (Z.of_nat k) (after (S k) w)) /\
  (exists n,
      (n <= 10)%nat /\
      match main_receive_reply W mbus_recv_frame MBUS_RECV_RESULT_OK w with
      | ReplyFailed _ _ w' | ReplyReceived _ _ w' => w' = after n w
      end).
Proof.
  unfold main_receive_reply.
  destruct (reply_loop_cases w 11 0) as [(Hloop & Hall)|(j & Hj & Hok & Hfirst & Hloop)];
    try lia; change (loop 11 0 w = (10, after 10%nat w)) in Hloop
             || change (loop 11 0 w = (Z.of_nat j, after (S j) w)) in Hloop;
    rewrite Hloop.
  - change (10 <=? 10) with true. cbv iota. split; [|split].
    + split; [reflexivity|]. intros _ k Hk. apply Hall. lia.
    + intros k Hk Hok _. exfalso. apply (Hall k); [lia|exact Hok].
    + exists 10%nat. split; [lia|reflexivity].
  - assert ((10 <=? Z.of_nat j) = false) as -> by lia. split; [|split].
    + split; [|discriminate].
      intros Hall. exfalso. apply (Hall j); [lia|exact Hok].
    + intros k Hk Hokk Hfirstk.
      assert (k = j) as ->; [|reflexivity].
      destruct (lt_eq_lt_dec k j) as [[Hlt|Heq]|Hgt]; [|exact Heq|].
      * exfalso. apply (Hfirst k); [lia|exact Hokk].
      * exfalso. apply (Hfirstk j); [lia|exact Hok].
    + exists (S j). split; [lia|reflexivity].
Qed.

End ReplyLoop.

(** C4 for a reply at the tenth attempt and for no reply at all. *)
Lemma reply_polling_bounded_witness :
  main_receive_reply nat late_reply 0 0%nat = ReplyReceived nat 9 10%nat /\
  main_receive_reply nat no_reply 0 0%nat
  = ReplyFailed nat "Failed to receive M-Bus response frame." 10%nat.
Proof.
  split.
  - apply (proj1 (proj2 (reply_polling_bounded nat late_reply 0 0%nat))
             9%nat).
    + lia.
    + reflexivity.
    + intros j Hj. do 9 (destruct j as [|j]; [vm_compute; discriminate|]).
      lia.
  - apply (proj1 (reply_polling_bounded nat no_reply 0 0%nat)).
    intros k _. unfold attempt. simpl. discriminate.
Defined.

(** ** Runs on scripted devices *)

(** The assembler on the frames of the scenarios of the spec. *)
Example advance_empty : advance [] = NeedMore 1.
Proof. reflexivity. Qed.

Example advance_ack : advance [xe5] = Complete.
Proof. reflexivity. Qed.

Example advance_short_start : advance [x10] = NeedMore 4.
Proof. reflexivity. Qed.

Example advance_ping : advance ping_bytes = Complete.
Proof. reflexivity. Qed.

Example advance_ping_bad_checksum :
  advance [x10; x40; x01; x42; x16] = Invalid ChecksumMismatch.
Proof. reflexivity. Qed.

Example advance_long_header : advance [x68; x03; x03] = NeedMore 6.
Proof. reflexivity. Qed.

Example advance_bad_start : advance [x00] = Invalid BadStartByte.
Proof. reflexivity. Qed.

(** An ACK arrives at the first read. *)
Example recv_ack :
  mbus_serial_recv_frame (script_os [Some [xe5]]) unit true mbus_parse_spec
    (Some tty_handle) (Some tt) fresh
  = (Some 0,
     mk_world 1 [EvRead 0 1 (Some [xe5]);
                 EvRecvEvent MBUS_HANDLE_TYPE_SERIAL [xe5]]).
Proof. vm_compute. reflexivity. Qed.

(** A SHORT frame arrives in two pieces, after one empty read. *)
Example recv_short_frame :
  mbus_serial_recv_frame
    (script_os [Some []; Some [x10]; Some [x40; x01; x41; x16]])
    unit true mbus_parse_spec (Some tty_handle) (Some tt) fresh
  = (Some 0,
     mk_world 3 [EvRead 0 1 (Some []); EvRead 0 1 (Some [x10]);
                 EvRead 0 4 (Some [x40; x01; x41; x16]);
                 EvRecvEvent MBUS_HANDLE_TYPE_SERIAL ping_bytes]).
Proof. vm_compute. reflexivity. Qed.

(** More bytes are waiting than were asked for: the read delivers one. *)
Example recv_clipped_read :
  mbus_serial_recv_frame (script_os [Some [xe5; xe5; xe5]]) unit false
    mbus_parse_spec (Some tty_handle) (Some tt) fresh
  = (Some 0, mk_world 1 [EvRead 0 1 (Some [xe5])]).
Proof. vm_compute. reflexivity. Qed.

(** Two empty reads between the bytes and a third one after them. *)
Example recv_interleaved :
  mbus_serial_recv_frame (script_os interleaved_reads) unit true
    mbus_parse_spec (Some tty_handle) (Some tt) fresh
  = (Some (-2),
     mk_world 5 [EvRead 0 1 (Some []); EvRead 0 1 (Some [x10]);
                 EvRead 0 4 (Some []); EvRead 0 4 (Some [x40]);
                 EvRead 0 3 (Some []); EvStderr timeout_msg;
                 EvRecvEvent MBUS_HANDLE_TYPE_SERIAL [x10; x40]]).
Proof. vm_compute. reflexivity. Qed.

(** A failing read after the first byte. *)
Example recv_failing_read :
  mbus_serial_recv_frame (script_os failing_reads) unit true
    mbus_parse_spec (Some tty_handle) (Some tt) fresh
  = (Some (-1), mk_world 2 [EvRead 0 1 (Some [x10]); EvRead 0 4 None]).
Proof. vm_compute. reflexivity. Qed.

(** The ping is written, reported to the callback and drained. *)
Example send_ping :
  mbus_serial_send_frame (script_os []) unit pack_ping true
    (Some tty_handle) (Some tt) fresh
  = (0,
     mk_world 0 [EvWrite 0 ping_bytes 5 5;
                 EvSendEvent MBUS_HANDLE_TYPE_SERIAL ping_bytes;
                 EvTcdrain 0]).
Proof. vm_compute. reflexivity. Qed.

(** On a device that refuses every write, nothing but the write and the
    diagnostic happens. *)
Example send_ping_write_fails :
  mbus_serial_send_frame closed_os unit pack_ping true
    (Some tty_handle) (Some tt) fresh
  = (-1,
     mk_world 0
       [EvWrite 0 ping_bytes 5 (-1);
        EvStderr
          "mbus_serial_send_frame: Failed to write frame to socket (ret = -1: Bad file descriptor)"]).
Proof. vm_compute. reflexivity. Qed.

(** 4800 baud is refused; 300 baud sets the longest timeout. *)
Example set_baudrate_4800 :
  mbus_serial_set_baudrate (script_os []) (Some tty_handle) 4800 fresh
  = Some (-1, Some tty_handle, fresh).
Proof. vm_compute. reflexivity. Qed.

Example set_baudrate_300 :
  installed_vtime
    (mbus_serial_set_baudrate (script_os []) (Some tty_handle) 300 fresh)
  = Some 12.
Proof. vm_compute. reflexivity. Qed.

(** The reply comes at the tenth attempt, or never. *)
Example poll_late_reply :
  main_receive_reply nat late_reply 0 0%nat = ReplyReceived nat 9 10%nat.
Proof. vm_compute. reflexivity. Qed.

Example poll_no_reply :
  main_receive_reply nat no_reply 0 0%nat
  = ReplyFailed nat "Failed to receive M-Bus response frame." 10%nat.
Proof. vm_compute. reflexivity. Qed.

(** ** More about [mbus_serial_recv_frame] *)


Lemma snoc_eq_middle {A : Type} (l : list A) (e : A)
    (pre : list A) (x : A) (post : list A) :
  l ++ [e] = pre ++ x :: post ->
  (post = [] /\ pre = l /\ x = e)
  \/ exists post', post = post' ++ [e] /\ l = pre ++ x :: post'.
Proof.
  destruct post as [|z post' _] using rev_ind.
  - intros Heq. apply (app_inj_tail l pre e x) in Heq as [-> ->]. auto.
  - intros Heq.
    replace (pre ++ x :: post' ++ [z]) with ((pre ++ x :: post') ++ [z]) in Heq
      by (rewrite <- app_assoc; reflexivity).
    apply app_inj_tail in Heq as [-> ->]. right. exists post'. auto.
Qed.

Section RecvExtras.

Variable OS : os.
Variable mbus_frame : Type.
Variable _mbus_recv_event : bool.
Variable mbus_parse : list byte -> Z.

Local Abbreviation recv_frame :=
  (mbus_serial_recv_frame OS mbus_frame _mbus_recv_event mbus_parse).

(** A property of traces that survives every event a call can add holds of
    the events of the call. *)
Lemma recv_frame_trace_inv (h : mbus_handle) (f : mbus_frame) (w : world)
    (P : list event -> Prop) :
  P [] ->
  (forall s tr res,
      head_inv mbus_parse w s tr ->
      remaining s = next_request mbus_parse tr ->
      P tr ->
      P (tr ++ [EvRead (fd h) (remaining s)
                  (take (Z.to_nat (remaining s)) <$> res)])) ->
  (forall tr, P tr -> P (tr ++ [EvStderr timeout_msg])) ->
  (_mbus_recv_event = true ->
   forall tr,
     P tr -> P (tr ++ [EvRecvEvent MBUS_HANDLE_TYPE_SERIAL (received tr)])) ->
  exists tr,
    w_trace (snd (recv_frame (Some h) (Some f) w)) = w_trace w ++ tr /\ P tr.
Proof.
  intros Hnil Hread Htimeout Hhook.
  destruct (recv_loop_trace_inv OS mbus_parse h w P Hread Htimeout recv_fuel
              (recv_init w) [] (head_inv_init mbus_parse w) eq_refl Hnil)
    as (tr & Htr & HP).
  destruct (recv_loop_inv OS mbus_parse h w recv_fuel _ _
              (head_inv_init mbus_parse w)) as (tr' & Hexit).
  assert (tr' = tr) as ->.
  { destruct Hexit as (Htr' & _). rewrite Htr in Htr'.
    apply app_inv_head in Htr'. auto. }
  unfold mbus_serial_recv_frame.
  destruct (recv_loop OS mbus_parse recv_fuel h (recv_init w)) as [r s|s|s|s];
    cbn [exit_state] in *; try (exists tr; split; [exact Htr|exact HP]).
  destruct Hexit as (_ & _ & _ & _ & _ & _ & Hb & Hl & _).
  cbn [exit_state] in Hb, Hl.
  destruct (len s =? 0); [exists tr; auto|].
  assert ((len s =? -1) = false) as -> by lia.
  destruct _mbus_recv_event.
  - exists (tr ++ [EvRecvEvent MBUS_HANDLE_TYPE_SERIAL (received tr)]).
    split; [|apply Hhook; auto].
    rewrite Hb. destruct (remaining s =? 0); simpl;
      rewrite Htr, <- ?app_assoc; reflexivity.
  - exists tr. split; [|exact HP].
    destruct (remaining s =? 0); exact Htr.
Qed.

(** X1.  Each read of a call is issued on the handle's descriptor and asks
    for exactly what [mbus_parse] has answered for the bytes received before
    it, 1 for the first read; it delivers no more bytes than it asked for. *)
Theorem recv_reads_follow_parser
    (h : mbus_handle) (f : mbus_frame) (w : world) :
  exists tr,
    w_trace (snd (recv_frame (Some h) (Some f) w)) = w_trace w ++ tr /\
    forall pre fildes count res post,
      tr = pre ++ EvRead fildes count res :: post ->
      fildes = fd h /\
      count = next_request mbus_parse pre /\
      forall bs, res = Some bs -> Z.of_nat (length bs) <= count.
Proof.
  apply (recv_frame_trace_inv h f w
           (fun tr =>
              forall pre fildes count res post,
                tr = pre ++ EvRead fildes count res :: post ->
                fildes = fd h /\
                count = next_request mbus_parse pre /\
                forall bs, res = Some bs -> Z.of_nat (length bs) <= count)).
  - intros pre fildes count res post Heq. destruct pre; discriminate Heq.
  - intros s tr res0 H Hreq HP pre fildes count res post Heq.
    apply snoc_eq_middle in Heq
      as [(_ & -> & Hev)|(post' & _ & ->)]; [|eapply HP; reflexivity].
    injection Hev as -> -> ->.
    split; [reflexivity|]. split; [exact Hreq|].
    intros bs Hbs. destruct res0 as [bs0|]; [|discriminate Hbs].
    injection Hbs as <-. rewrite length_take.
    pose proof (hi_pos _ _ _ _ H). lia.
  - intros tr HP pre fildes count res post Heq.
    apply snoc_eq_middle in Heq
      as [(_ & _ & Hev)|(post' & _ & ->)]; [discriminate Hev|].
    eapply HP; reflexivity.
  - intros _ tr HP pre fildes count res post Heq.
    apply snoc_eq_middle in Heq
      as [(_ & _ & Hev)|(post' & _ & ->)]; [discriminate Hev|].
    eapply HP; reflexivity.
Qed.

(** X2.  A call with valid arguments does nothing but read from the handle's
    descriptor, write the Timeout line and call the receive callback, and
    that only if one is registered: it never opens, writes, drains or changes
    a line setting, and the line "M-Bus layer failed to parse data." of the
    test [len == -1] after the loop is never written. *)
Theorem recv_only_reads (h : mbus_handle) (f : mbus_frame) (w : world) :
  exists tr,
    w_trace (snd (recv_frame (Some h) (Some f) w)) = w_trace w ++ tr /\
    Forall (recv_event_allowed h _mbus_recv_event) tr /\
    (EvStderr "mbus_serial_recv_frame: M-Bus layer failed to parse data."
       ∉ tr).
Proof.
  destruct (recv_frame_trace_inv h f w
              (Forall (recv_event_allowed h _mbus_recv_event)))
    as (tr & Htr & Hall).
  - constructor.
  - intros s tr res _ _ HP. apply Forall_app. split; [exact HP|].
    repeat constructor.
  - intros tr HP. apply Forall_app. split; [exact HP|]. repeat constructor.
  - intros Hreg tr HP. apply Forall_app. split; [exact HP|].
    repeat constructor. exact Hreg.
  - exists tr. split; [exact Htr|]. split; [exact Hall|].
    intros Hin. rewrite Forall_forall in Hall. apply Hall in Hin.
    discriminate Hin.
Qed.

Lemma recv_frame_nreads_bound (h : mbus_handle) (f : mbus_frame) (w : world) :
  (w_nreads (snd (recv_frame (Some h) (Some f) w))
   <= w_nreads w + recv_fuel)%nat.
Proof.
  pose proof (recv_loop_reads_bound OS mbus_parse h recv_fuel (recv_init w))
    as Hle.
  unfold mbus_serial_recv_frame.
  destruct (recv_loop OS mbus_parse recv_fuel h (recv_init w)) as [r s|s|s|s];
    cbn [exit_state recv_init rw] in Hle; try exact Hle.
  destruct (len s =? 0); [exact Hle|].
  destruct _mbus_recv_event, (remaining s =? 0), (len s =? -1); exact Hle.
Qed.

(** X3.  A call that has a result, that is, one in which no read has stored
    a byte past the end of [buff], has issued at most [PACKET_BUFF_SIZE + 3]
    reads, whatever the device has delivered and whatever [mbus_parse] has
    answered.  The loop itself has no test of [len] against the size of
    [buff]: past such a store the C function goes on reading, which the
    embedding does not follow. *)
Theorem recv_reads_bounded (h : mbus_handle) (f : mbus_frame) (w : world) :
  fst (recv_frame (Some h) (Some f) w) <> None ->
  exists tr,
    w_trace (snd (recv_frame (Some h) (Some f) w)) = w_trace w ++ tr /\
    Z.of_nat (length (read_results tr)) <= PACKET_BUFF_SIZE + 3.
Proof.
  intros _.
  pose proof (recv_frame_nreads_bound h f w) as Hle.
  assert (Hfuel : Z.of_nat recv_fuel = PACKET_BUFF_SIZE + 3)
    by (unfold recv_fuel, PACKET_BUFF_SIZE; lia).
  destruct (recv_frame_cases OS mbus_frame _mbus_recv_event mbus_parse h f w)
    as (tr & _ & _ & Hcase).
  cbv zeta in Hcase.
  destruct Hcase
    as [(_ & _ & Heq)|(_ & [(_ & _ & Heq)|[(_ & Heq)|(_ & _ & Heq)]])];
    rewrite Heq in Hle |- *; cbn [snd w_trace w_nreads] in Hle |- *;
    try (exists tr; split; [reflexivity|lia]).
  destruct _mbus_recv_event; cbn [log w_trace w_nreads] in Hle |- *.
  - exists (tr ++ [EvRecvEvent MBUS_HANDLE_TYPE_SERIAL (received tr)]).
    split; [rewrite <- app_assoc; reflexivity|].
    rewrite read_results_app. simpl. rewrite app_nil_r. lia.
  - exists tr. split; [reflexivity|lia].
Qed.

(** X4.  The three results of a call that has one: 0 exactly when no read
    failed, bytes were received and [mbus_parse] calls them a complete frame;
    -2 exactly when no read failed, bytes were received and [mbus_parse] does
    not call them complete; -1 exactly when a read failed or nothing was
    received. *)
Theorem recv_result_iff (h : mbus_handle) (f : mbus_frame) (w : world) :
  exists tr,
    w_trace (snd (recv_frame (Some h) (Some f) w)) = w_trace w ++ tr /\
    let r := fst (recv_frame (Some h) (Some f) w) in
    let defined := r <> None in
    let read_failed := None ∈ read_results tr in
    (r = Some 0 <->
     defined /\ ~ read_failed /\ received tr <> [] /\
     mbus_parse (received tr) = 0) /\
    (r = Some (-2) <->
     defined /\ ~ read_failed /\ received tr <> [] /\
     mbus_parse (received tr) <> 0) /\
    (r = Some (-1) <->
     defined /\ (read_failed \/ received tr = [])).
Proof.
  destruct (recv_frame_result OS mbus_frame _mbus_recv_event mbus_parse h f w)
    as (tr & Htr & _ & _ & Hcase).
  exists tr. split; [exact Htr|]. cbv zeta in Hcase |- *.
  destruct Hcase
    as [(Hfail & _ & ->)|(Hok & [(_ & _ & ->)|[(Hnil & ->)|(Hne & _ & -> & _)]])].
  - repeat split; try discriminate; tauto.
  - repeat split; try discriminate; tauto.
  - repeat split; try discriminate; tauto.
  - destruct (Z.eqb_spec (mbus_parse (received tr)) 0) as [Hz|Hz];
      repeat split; try discriminate; try tauto; congruence.
Qed.

End RecvExtras.

(** X3 for the acknowledgement byte received at the first read. *)
Lemma recv_reads_bounded_witness :
  exists tr,
    w_trace (snd (mbus_serial_recv_frame (script_os [Some [xe5]]) unit true
                    mbus_parse_spec (Some tty_handle) (Some tt) fresh))
    = w_trace fresh ++ tr /\
    Z.of_nat (length (read_results tr)) <= PACKET_BUFF_SIZE + 3.
Proof.
  apply (recv_reads_bounded (script_os [Some [xe5]]) unit true
           mbus_parse_spec tty_handle tt fresh).
  vm_compute. discriminate.
Defined.

(** X5.  Registering the receive callback changes neither the result of a
    call nor its reads: the trace is the one without a callback, with at most
    the call of the callback added at its end. *)
Theorem recv_event_no_influence
    (OS : os) (mbus_frame : Type) (mbus_parse : list byte -> Z)
    (handle : option mbus_handle) (frame : option mbus_frame) (w : world) :
  let quiet := mbus_serial_recv_frame OS mbus_frame false mbus_parse
                 handle frame w in
  let traced := mbus_serial_recv_frame OS mbus_frame true mbus_parse
                  handle frame w in
  fst traced = fst quiet /\
  w_nreads (snd traced) = w_nreads (snd quiet) /\
  (w_trace (snd traced) = w_trace (snd quiet)
   \/ exists data,
       w_trace (snd traced)
       = w_trace (snd quiet) ++ [EvRecvEvent MBUS_HANDLE_TYPE_SERIAL data]).
Proof.
  unfold mbus_serial_recv_frame.
  destruct handle as [h|], frame as [f|]; cbn [fst snd]; auto.
  destruct (recv_loop_inv OS mbus_parse h w recv_fuel _ _
              (head_inv_init mbus_parse w)) as (tr & Hexit).
  destruct (recv_loop OS mbus_parse recv_fuel h (recv_init w)) as [r s|s|s|s];
    cbn [fst snd]; auto.
  destruct Hexit as (_ & _ & _ & _ & _ & _ & _ & Hl & _).
  cbn [exit_state] in Hl.
  destruct (len s =? 0); cbn [fst snd]; auto.
  assert ((len s =? -1) = false) as -> by lia.
  destruct (remaining s =? 0); cbn [negb fst snd log w_nreads w_trace];
    repeat split; right; exists (buff s); reflexivity.
Qed.

Lemma byte_val_range (b : byte) : 0 <= byte_val b <= 255.
Proof. destruct b; vm_compute; split; discriminate. Qed.

Lemma validate_short_done (bs : list byte) :
  forall n, validate_short bs <> NeedMore n.
Proof.
  intros n. unfold validate_short.
  destruct bs as [|? [|c [|a [|cs [|stop [|? ?]]]]]]; try discriminate.
  destruct (negb (checksum [c; a] =? byte_val cs)); [discriminate|].
  destruct (negb (byte_val stop =? 22)); discriminate.
Qed.

Lemma validate_long_done (bs : list byte) :
  forall n, validate_long bs <> NeedMore n.
Proof.
  intros n. unfold validate_long.
  destruct bs as [|? [|l1 [|l2 rest]]]; try discriminate.
  destruct (drop (length rest - 2) rest) as [|cs [|stop [|? ?]]];
    try discriminate.
  destruct (negb (byte_val l1 =? byte_val l2)); [discriminate|].
  destruct (negb (checksum (take (length rest - 2) rest) =? byte_val cs));
    [discriminate|].
  destruct (negb (byte_val stop =? 22)); discriminate.
Qed.

(** The assembler of the spec never asks for more than 261 bytes in all. *)
Lemma mbus_parse_spec_fits : parser_fits mbus_parse_spec.
Proof.
  intros buffer. unfold mbus_parse_spec, advance, PACKET_BUFF_SIZE.
  destruct buffer as [|start rest]; [simpl; lia|].
  set (n := Z.of_nat (length (start :: rest))).
  assert (Hshort : forall bs, match validate_short bs with
                              | NeedMore k => k | Complete => 0
                              | Invalid _ => -1 end <= 0).
  { intros bs. pose proof (validate_short_done bs) as Hd.
    destruct (validate_short bs); [exfalso; eapply Hd; reflexivity|lia|lia]. }
  assert (Hlong : forall bs, match validate_long bs with
                             | NeedMore k => k | Complete => 0
                             | Invalid _ => -1 end <= 0).
  { intros bs. pose proof (validate_long_done bs) as Hd.
    destruct (validate_long bs); [exfalso; eapply Hd; reflexivity|lia|lia]. }
  pose proof (byte_val_range (default x00 (rest !! 0%nat))) as Hlen.
  destruct start; try (intros Hpos; exfalso; revert Hpos; simpl; lia).
  - destruct (n <? 5) eqn:H5; [lia|].
    intros Hpos. pose proof (Hshort (take 5 (x10 :: rest))). lia.
  - destruct (n <? 3) eqn:H3; [lia|].
    destruct (n <? byte_val (default x00 (rest !! 0%nat)) + 6) eqn:Ht; [lia|].
    intros Hpos.
    pose proof (Hlong (take (Z.to_nat (byte_val (default x00 (rest !! 0%nat))
                                       + 6)) (x68 :: rest))).
    lia.
Qed.

(** X6.  With a parser that never asks for more bytes than [buff] has room
    for, no read stores a byte past the end of [buff]: every call with valid
    arguments has a result. *)
Theorem recv_no_overrun
    (OS : os) (mbus_frame : Type) (_mbus_recv_event : bool)
    (mbus_parse : list byte -> Z)
    (h : mbus_handle) (f : mbus_frame) (w : world) :
  parser_fits mbus_parse ->
  fst (mbus_serial_recv_frame OS mbus_frame _mbus_recv_event mbus_parse
         (Some h) (Some f) w) <> None.
Proof.
  intros Hfit.
  pose proof (recv_loop_no_overrun OS mbus_parse h w recv_fuel Hfit
                (recv_init w) [] (head_inv_init mbus_parse w)) as Hover.
  pose proof (recv_loop_fuel OS mbus_parse h w recv_fuel _ _
                (head_inv_init mbus_parse w)
                (recv_fuel_enough w)) as Hfuel.
  unfold mbus_serial_recv_frame.
  destruct (recv_loop OS mbus_parse recv_fuel h (recv_init w)) as [r s|s|s|s].
  - discriminate.
  - destruct (len s =? 0); [discriminate|].
    destruct (negb (remaining s =? 0)); [discriminate|].
    destruct (len s =? -1); discriminate.
  - exfalso. eapply Hover; [|reflexivity].
    unfold recv_init, PACKET_BUFF_SIZE. simpl. lia.
  - exfalso. eapply Hfuel. reflexivity.
Qed.

(** X6 for the assembler of the spec on a device with a SHORT frame. *)
Lemma recv_no_overrun_witness :
  fst (mbus_serial_recv_frame
         (script_os [Some [x10]; Some [x40; x01; x41; x16]]) unit true
         mbus_parse_spec (Some tty_handle) (Some tt) fresh) <> None.
Proof.
  apply (recv_no_overrun
           (script_os [Some [x10]; Some [x40; x01; x41; x16]]) unit true
           mbus_parse_spec tty_handle tt fresh).
  exact mbus_parse_spec_fits.
Defined.

(** ** More about [mbus_serial_send_frame] *)

(** X7.  A call that fails has neither called the send callback nor drained
    the output queue, and it has written at most once: it has done nothing
    (NULL argument), or only reported that packing failed, or issued one
    [write] for the packed length whose result, as the [int] [ret], is not
    the packed length, and reported that with [ret] and the text of
    [errno]. *)
Theorem send_failure_trace
    (OS : os) (mbus_frame : Type)
    (mbus_frame_pack : mbus_frame -> Z -> Z * list byte)
    (_mbus_send_event : bool)
    (handle : option mbus_handle) (frame : option mbus_frame) (w : world) :
  let res := mbus_serial_send_frame OS mbus_frame mbus_frame_pack
               _mbus_send_event handle frame w in
  fst res = -1 ->
  exists tr,
    w_trace (snd res) = w_trace w ++ tr /\
    (tr = []
     \/ tr = [EvStderr "mbus_serial_send_frame: mbus_frame_pack failed"]
     \/ exists h f data written,
         handle = Some h /\ frame = Some f /\
         let len := fst (mbus_frame_pack f PACKET_BUFF_SIZE) in
         let count := to_size_t len in
         to_int written <> len /\
         tr = [EvWrite (fd h) data count written;
               EvStderr (write_failed_msg (to_int written)
                           (os_strerror OS (fd h) data count))]).
Proof.
  intros res. subst res. unfold mbus_serial_send_frame.
  destruct handle as [h|], frame as [f|];
    try (intros _; exists []; split; [symmetry; apply app_nil_r|auto]).
  destruct (mbus_frame_pack f PACKET_BUFF_SIZE) as [len buff] eqn:Hpack.
  destruct (len =? -1).
  { intros _. eexists. split; [reflexivity|auto]. }
  cbv zeta.
  destruct (Z.eqb_spec
              (to_int (os_write OS (fd h)
                         (first_bytes (to_size_t len) buff)
                         (to_size_t len))) len)
    as [Hret|Hret]; [discriminate|].
  intros _. eexists. split.
  - cbn [snd log w_trace]. rewrite <- app_assoc. reflexivity.
  - right. right. exists h, f. eexists _, _.
    split; [reflexivity|]. split; [reflexivity|].
    rewrite Hpack. cbn [fst]. split; [exact Hret|reflexivity].
Qed.

(** X7 on a device that refuses every write. *)
Lemma send_failure_trace_witness :
  exists tr,
    w_trace (snd (mbus_serial_send_frame closed_os unit pack_ping true
                    (Some tty_handle) (Some tt) fresh)) = [] ++ tr /\
    (tr = []
     \/ tr = [EvStderr "mbus_serial_send_frame: mbus_frame_pack failed"]
     \/ exists h f data written,
         Some tty_handle = Some h /\ Some tt = Some f /\
         let len := fst (pack_ping f PACKET_BUFF_SIZE) in
         let count := to_size_t len in
         to_int written <> len /\
         tr = [EvWrite (fd h) data count written;
               EvStderr (write_failed_msg (to_int written)
                           (os_strerror closed_os (fd h) data count))]).
Proof.
  apply (send_failure_trace closed_os unit pack_ping true
           (Some tty_handle) (Some tt) fresh).
  vm_compute. reflexivity.
Defined.

(** X8.  Registering the send callback changes neither the result of a call
    nor what it writes: the trace without the callback is the trace with it,
    less the calls of the callback. *)
Theorem send_event_no_influence
    (OS : os) (mbus_frame : Type)
    (mbus_frame_pack : mbus_frame -> Z -> Z * list byte)
    (handle : option mbus_handle) (frame : option mbus_frame) (w : world) :
  let quiet := mbus_serial_send_frame OS mbus_frame mbus_frame_pack false
                 handle frame w in
  let traced := mbus_serial_send_frame OS mbus_frame mbus_frame_pack true
                  handle frame w in
  fst traced = fst quiet /\
  forall tr,
    w_trace (snd traced) = w_trace w ++ tr ->
    w_trace (snd quiet)
    = w_trace w
      ++ List.filter (fun e => match e with
                               | EvSendEvent _ _ => false
                               | _ => true
                               end) tr.
Proof.
  unfold mbus_serial_send_frame.
  destruct handle as [h|], frame as [f|]; cbn [fst snd];
    try (split; [reflexivity|]; intros tr Htr;
         rewrite <- (app_nil_r (w_trace w)) in Htr at 1;
         apply app_inv_head in Htr; subst tr; symmetry; apply app_nil_r).
  destruct (mbus_frame_pack f PACKET_BUFF_SIZE) as [len buff].
  destruct (len =? -1); cbn [fst snd log w_trace].
  { split; [reflexivity|]. intros tr Htr.
    apply app_inv_head in Htr. subst tr. reflexivity. }
  cbv zeta.
  destruct (to_int (os_write OS (fd h)
                      (first_bytes (to_size_t len) buff)
                      (to_size_t len)) =? len);
    cbn [fst snd log w_trace]; (split; [reflexivity|]); intros tr Htr;
    rewrite <- ?app_assoc in Htr; apply app_inv_head in Htr; subst tr;
    rewrite <- ?app_assoc; reflexivity.
Qed.

(** ** More about the line settings *)

Lemma set_baudrate_cases (OS : os) (h : mbus_handle) (sd : mbus_serial_data)
    (baudrate : Z) (w : world) :
  auxdata h = Some sd ->
  (~ supported_baudrate baudrate /\
   mbus_serial_set_baudrate OS (Some h) baudrate w = Some (-1, Some h, w))
  \/ exists speed vtime,
      baud_case baudrate speed vtime /\
      let tio := with_baud (t sd) speed vtime in
      let r := os_tcsetattr OS (fd h) TCSANOW tio in
      mbus_serial_set_baudrate OS (Some h) baudrate w
      = Some (if r =? 0 then 0 else -1,
              Some (mk_handle (fd h) (Some (mk_serial_data (device sd) tio))),
              log (EvTcsetattr (fd h) TCSANOW tio r) w).
Proof.
  intros Hsd.
  destruct (decide (baudrate = 300)) as [->|H300];
    [|destruct (decide (baudrate = 1200)) as [->|H1200];
      [|destruct (decide (baudrate = 2400)) as [->|H2400];
        [|destruct (decide (baudrate = 9600)) as [->|H9600]]]].
  5:{ left. assert (Hno : ~ supported_baudrate baudrate)
        by (unfold supported_baudrate; lia).
      split; [exact Hno|]. apply set_baudrate_default, Hno. }
  all: right;
    [> exists B300, 12 | exists B1200, 4 | exists B2400, 2 | exists B9600, 1];
    (split; [unfold baud_case; tauto|]);
    cbv zeta; apply set_baudrate_supported;
    solve [exact Hsd|unfold baud_case; tauto].
Qed.

(** X9.  Whatever the rate and whatever [tcsetattr] answers, a call of
    [mbus_serial_set_baudrate] leaves the descriptor, the device path, the
    output and local flag words, the input flag word but for the bit
    [IBAUD0], the control flag word but for the speed code in its [CBAUD]
    bits (so the character size, the parity and the modes stay), and every
    control character other than [VTIME] as they were. *)
Theorem set_baudrate_preserves
    (OS : os) (h : mbus_handle) (sd : mbus_serial_data) (baudrate : Z)
    (w : world) :
  auxdata h = Some sd ->
  exists r h' sd' w',
    mbus_serial_set_baudrate OS (Some h) baudrate w = Some (r, Some h', w') /\
    auxdata h' = Some sd' /\
    fd h' = fd h /\ device sd' = device sd /\
    Z.ldiff (c_iflag (t sd')) IBAUD0 = Z.ldiff (c_iflag (t sd)) IBAUD0 /\
    c_oflag (t sd') = c_oflag (t sd) /\
    Z.ldiff (c_cflag (t sd')) CBAUD = Z.ldiff (c_cflag (t sd)) CBAUD /\
    c_lflag (t sd') = c_lflag (t sd) /\
    length (c_cc (t sd')) = length (c_cc (t sd)) /\
    forall i, i <> VTIME -> c_cc (t sd') !! i = c_cc (t sd) !! i.
Proof.
  intros Hsd.
  destruct (set_baudrate_cases OS h sd baudrate w Hsd)
    as [(_ & ->)|(speed & vtime & _ & ->)].
  - exists (-1), h, sd, w. repeat split; auto.
  - eexists _, _, _, _. split; [reflexivity|].
    split; [reflexivity|].
    cbn [t fd device with_baud c_iflag c_oflag c_cflag c_lflag c_cc].
    do 2 (split; [reflexivity|]).
    split; [apply ibaud0_clear_twice|]. split; [reflexivity|].
    split; [apply cbaud_clear_after_set, speed_code_in_cbaud|].
    split; [reflexivity|]. split; [apply length_insert|].
    intros i Hi. apply list_lookup_insert_ne. auto.
Qed.

(** X9 for 9600 baud on a handle with the settings of a connect: the flag
    word 2491 becomes 2493, and 2480 is what both hold outside [CBAUD]. *)
Lemma set_baudrate_preserves_witness :
  exists r h' sd' w',
    mbus_serial_set_baudrate (script_os [])
      (Some (mk_handle 3
               (Some (mk_serial_data (Some "/dev/ttyS0"%string)
                        (mk_termios 0 0 2491 0
                           (<[VTIME:=2]> (<[VMIN:=0]> (replicate NCCS 0)))
                           B2400 B2400)))))
      9600 fresh
    = Some (r, Some h', w') /\
    auxdata h' = Some sd' /\
    fd h' = 3 /\ device sd' = Some "/dev/ttyS0"%string /\
    Z.ldiff (c_iflag (t sd')) IBAUD0 = 0 /\
    c_oflag (t sd') = 0 /\
    Z.ldiff (c_cflag (t sd')) CBAUD = 2480 /\
    c_lflag (t sd') = 0 /\
    length (c_cc (t sd')) = NCCS /\
    forall i,
      i <> VTIME ->
      c_cc (t sd') !! i = <[VTIME:=2]> (<[VMIN:=0]> (replicate NCCS 0)) !! i.
Proof.
  exact (set_baudrate_preserves (script_os [])
           (mk_handle 3
              (Some (mk_serial_data (Some "/dev/ttyS0"%string)
                       (mk_termios 0 0 2491 0
                          (<[VTIME:=2]> (<[VMIN:=0]> (replicate NCCS 0)))
                          B2400 B2400))))
           (mk_serial_data (Some "/dev/ttyS0"%string)
              (mk_termios 0 0 2491 0
                 (<[VTIME:=2]> (<[VMIN:=0]> (replicate NCCS 0)))
                 B2400 B2400))
           9600 fresh eq_refl).
Defined.

(** What a successful [mbus_serial_connect] leaves behind. *)
Lemma connect_success (OS : os) (handle : option mbus_handle) (w : world)
    (h' : option mbus_handle) (w' : world) :
  mbus_serial_connect OS handle w = (1, h', w') ->
  exists h sd dev,
    handle = Some h /\ auxdata h = Some sd /\ device sd = Some dev /\
    0 <= os_open OS dev (Z.lor O_RDWR O_NOCTTY) /\
    h' = Some (mk_handle (os_open OS dev (Z.lor O_RDWR O_NOCTTY))
                 (Some (mk_serial_data (Some dev)
                          (mk_termios 0 0
                             (Z.lor
                                (Z.lor (Z.lor (Z.lor CS8 CREAD) CLOCAL) PARENB)
                                (speed_code B2400))
                             0
                             (<[VTIME:=2]> (<[VMIN:=0]> (replicate NCCS 0)))
                             B2400 B2400)))).
Proof.
  unfold mbus_serial_connect.
  destruct handle as [h|]; [|discriminate].
  destruct (auxdata h) as [sd|] eqn:Hsd; [|discriminate].
  destruct (device sd) as [dev|] eqn:Hdev; [|discriminate].
  destruct (os_open OS dev (Z.lor O_RDWR O_NOCTTY) <? 0) eqn:Hfd;
    [discriminate|].
  intros Heq. injection Heq as <- <-. apply Z.ltb_ge in Hfd.
  exists h, sd, dev. repeat split; auto.
Qed.



(** X11.  The defaults of [mbus_serial_connect] are the settings of the case
    for 2400 baud: setting 2400 baud right after a successful connect leaves
    the handle exactly as the connect left it. *)
Theorem set_baudrate_2400_after_connect
    (OS : os) (handle h1 : option mbus_handle) (w w1 : world) :
  mbus_serial_connect OS handle w = (1, h1, w1) ->
  exists r w2,
    mbus_serial_set_baudrate OS h1 2400 w1 = Some (r, h1, w2).
Proof.
  intros Hconn.
  apply connect_success in Hconn as (h & sd & dev & -> & Hsd & Hdev & Hfd & ->).
  unfold mbus_serial_set_baudrate. simpl.
  match goal with |- context [os_tcsetattr ?o ?a ?b ?c] =>
    destruct (os_tcsetattr o a b c =? 0) end; eexists _, _; reflexivity.
Qed.

(** X11 on a scripted device. *)
Lemma set_baudrate_2400_after_connect_witness :
  exists r w2,
    mbus_serial_set_baudrate (script_os [])
      (snd (fst (mbus_serial_connect (script_os []) (Some tty_handle) fresh)))
      2400
      (snd (mbus_serial_connect (script_os []) (Some tty_handle) fresh))
    = Some (r,
            snd (fst (mbus_serial_connect (script_os []) (Some tty_handle)
                        fresh)),
            w2).
Proof.
  apply (set_baudrate_2400_after_connect (script_os []) (Some tty_handle)
           _ fresh _ eq_refl).
Defined.

(** X12.  Of two calls with supported rates the later one decides: the
    handle after setting [b1] and then [b2] is the handle after setting [b2]
    alone. *)
Theorem set_baudrate_last_wins
    (OS : os) (h : mbus_handle) (sd : mbus_serial_data) (b1 b2 : Z)
    (w : world) :
  auxdata h = Some sd ->
  supported_baudrate b1 ->
  supported_baudrate b2 ->
  exists r1 h1 w1 r12 r2 h2 w12 w2,
    mbus_serial_set_baudrate OS (Some h) b1 w = Some (r1, h1, w1) /\
    mbus_serial_set_baudrate OS h1 b2 w1 = Some (r12, h2, w12) /\
    mbus_serial_set_baudrate OS (Some h) b2 w = Some (r2, h2, w2).
Proof.
  intros Hsd H1 H2.
  destruct (set_baudrate_cases OS h sd b1 w Hsd)
    as [(Hno & _)|(s1 & v1 & _ & Heq1)]; [contradiction|].
  destruct (set_baudrate_cases OS h sd b2 w Hsd)
    as [(Hno & _)|(s2 & v2 & Hc2 & Heq2)]; [contradiction|].
  cbv zeta in Heq1, Heq2. rewrite Heq1, Heq2.
  set (sd1 := mk_serial_data (device sd) (with_baud (t sd) s1 v1)).
  set (h1 := mk_handle (fd h) (Some sd1)).
  destruct (set_baudrate_cases OS h1 sd1 b2
              (log (EvTcsetattr (fd h) TCSANOW (with_baud (t sd) s1 v1)
                      (os_tcsetattr OS (fd h) TCSANOW
                         (with_baud (t sd) s1 v1))) w) eq_refl)
    as [(Hno & _)|(s2' & v2' & Hc2' & Heq12)]; [contradiction|].
  assert (s2' = s2 /\ v2' = v2) as [-> ->].
  { unfold baud_case in Hc2, Hc2'.
    destruct Hc2 as [(-> & -> & ->)|[(-> & -> & ->)|[(-> & -> & ->)
                                                   |(-> & -> & ->)]]];
      destruct Hc2' as [(? & -> & ->)|[(? & -> & ->)|[(? & -> & ->)
                                                    |(? & -> & ->)]]];
      try lia; auto. }
  cbv zeta in Heq12.
  eexists _, _, _, _, _, _, _, _.
  split; [reflexivity|]. split; [exact Heq12|].
  unfold h1, sd1, with_baud. cbn [t fd device c_iflag c_oflag c_cflag c_lflag
                                  c_cc].
  rewrite list_insert_insert_eq, ibaud0_clear_twice,
    (cbaud_clear_after_set _ _ (speed_code_in_cbaud s1)).
  reflexivity.
Qed.

(** X12 for 300 baud followed by 9600 baud. *)
Lemma set_baudrate_last_wins_witness :
  exists r1 h1 w1 r12 r2 h2 w12 w2,
    mbus_serial_set_baudrate (script_os []) (Some tty_handle) 300 fresh
    = Some (r1, h1, w1) /\
    mbus_serial_set_baudrate (script_os []) h1 9600 w1
    = Some (r12, h2, w12) /\
    mbus_serial_set_baudrate (script_os []) (Some tty_handle) 9600 fresh
    = Some (r2, h2, w2).
Proof.
  apply (set_baudrate_last_wins (script_os []) tty_handle
           (mk_serial_data (Some "/dev/ttyS0"%string) termios_zero)
           300 9600 fresh eq_refl).
  - unfold supported_baudrate. lia.
  - unfold supported_baudrate. lia.
Defined.

(** X13.  A successful [mbus_serial_connect] does not look at the settings
    or the descriptor the handle held: connecting two handles for the same
    device gives the same result, the same handle and the same trace, so a
    rate set before a reconnect is forgotten. *)
Theorem connect_forgets_settings
    (OS : os) (h1 h2 : mbus_handle) (sd1 sd2 : mbus_serial_data)
    (w : world) :
  auxdata h1 = Some sd1 ->
  auxdata h2 = Some sd2 ->
  device sd1 = device sd2 ->
  fst (fst (mbus_serial_connect OS (Some h1) w)) = 1 ->
  mbus_serial_connect OS (Some h2) w = mbus_serial_connect OS (Some h1) w.
Proof.
  intros Hsd1 Hsd2 Hdev. unfold mbus_serial_connect.
  rewrite Hsd1, Hsd2, <- Hdev.
  destruct (device sd1) as [dev|]; [|discriminate].
  destruct (os_open OS dev (Z.lor O_RDWR O_NOCTTY) <? 0); [discriminate|].
  reflexivity.
Qed.

(** X13 for the handle of the examples before and after 300 baud was set. *)
Lemma connect_forgets_settings_witness :
  mbus_serial_connect (script_os [])
    (Some (mk_handle 7
             (Some (mk_serial_data (Some "/dev/ttyS0"%string)
                      (with_baud termios_zero B300 12))))) fresh
  = mbus_serial_connect (script_os []) (Some tty_handle) fresh.
Proof.
  apply (connect_forgets_settings (script_os []) tty_handle
           (mk_handle 7
              (Some (mk_serial_data (Some "/dev/ttyS0"%string)
                       (with_baud termios_zero B300 12))))
           (mk_serial_data (Some "/dev/ttyS0"%string) termios_zero)
           (mk_serial_data (Some "/dev/ttyS0"%string)
              (with_baud termios_zero B300 12))
           fresh eq_refl eq_refl eq_refl eq_refl).
Defined.

(** X14.  [mbus_serial_connect] returns 1 exactly when the handle, its data
    and the device path are there and [open] yields a descriptor, and 0 in
    every other case.  When it returns 0 it has issued no [tcsetattr] and the
    settings in the handle are what they were; [open] was called only if the
    handle, its data and the path are there, and then its negative result is
    what the handle holds as descriptor. *)
Theorem connect_result_iff
    (OS : os) (handle : option mbus_handle) (w : world) :
  let '(r, h', w') := mbus_serial_connect OS handle w in
  (r = 1 <->
   exists h sd dev,
     handle = Some h /\ auxdata h = Some sd /\ device sd = Some dev /\
     0 <= os_open OS dev (Z.lor O_RDWR O_NOCTTY)) /\
  (r = 0 \/ r = 1) /\
  (r = 0 ->
   settings h' = settings handle /\
   (w' = w
    \/ exists h sd dev,
        handle = Some h /\ auxdata h = Some sd /\ device sd = Some dev /\
        os_open OS dev (Z.lor O_RDWR O_NOCTTY) < 0 /\
        fd <$> h' = Some (os_open OS dev (Z.lor O_RDWR O_NOCTTY)) /\
        w_trace w'
        = w_trace w
          ++ [EvOpen dev (Z.lor O_RDWR O_NOCTTY)
                (os_open OS dev (Z.lor O_RDWR O_NOCTTY));
              EvStderr "mbus_serial_connect: failed to open tty."])).
Proof.
  unfold mbus_serial_connect.
  destruct handle as [h|].
  2:{ repeat split; auto; try discriminate.
      intros (h & sd & dev & Hx & _). discriminate Hx. }
  destruct (auxdata h) as [sd|] eqn:Hsd.
  2:{ repeat split; auto; try discriminate.
      intros (h0 & sd & dev & Hx & Hy & _). injection Hx as <-. congruence. }
  destruct (device sd) as [dev|] eqn:Hdev.
  2:{ repeat split; auto; try discriminate.
      intros (h0 & sd0 & dev & Hx & Hy & Hz & _). injection Hx as <-.
      congruence. }
  destruct (Z.ltb_spec (os_open OS dev (Z.lor O_RDWR O_NOCTTY)) 0)
    as [Hneg|Hpos].
  - split; [|split; [auto|]].
    + split; [discriminate|].
      intros (h0 & sd0 & dev0 & Hx & Hy & Hz & Hfd). injection Hx as <-.
      rewrite Hsd in Hy. injection Hy as <-. rewrite Hdev in Hz.
      injection Hz as <-. lia.
    + intros _. split; [simpl; rewrite Hsd; reflexivity|].
      right. exists h, sd, dev. repeat split; auto.
      cbn [log w_trace]. rewrite <- app_assoc. reflexivity.
  - split; [|split; [auto|discriminate]].
    split; [|reflexivity]. intros _. exists h, sd, dev. auto.
Qed.

(** X15.  [mbus_serial_disconnect] hands to [close] the descriptor that
    [mbus_serial_connect] has stored in the handle and returns 0, after a
    successful connect and after one that failed in [open] alike; in the
    latter case the descriptor is the negative result of [open]. *)
Theorem disconnect_after_connect
    (OS : os) (h : mbus_handle) (sd : mbus_serial_data) (dev : string)
    (w : world) :
  auxdata h = Some sd ->
  device sd = Some dev ->
  mbus_serial_disconnect (snd (fst (mbus_serial_connect OS (Some h) w)))
  = (0, Some (os_open OS dev (Z.lor O_RDWR O_NOCTTY))).
Proof.
  intros Hsd Hdev. unfold mbus_serial_connect. rewrite Hsd, Hdev.
  destruct (os_open OS dev (Z.lor O_RDWR O_NOCTTY) <? 0); reflexivity.
Qed.

(** X15 on a device that opens and on one that does not. *)
Lemma disconnect_after_connect_witness :
  mbus_serial_disconnect
    (snd (fst (mbus_serial_connect (script_os []) (Some tty_handle) fresh)))
  = (0, Some 3) /\
  mbus_serial_disconnect
    (snd (fst (mbus_serial_connect closed_os (Some tty_handle) fresh)))
  = (0, Some (-1)).
Proof.
  split.
  - apply (disconnect_after_connect (script_os []) tty_handle
             (mk_serial_data (Some "/dev/ttyS0"%string) termios_zero)
             "/dev/ttyS0"%string fresh eq_refl eq_refl).
  - apply (disconnect_after_connect closed_os tty_handle
             (mk_serial_data (Some "/dev/ttyS0"%string) termios_zero)
             "/dev/ttyS0"%string fresh eq_refl eq_refl).
Defined.

(** ** The program [mbus-serial-request-data] *)

Section Program.

Context {W : Type}.
Variable L : RequestData.lib W.

Local Abbreviation OK := (RequestData.MBUS_RECV_RESULT_OK L).
Local Abbreviation recv_logged :=
  (RequestData.call_int (RequestData.mbus_recv_frame L) RequestData.RecvFrame).

Lemma to_int_9600 : to_int 9600 = 9600.
Proof. reflexivity. Qed.

(** The calls of the polling loop entered with [i]: the attempts that did
    not return OK, followed by the one that did if the loop stops before the
    tenth failure. *)
Lemma reply_loop_calls (fuel : nat) :
  forall (i : Z) (s : RequestData.state W),
    0 <= i <= 10 -> 10 - i < Z.of_nat fuel ->
    exists rcv,
      Forall (fun r => r <> OK) rcv /\
      let res := reply_loop (RequestData.state W) recv_logged OK fuel i s in
      (fst res = 10 /\ Z.of_nat (length rcv) = 10 - i /\
       RequestData.calls (snd res)
       = RequestData.calls s ++ (RequestData.RecvFrame <$> rcv))
      \/ (fst res < 10 /\ fst res = i + Z.of_nat (length rcv) /\
          RequestData.calls (snd res)
          = RequestData.calls s ++ (RequestData.RecvFrame <$> rcv)
            ++ [RequestData.RecvFrame OK]).
Proof.
  induction fuel as [|fuel IH]; intros i s Hi Hfuel; [lia|].
  cbn [reply_loop]. destruct (Z.ltb_spec i 10) as [Hlt|Hge].
  - destruct (RequestData.mbus_recv_frame L (RequestData.outside s))
      as [r w1] eqn:Hcall.
    assert (Hstep : recv_logged s
                    = (r, RequestData.mk_state w1
                            (RequestData.calls s ++ [RequestData.RecvFrame r])))
      by (unfold RequestData.call_int; rewrite Hcall; reflexivity).
    rewrite Hstep.
    destruct (Z.eqb_spec r OK) as [->|Hno].
    + exists []. split; [constructor|]. right. cbn [fst snd]. simpl.
      split; [lia|]. split; [lia|reflexivity].
    + destruct (IH (i + 1)
                  (RequestData.mk_state w1
                     (RequestData.calls s ++ [RequestData.RecvFrame r])))
        as (rcv & Hall & Hres); try lia.
      exists (r :: rcv). split; [constructor; assumption|].
      cbv zeta in Hres |- *. cbn [RequestData.calls] in Hres.
      rewrite <- !app_assoc in Hres. cbn [length fmap list_fmap].
      destruct Hres as [(H1 & H2 & H3)|(H1 & H2 & H3)]; [left|right];
        (split; [exact H1|]); (split; [lia|exact H3]).
  - exists []. split; [constructor|]. left. cbn [fst snd]. simpl.
    split; [lia|]. split; [lia|]. symmetry. apply app_nil_r.
Qed.

(** [exchange] goes one of the ways of [exchange_path]. *)
Lemma exchange_calls (o : RequestData.options) (s s' : RequestData.state W)
    (r : Z) (lbl : RequestData.label) :
  RequestData.exchange L o s = (r, lbl, s') ->
  exists tail,
    RequestData.calls s' = RequestData.calls s ++ tail /\
    RequestData.exchange_path L o r lbl tail.
Proof.
  unfold RequestData.exchange.
  unfold RequestData.call_int at 1.
  destruct (RequestData.mbus_connect L (RequestData.outside s)) as [c w1].
  destruct (Z.eqb_spec c (-1)) as [->|Hc].
  { intros Heq. injection Heq as <- <- <-.
    eexists. split; [|apply RequestData.path_connect_failed].
    cbn. rewrite <- app_assoc. reflexivity. }
  unfold RequestData.call_int at 1. cbn [RequestData.outside RequestData.calls].
  destruct (RequestData.mbus_serial_set_baudrate L _ w1) as [rb w2].
  destruct (Z.eqb_spec rb (-1)) as [->|Hrb].
  { intros Heq. injection Heq as <- <- <-.
    eexists. split; [|apply RequestData.path_baudrate_failed, Hc].
    cbn. rewrite <- !app_assoc. reflexivity. }
  unfold RequestData.call_int at 1. cbn [RequestData.outside RequestData.calls].
  destruct (RequestData.mbus_send_request_frame_9600 L _ w2) as [rs w3].
  destruct (Z.eqb_spec rs (-1)) as [->|Hrs].
  { intros Heq. injection Heq as <- <- <-.
    eexists. split; [|apply RequestData.path_send_failed; [exact Hc|exact Hrb]].
    cbn. rewrite <- !app_assoc. reflexivity. }
  unfold RequestData.call_void at 1. unfold RequestData.call_int at 1.
  cbn [RequestData.outside RequestData.calls].
  destruct (RequestData.mbus_connect L (RequestData.mbus_disconnect L w3))
    as [c2 w4].
  unfold RequestData.call_int at 1. cbn [RequestData.outside RequestData.calls].
  destruct (RequestData.mbus_serial_set_baudrate L _ w4) as [r96 w5].
  destruct (Z.eqb_spec r96 (-1)) as [->|Hr96].
  { intros Heq. injection Heq as <- <- <-.
    eexists. split; [|apply (RequestData.path_switch_failed L o c rb rs c2);
                      assumption].
    cbn. rewrite <- !app_assoc. reflexivity. }
  set (s5 := RequestData.mk_state w5 _).
  assert (Hs5 : RequestData.calls s5
                = RequestData.calls s
                  ++ RequestData.switch_calls L o c rb rs c2 r96)
    by (unfold s5; cbn; rewrite <- !app_assoc; reflexivity).
  clearbody s5.
  unfold main_receive_reply.
  destruct (reply_loop_calls 11 0 s5) as (rcv & Hall & Hres); try lia.
  cbv zeta in Hres.
  destruct (reply_loop (RequestData.state W) recv_logged OK 11 0 s5)
    as [i s6]. cbn [fst snd] in Hres.
  destruct Hres as [(-> & Hlen & Hcalls)|(Hi & Hlen & Hcalls)].
  { change (10 <=? 10) with true. cbv iota.
    intros Heq. injection Heq as <- <- <-.
    eexists. split;
      [|apply (RequestData.path_no_reply L o c rb rs c2 r96 rcv);
        try assumption; lia].
    cbn [RequestData.say RequestData.calls].
    rewrite Hcalls, Hs5, <- !app_assoc. reflexivity. }
  assert ((10 <=? i) = false) as -> by lia.
  assert (Hshort : (length rcv < 10)%nat) by lia.
  set (s7 := if RequestData.debug o then _ else s6).
  assert (Hs7 : RequestData.calls s7
                = RequestData.calls s
                  ++ RequestData.switch_calls L o c rb rs c2 r96
                  ++ (RequestData.RecvFrame <$> rcv)
                  ++ [RequestData.RecvFrame OK] ++ RequestData.print_calls o).
  { unfold s7, RequestData.print_calls.
    destruct (RequestData.debug o); cbn [RequestData.call_void
                                        RequestData.calls];
      rewrite Hcalls, Hs5, <- ?app_assoc; [reflexivity|].
    rewrite app_nil_r. reflexivity. }
  clearbody s7.
  unfold RequestData.call_int at 1.
  destruct (RequestData.mbus_frame_data_parse L (RequestData.outside s7))
    as [p w8].
  destruct (Z.eqb_spec p (-1)) as [->|Hp].
  { intros Heq. injection Heq as <- <- <-.
    eexists. split;
      [|apply (RequestData.path_parse_failed L o c rb rs c2 r96 rcv);
        assumption].
    cbn [RequestData.say RequestData.calls RequestData.outside].
    rewrite Hs7, <- !app_assoc. reflexivity. }
  cbn [RequestData.outside RequestData.calls].
  destruct (RequestData.mbus_frame_data_xml L w8) as [[xml|] w9].
  - intros Heq. injection Heq as <- <- <-.
    eexists. split.
    2:{ apply (RequestData.path_done L o c rb rs c2 r96 rcv p xml
                 (if RequestData.reply_data_record L w9
                  then [RequestData.DataRecordFree] else []));
          try assumption.
        destruct (RequestData.reply_data_record L w9); auto. }
    cbn [RequestData.say RequestData.calls RequestData.outside].
    destruct (RequestData.reply_data_record L w9);
      cbn [RequestData.call_void RequestData.say RequestData.calls
           RequestData.outside];
      rewrite Hs7, <- !app_assoc; cbn [app bool_decide];
      rewrite ?app_nil_r; reflexivity.
  - intros Heq. injection Heq as <- <- <-.
    eexists. split;
      [|apply (RequestData.path_xml_failed L o c rb rs c2 r96 rcv p);
        assumption].
    cbn [RequestData.say RequestData.calls RequestData.outside].
    rewrite Hs7, <- !app_assoc. reflexivity.
Qed.

(** Every run of [main] on an accepted command line: the context is refused,
    or the calls are those of a way through [exchange] between the creation
    of the context and the cleanup. *)
Lemma main_calls (argv : list string) (o : RequestData.options) (w : W) :
  RequestData.parse_args L argv = Some o ->
  (exists w1,
      RequestData.main L argv w
      = (1, RequestData.mk_state w1
              [RequestData.ContextSerial (RequestData.device o) false;
               RequestData.Fprintf true
                 "Could not initialize M-Bus context: %s"
                 [RequestData.AStr (RequestData.mbus_error_str L w1)]]))
  \/ exists r lbl tail,
      RequestData.exchange_path L o r lbl tail /\
      fst (RequestData.main L argv w) = r /\
      RequestData.calls (snd (RequestData.main L argv w))
      = RequestData.ContextSerial (RequestData.device o) true
        :: RequestData.register_calls o ++ tail
           ++ RequestData.cleanup_calls lbl.
Proof.
  intros Hargs. unfold RequestData.main. rewrite Hargs.
  destruct (RequestData.mbus_context_serial L (RequestData.device o) w)
    as [[|] w1]; cbn [negb]; [|left; exists w1; reflexivity].
  right.
  set (s1 := if RequestData.debug o then _ else _).
  assert (Hs1 : RequestData.calls s1
                = RequestData.ContextSerial (RequestData.device o) true
                  :: RequestData.register_calls o).
  { unfold s1, RequestData.register_calls.
    destruct (RequestData.debug o); reflexivity. }
  clearbody s1.
  destruct (RequestData.exchange L o s1) as [[r lbl] s2] eqn:Hex.
  apply exchange_calls in Hex as (tail & Hcalls & Hpath).
  exists r, lbl, tail. split; [exact Hpath|]. split; [reflexivity|].
  cbn [snd RequestData.call_void RequestData.calls].
  destruct lbl; cbn [RequestData.call_void RequestData.calls
                     RequestData.cleanup_calls];
    rewrite Hcalls, Hs1, <- ?app_assoc; reflexivity.
Qed.

Lemma parse_args_accepted (argv : list string) :
  RequestData.parse_args L argv = None <-> ~ RequestData.accepted argv.
Proof.
  unfold RequestData.parse_args, RequestData.accepted.
  destruct argv as [|p [|a1 [|a2 [|a3 [|a4 [|a5 [|a6 rest]]]]]]].
  1-3, 8: split; [intros _ [(?&?&?&H)|[(?&?&?&H)|[(?&?&?&?&H)|(?&?&?&?&H)]]];
                  discriminate H|reflexivity].
  - split; [discriminate|]. intros H. exfalso. apply H. left. eauto.
  - destruct (String.eqb_spec a1 "-d") as [->|Hd].
    + split; [discriminate|]. intros H. exfalso. apply H. right. left. eauto.
    + split; [|reflexivity].
      intros _ [(?&?&?&H)|[(?&?&?&H)|[(?&?&?&?&H)|(?&?&?&?&H)]]];
        simplify_eq; congruence.
  - destruct (String.eqb_spec a1 "-b") as [->|Hb].
    + split; [discriminate|]. intros H. exfalso. apply H. right. right. left.
      eauto.
    + split; [|reflexivity].
      intros _ [(?&?&?&H)|[(?&?&?&H)|[(?&?&?&?&H)|(?&?&?&?&H)]]];
        simplify_eq; congruence.
  - destruct (String.eqb_spec a1 "-d") as [->|Hd];
      [destruct (String.eqb_spec a2 "-b") as [->|Hb]|]; cbn [andb].
    + split; [discriminate|]. intros H. exfalso. apply H. right. right. right.
      eauto.
    + split; [|reflexivity].
      intros _ [(?&?&?&H)|[(?&?&?&H)|[(?&?&?&?&H)|(?&?&?&?&H)]]];
        simplify_eq; congruence.
    + split; [|reflexivity].
      intros _ [(?&?&?&H)|[(?&?&?&H)|[(?&?&?&?&H)|(?&?&?&?&H)]]];
        simplify_eq; congruence.
Qed.

Lemma parse_args_some (argv : list string) (o : RequestData.options) :
  RequestData.parse_args L argv = Some o -> RequestData.accepted argv.
Proof.
  unfold RequestData.parse_args, RequestData.accepted.
  destruct argv as [|p [|a1 [|a2 [|a3 [|a4 [|a5 [|a6 rest]]]]]]];
    try discriminate.
  - intros _. left. eauto.
  - destruct (String.eqb_spec a1 "-d") as [->|Hd]; [|discriminate].
    intros _. right. left. eauto.
  - destruct (String.eqb_spec a1 "-b") as [->|Hb]; [|discriminate].
    intros _. right. right. left. eauto.
  - destruct (String.eqb_spec a1 "-d") as [->|Hd]; [|discriminate].
    destruct (String.eqb_spec a2 "-b") as [->|Hb]; [|discriminate].
    intros _. right. right. right. eauto.
Qed.

End Program.

(** ** Runs of [main] *)

Ltac elem_cases H :=
  repeat match type of H with
         | _ ∈ _ ++ _ => apply elem_of_app in H as [H|H]
         | _ ∈ _ :: _ => apply elem_of_cons in H as [H|H]
         | _ ∈ [] => apply elem_of_nil in H; contradiction
         | _ ∈ _ <$> _ => apply list_elem_of_fmap in H as (? & H & ?)
         | _ = _ => discriminate H
         end.

Ltac path_lists :=
  unfold RequestData.switch_calls, RequestData.print_calls,
    RequestData.register_calls, RequestData.cleanup_calls in *.

Lemma filter_error_recv (rcv : list Z) :
  List.filter RequestData.is_error_line (RequestData.RecvFrame <$> rcv) = [].
Proof. induction rcv as [|r rcv IH]; [reflexivity|exact IH]. Qed.

Section ProgramRuns.

Context {W : Type}.
Variable L : RequestData.lib W.

(** X16.  On a command line that [main] accepts, it returns 0 or 1, and 0
    exactly when it has printed the XML text on the standard output; a run
    that returns 1 has written exactly one line to the standard error and a
    run that returns 0 none. *)
Theorem main_exit_status (argv : list string) (w : W) :
  RequestData.accepted argv ->
  let r := fst (RequestData.main L argv w) in
  let cs := RequestData.calls (snd (RequestData.main L argv w)) in
  (r = 0 \/ r = 1) /\
  (r = 0 <->
   exists xml,
     RequestData.Fprintf false "%s" [RequestData.AStr xml] ∈ cs) /\
  length (List.filter RequestData.is_error_line cs)
  = if r =? 0 then 0%nat else 1%nat.
Proof.
  intros Hacc.
  destruct (RequestData.parse_args L argv) as [o|] eqn:Hargs;
    [|apply parse_args_accepted in Hargs; contradiction].
  destruct (main_calls L argv o w Hargs)
    as [(w1 & Hm)|(r & lbl & tail & Hpath & Hr & Hcs)].
  - rewrite Hm. cbn. split; [auto|]. split; [|reflexivity].
    split; [discriminate|]. intros (xml & Hin). elem_cases Hin.
  - cbv zeta. rewrite Hr, Hcs. clear Hr Hcs.
    destruct Hpath
      as [| | | | | | |c rb rs c2 r96 rcv p xml free ? ? ? ? ? ? ? Hfree];
      path_lists; destruct (RequestData.debug o);
      try destruct Hfree as [ -> | -> ];
      (split; [auto|]);
      (split;
       [try (split; [discriminate|]; intros (xml' & Hin); exfalso;
             elem_cases Hin);
        try (split; [intros _|reflexivity]; exists xml;
             rewrite ?elem_of_cons, ?elem_of_app, ?elem_of_cons; tauto)
       |repeat (cbn [app List.filter RequestData.is_error_line length];
                rewrite ?List.filter_app, ?filter_error_recv, ?length_app);
        reflexivity]).
Qed.

(** X17.  [main] looks at its command line before anything else: on one it
    accepts, its first call creates the context for the device named there;
    on any other it writes the three usage lines, calls nothing of the
    library and returns 0. *)
Theorem main_usage (argv : list string) (w : W) :
  (RequestData.accepted argv /\
   exists o ok rest,
     RequestData.parse_args L argv = Some o /\
     RequestData.calls (snd (RequestData.main L argv w))
     = RequestData.ContextSerial (RequestData.device o) ok :: rest)
  \/ (~ RequestData.accepted argv /\
      RequestData.main L argv w
      = (0, RequestData.mk_state w (RequestData.usage argv))).
Proof.
  destruct (RequestData.parse_args L argv) as [o|] eqn:Hargs.
  - left. split.
    + exact (parse_args_some L argv o Hargs).
    + destruct (main_calls L argv o w Hargs)
        as [(w1 & Hm)|(r & lbl & tail & _ & _ & Hcs)].
      * rewrite Hm. eauto.
      * rewrite Hcs. eauto.
  - right. split; [exact (proj1 (parse_args_accepted L argv) Hargs)|].
    unfold RequestData.main. rewrite Hargs. reflexivity.
Qed.

Lemma exchange_path_head (o : RequestData.options) (r : Z)
    (lbl : RequestData.label) (tail : list RequestData.call) :
  RequestData.exchange_path L o r lbl tail ->
  exists c tail',
    tail = RequestData.Connect c :: tail' /\
    (RequestData.ContextFree ∉ tail') /\
    match lbl with
    | RequestData.FAILC =>
      c = -1 /\ (RequestData.Disconnect ∉ tail') /\
      forall c', RequestData.Connect c' ∉ tail'
    | RequestData.FAIL => c <> -1
    end.
Proof.
  intros Hpath.
  destruct Hpath
    as [| | | | | | |c rb rs c2 r96 rcv p xml free ? ? ? ? ? ? ? Hfree];
    path_lists; cbn [app]; eexists _, _; (split; [reflexivity|]);
    destruct (RequestData.debug o); try destruct Hfree as [ -> | -> ];
    (split; [intros Hin; elem_cases Hin|]); try assumption;
    (split; [reflexivity|]);
    (split; [intros Hin; elem_cases Hin|intros c' Hin; elem_cases Hin]).
Qed.

(** X18.  A run of [main] that got its context has connected right after
    the callbacks were registered, and it ends with the only
    [mbus_context_free] it makes.  If that first [mbus_connect] returned -1,
    the run has no [mbus_disconnect] and no other [mbus_connect]; if it
    returned anything else, [mbus_disconnect] comes right before
    [mbus_context_free], on success and on every failure alike. *)
Theorem main_cleanup (argv : list string) (w : W) (dev : string) :
  RequestData.ContextSerial dev true
    ∈ RequestData.calls (snd (RequestData.main L argv w)) ->
  exists o c rest,
    RequestData.parse_args L argv = Some o /\
    RequestData.calls (snd (RequestData.main L argv w))
    = RequestData.ContextSerial (RequestData.device o) true
      :: RequestData.register_calls o
         ++ RequestData.Connect c :: rest ++ [RequestData.ContextFree] /\
    (RequestData.ContextFree ∉ rest) /\
    (c = -1 ->
     (RequestData.Disconnect ∉ rest) /\
     forall c', RequestData.Connect c' ∉ rest) /\
    (c <> -1 -> exists rest', rest = rest' ++ [RequestData.Disconnect]).
Proof.
  intros Hin.
  destruct (RequestData.parse_args L argv) as [o|] eqn:Hargs.
  2: { unfold RequestData.main in Hin. rewrite Hargs in Hin.
       unfold RequestData.usage in Hin. cbn [snd RequestData.calls] in Hin.
       elem_cases Hin. }
  destruct (main_calls L argv o w Hargs)
    as [(w1 & Hm)|(r & lbl & tail & Hpath & _ & Hcs)].
  { rewrite Hm in Hin. cbn in Hin. elem_cases Hin. }
  rewrite Hcs. clear Hin Hcs.
  apply exchange_path_head in Hpath as (c & tail' & -> & Hfree & Hc).
  exists o, c.
  destruct lbl; cbn [RequestData.cleanup_calls].
  - exists (tail' ++ [RequestData.Disconnect]).
    split; [reflexivity|].
    split; [cbn [app]; rewrite <- !app_assoc; reflexivity|].
    split; [|split].
    + intros Hin. rewrite elem_of_app in Hin.
      destruct Hin as [Hin|Hin]; [auto|elem_cases Hin].
    + intros Hneg. contradiction.
    + intros _. eauto.
  - destruct Hc as (-> & Hd & Hall).
    exists tail'. split; [reflexivity|]. split; [reflexivity|].
    split; [exact Hfree|]. split; [auto|].
    intros Hneg. contradiction Hneg. reflexivity.
Qed.

(** X19.  Before [main] asks for the reply, it has connected, set the baud
    rate of the command line (2400 without [-b], as an [int]), sent one
    request to the address of the command line, disconnected, connected
    again and set 9600 baud, all but the second [mbus_connect] with a result
    other than -1; the second [mbus_connect] may have returned anything.
    The attempts to receive follow one another, at least one and at most
    ten, and nothing is received or sent after them. *)
Theorem main_switch_before_receive (argv : list string) (w : W) (x : Z) :
  RequestData.RecvFrame x
    ∈ RequestData.calls (snd (RequestData.main L argv w)) ->
  exists o c rb rs c2 r96 rcv post,
    RequestData.parse_args L argv = Some o /\
    RequestData.calls (snd (RequestData.main L argv w))
    = RequestData.ContextSerial (RequestData.device o) true
      :: RequestData.register_calls o
         ++ [RequestData.Connect c;
             RequestData.SetBaudrate (to_int (RequestData.baudrate o)) rb;
             RequestData.SendRequestFrame9600
               (RequestData.atoi L (RequestData.addr_str o)) rs;
             RequestData.Disconnect;
             RequestData.Connect c2;
             RequestData.SetBaudrate 9600 r96]
         ++ (RequestData.RecvFrame <$> rcv) ++ post /\
    c <> -1 /\ rb <> -1 /\ rs <> -1 /\ r96 <> -1 /\
    (0 < length rcv <= 10)%nat /\
    (forall y, RequestData.RecvFrame y ∉ post) /\
    (forall a y, RequestData.SendRequestFrame9600 a y ∉ post).
Proof.
  intros Hin.
  destruct (RequestData.parse_args L argv) as [o|] eqn:Hargs.
  2: { unfold RequestData.main in Hin. rewrite Hargs in Hin.
       unfold RequestData.usage in Hin. cbn [snd RequestData.calls] in Hin.
       elem_cases Hin. }
  destruct (main_calls L argv o w Hargs)
    as [(w1 & Hm)|(r & lbl & tail & Hpath & _ & Hcs)].
  { rewrite Hm in Hin. cbn in Hin. elem_cases Hin. }
  rewrite Hcs in Hin |- *. clear Hcs. exists o.
  destruct Hpath
    as [ | | | 
       | c rb rs c2 r96 rcv ? ? ? ? ? Hlen
       | c rb rs c2 r96 rcv e ? ? ? ? ? Hlen
       | c rb rs c2 r96 rcv p e ? ? ? ? ? Hlen ?
       | c rb rs c2 r96 rcv p xml free ? ? ? ? ? Hlen ? Hfree].
  1-4: exfalso; path_lists; destruct (RequestData.debug o); elem_cases Hin.
  - exists c, rb, rs, c2, r96, rcv,
      ([RequestData.Fprintf true "Failed to receive M-Bus response frame." []]
       ++ RequestData.cleanup_calls RequestData.FAIL).
    split; [reflexivity|].
    split; [unfold RequestData.switch_calls; rewrite <- !app_assoc;
            reflexivity|].
    repeat (split; [assumption || lia|]).
    split; intros; intros Hp; path_lists; elem_cases Hp.
  - exists c, rb, rs, c2, r96, (rcv ++ [RequestData.MBUS_RECV_RESULT_OK L]),
      (RequestData.print_calls o
       ++ [RequestData.FrameDataParse (-1);
           RequestData.Fprintf true "M-bus data parse error: %s"
             [RequestData.AStr e]]
       ++ RequestData.cleanup_calls RequestData.FAIL).
    split; [reflexivity|].
    split; [unfold RequestData.switch_calls; rewrite fmap_app;
            rewrite <- !app_assoc; reflexivity|].
    repeat (split; [assumption || (rewrite length_app; cbn; lia)|]).
    split; intros; intros Hp; path_lists; destruct (RequestData.debug o);
      elem_cases Hp.
  - exists c, rb, rs, c2, r96, (rcv ++ [RequestData.MBUS_RECV_RESULT_OK L]),
      (RequestData.print_calls o
       ++ [RequestData.FrameDataParse p; RequestData.FrameDataXml false;
           RequestData.Fprintf true
             "Failed to generate XML representation of MBUS frame: %s"
             [RequestData.AStr e]]
       ++ RequestData.cleanup_calls RequestData.FAIL).
    split; [reflexivity|].
    split; [unfold RequestData.switch_calls; rewrite fmap_app;
            rewrite <- !app_assoc; reflexivity|].
    repeat (split; [assumption || (rewrite length_app; cbn; lia)|]).
    split; intros; intros Hp; path_lists; destruct (RequestData.debug o);
      elem_cases Hp.
  - exists c, rb, rs, c2, r96, (rcv ++ [RequestData.MBUS_RECV_RESULT_OK L]),
      (RequestData.print_calls o
       ++ ([RequestData.FrameDataParse p; RequestData.FrameDataXml true;
            RequestData.Fprintf false "%s" [RequestData.AStr xml];
            RequestData.FreeXml] ++ free)
       ++ RequestData.cleanup_calls RequestData.FAIL).
    split; [reflexivity|].
    split; [unfold RequestData.switch_calls; rewrite fmap_app;
            rewrite <- !app_assoc; reflexivity|].
    repeat (split; [assumption || (rewrite length_app; cbn; lia)|]).
    split; intros; intros Hp; path_lists; destruct (RequestData.debug o);
      destruct Hfree as [ -> | -> ]; elem_cases Hp.
Qed.

(** [init_slaves], whose call [main] has under [#if 0], sends one or two
    pings, each to the network-layer address with the purge flag 1, and the
    second only if the first did not return -1; it returns 1 exactly when two
    pings were sent and neither returned -1, and 0 in the other cases. *)
Lemma init_slaves_pings (debug : bool) (s : RequestData.state W) :
  exists tail rs,
    RequestData.calls (snd (RequestData.init_slaves L debug s))
    = RequestData.calls s ++ tail /\
    RequestData.ping_results tail
    = (fun r => (RequestData.MBUS_ADDRESS_NETWORK_LAYER L, 1, r)) <$> rs /\
    ((rs = [-1] /\ fst (RequestData.init_slaves L debug s) = 0)
     \/ (exists r1, r1 <> -1 /\ rs = [r1; -1] /\
                    fst (RequestData.init_slaves L debug s) = 0)
     \/ (exists r1 r2, r1 <> -1 /\ r2 <> -1 /\ rs = [r1; r2] /\
                       fst (RequestData.init_slaves L debug s) = 1)).
Proof.
  unfold RequestData.init_slaves, RequestData.call_int, RequestData.say.
  destruct debug; cbn [RequestData.outside RequestData.calls].
  - destruct (RequestData.mbus_send_ping_frame L _ 1 (RequestData.outside s))
      as [r1 w1].
    destruct (Z.eqb_spec r1 (-1)) as [->|H1].
    + eexists. exists [-1]. cbn [snd fst RequestData.calls].
      rewrite <- app_assoc. split; [reflexivity|]. split; [reflexivity|].
      left. auto.
    + cbn [RequestData.outside RequestData.calls].
      destruct (RequestData.mbus_send_ping_frame L _ 1 w1) as [r2 w2].
      destruct (Z.eqb_spec r2 (-1)) as [->|H2];
        (eexists; exists [r1; r2] || exists [r1; -1]);
        cbn [snd fst RequestData.calls]; rewrite <- !app_assoc;
        (split; [reflexivity|]); (split; [reflexivity|]); right;
        first [left; solve [eauto 6]|right; solve [eauto 6]].
  - destruct (RequestData.mbus_send_ping_frame L _ 1 (RequestData.outside s))
      as [r1 w1].
    destruct (Z.eqb_spec r1 (-1)) as [->|H1].
    + eexists. exists [-1]. cbn [snd fst RequestData.calls].
      split; [reflexivity|]. split; [reflexivity|]. left. auto.
    + cbn [RequestData.outside RequestData.calls].
      destruct (RequestData.mbus_send_ping_frame L _ 1 w1) as [r2 w2].
      destruct (Z.eqb_spec r2 (-1)) as [->|H2];
        (eexists; exists [r1; r2] || exists [r1; -1]);
        cbn [snd fst RequestData.calls]; rewrite <- !app_assoc;
        (split; [reflexivity|]); (split; [reflexivity|]); right;
        first [left; solve [eauto 6]|right; solve [eauto 6]].
Qed.

End ProgramRuns.

(** The witness of X16: the meter answers at the tenth attempt. *)
Lemma main_exit_status_witness :
  fst (RequestData.main (RequestData.meter late_reply (Some "<MBusData/>"%string))
         ["mbus-serial-request-data"; "/dev/ttyS0"; "5"]%string 0%nat) = 0
  \/ fst (RequestData.main
            (RequestData.meter late_reply (Some "<MBusData/>"%string))
            ["mbus-serial-request-data"; "/dev/ttyS0"; "5"]%string 0%nat) = 1.
Proof.
  refine (proj1 (main_exit_status
                   (RequestData.meter late_reply (Some "<MBusData/>"%string))
                   ["mbus-serial-request-data"; "/dev/ttyS0"; "5"]%string
                   0%nat _)).
  left. exists "mbus-serial-request-data"%string, "/dev/ttyS0"%string,
          "5"%string. reflexivity.
Defined.


(** The witness of X18: the meter never answers, and [main] still
    disconnects and frees the context. *)
Lemma main_cleanup_witness :
  exists o c rest,
    RequestData.parse_args (RequestData.meter no_reply None)
      ["mbus-serial-request-data"; "/dev/ttyS0"; "5"]%string = Some o /\
    RequestData.calls
      (snd (RequestData.main (RequestData.meter no_reply None)
              ["mbus-serial-request-data"; "/dev/ttyS0"; "5"]%string 0%nat))
    = RequestData.ContextSerial (RequestData.device o) true
      :: RequestData.register_calls o
         ++ RequestData.Connect c :: rest ++ [RequestData.ContextFree] /\
    (RequestData.ContextFree ∉ rest) /\
    (c = -1 ->
     (RequestData.Disconnect ∉ rest) /\
     forall c', RequestData.Connect c' ∉ rest) /\
    (c <> -1 -> exists rest', rest = rest' ++ [RequestData.Disconnect]).
Proof.
  apply (main_cleanup (RequestData.meter no_reply None)
           ["mbus-serial-request-data"; "/dev/ttyS0"; "5"]%string 0%nat
           "/dev/ttyS0"%string).
  vm_compute. apply list_elem_of_here.
Defined.

(** The witness of X19: a run with [-d -b 300] in which the meter answers at
    the tenth attempt. *)
Lemma main_switch_before_receive_witness :
  exists o c rb rs c2 r96 rcv post,
    RequestData.parse_args
      (RequestData.meter late_reply (Some "<MBusData/>"%string))
      ["mbus-serial-request-data"; "-d"; "-b"; "300"; "/dev/ttyS0"; "5"]%string
    = Some o /\
    RequestData.calls
      (snd (RequestData.main
              (RequestData.meter late_reply (Some "<MBusData/>"%string))
              ["mbus-serial-request-data"; "-d"; "-b"; "300"; "/dev/ttyS0";
               "5"]%string 0%nat))
    = RequestData.ContextSerial (RequestData.device o) true
      :: RequestData.register_calls o
         ++ [RequestData.Connect c;
             RequestData.SetBaudrate (to_int (RequestData.baudrate o)) rb;
             RequestData.SendRequestFrame9600
               (RequestData.atoi
                  (RequestData.meter late_reply (Some "<MBusData/>"%string))
                  (RequestData.addr_str o)) rs;
             RequestData.Disconnect;
             RequestData.Connect c2;
             RequestData.SetBaudrate 9600 r96]
         ++ (RequestData.RecvFrame <$> rcv) ++ post /\
    c <> -1 /\ rb <> -1 /\ rs <> -1 /\ r96 <> -1 /\
    (0 < length rcv <= 10)%nat /\
    (forall y, RequestData.RecvFrame y ∉ post) /\
    (forall a y, RequestData.SendRequestFrame9600 a y ∉ post).
Proof.
  apply (main_switch_before_receive
           (RequestData.meter late_reply (Some "<MBusData/>"%string))
           ["mbus-serial-request-data"; "-d"; "-b"; "300"; "/dev/ttyS0";
            "5"]%string 0%nat 0).
  vm_compute.
  repeat first [apply list_elem_of_here|apply list_elem_of_further].
Defined.
